(** * i3++ (Marlin derivative) motion planner and thermal safety loop

    A shallow embedding of the planner ring buffer, the trapezoid
    generator, the block builder and the heater control code of
    [Tuna/planner.h], [Tuna/Marlin_main.cpp] and
    [Tuna/thermal/thermal.cpp], and of the G-code command queue and the
    software endstops of [Tuna/Marlin_main.cpp], followed by the
    properties established about them.

    Conventions.
    - Fixed-width integers are values of [Z]; every conversion to a
      narrower or differently signed type is written out with the
      functions of [MachineInt].
    - [float] is the 32-bit IEEE-754 binary format of the AVR target
      (where [double] is 32 bits wide as well), computed with the
      executable specification [SpecFloat] at precision 24.
    - A conversion from [float] to an integer type has no defined result
      when the truncated value does not fit the type (or the operand is
      not finite); such conversions are partial ([option]).
    - Compile-time configuration that lives outside the files modelled
      (pins, thermistor table, buffer capacity, ...) is gathered in the
      classes [PlannerConfig], [Board] and [QueueConfig]. *)

From Stdlib Require Import ZArith Bool List Lia SpecFloat.
From Stdlib Require Strings.String Strings.Ascii.
From stdpp Require Import base option list.
Import ListNotations.
Import (notations) String.
Import String.StringSyntax.

Local Open Scope Z_scope.

(** ** Fixed-width integers *)

Module MachineInt.

Definition wrap_unsigned (bits x : Z) : Z := x mod 2 ^ bits.

Definition wrap_signed (bits x : Z) : Z :=
  (x + 2 ^ (bits - 1)) mod 2 ^ bits - 2 ^ (bits - 1).

Definition uint8 := wrap_unsigned 8.
Definition uint16 := wrap_unsigned 16.
Definition uint24 := wrap_unsigned 24.
Definition uint32 := wrap_unsigned 32.
Definition int8 := wrap_signed 8.
Definition int24 := wrap_signed 24.
Definition int32 := wrap_signed 32.

(** Modelled from the spec: the bit macros [_BV(b)], [TEST(v, b)],
    [SBI(v, b)] and [CBI(v, b)], whose header is not among the files
    modelled.  The block flags are a "bitset", one bit per flag: bit
    value, bit test, bit set and bit clear. *)
Definition _BV (b : Z) : Z := Z.shiftl 1 b.
Definition TEST (v b : Z) : bool := Z.testbit v b.
Definition SBI (v b : Z) : Z := Z.lor v (_BV b).
Definition CBI (v b : Z) : Z := Z.ldiff v (_BV b).

(** Modelled from the spec: the clamping macros, whose header is not
    among the files modelled.  [NOLESS(v, n)] is "clamped up to" [n],
    [NOMORE(v, n)] is clamped down to [n]. *)
Definition NOLESS (v n : Z) : Z := if v <? n then n else v.
Definition NOMORE (v n : Z) : Z := if n <? v then n else v.

(** Modelled from the spec: [WITHIN(v, l, h)], whose header is not among
    the files modelled: [v] lies in the closed range from [l] to [h]. *)
Definition WITHIN (v lo hi : Z) : bool := (lo <=? v) && (v <=? hi).

End MachineInt.

(** ** Single-precision floating point *)

Module F32.

Definition prec : Z := 24.
Definition emax : Z := 128.

Definition float : Type := spec_float.

Definition of_Z (n : Z) : float := binary_normalize prec emax n 0 false.

Definition add : float -> float -> float := SFadd prec emax.
Definition sub : float -> float -> float := SFsub prec emax.
Definition mul : float -> float -> float := SFmul prec emax.
Definition div : float -> float -> float := SFdiv prec emax.
Definition sqrt : float -> float := SFsqrt prec emax.
Definition opp : float -> float := SFopp.
Definition abs : float -> float := SFabs.

Definition eqb : float -> float -> bool := SFeqb.
Definition ltb : float -> float -> bool := SFltb.
Definition leb : float -> float -> bool := SFleb.
Definition neb (x y : float) : bool := negb (eqb x y).
Definition gtb (x y : float) : bool := ltb y x.
Definition geb (x y : float) : bool := leb y x.

Definition zero : float := S754_zero false.
Definition one : float := of_Z 1.

(** A decimal literal [p/q], rounded to the nearest [float]. *)
Definition of_ratio (p q : Z) : float := div (of_Z p) (of_Z q).

(** Modelled from the spec: [sq], [min] and [max], whose header is not
    among the files modelled: the square, and the smaller and the larger
    of two numbers, the second operand when the comparison fails. *)
Definition sq (x : float) : float := mul x x.
Definition min (x y : float) : float := if ltb x y then x else y.
Definition max (x y : float) : float := if gtb x y then x else y.

(** The integer just below, just above, and towards zero of a finite
    value. *)
Definition floorZ (x : float) : option Z :=
  match x with
  | S754_zero _ => Some 0
  | S754_finite s m e =>
      Some (if 0 <=? e then Z.shiftl (cond_Zopp s (Zpos m)) e
            else Z.shiftr (cond_Zopp s (Zpos m)) (- e))
  | _ => None
  end.

Definition ceilZ (x : float) : option Z :=
  match floorZ (opp x) with
  | Some z => Some (- z)
  | None => None
  end.

Definition truncZ (x : float) : option Z :=
  match x with
  | S754_finite true _ _ => ceilZ x
  | _ => floorZ x
  end.

(** The nearest integer of a finite value, a half going away from
    zero. *)
Definition roundZ (x : float) : option Z :=
  match x with
  | S754_zero _ => Some 0
  | S754_finite s m e =>
      Some (cond_Zopp s
              (if 0 <=? e then Z.shiftl (Zpos m) e
               else Z.shiftr (Zpos m + Z.shiftl 1 (- e - 1)) (- e)))
  | _ => None
  end.

(** Conversion to an integer type with values [lo .. hi]. *)
Definition to_integer (lo hi : Z) (x : float) : option Z :=
  match truncZ x with
  | Some z => if (lo <=? z) && (z <=? hi) then Some z else None
  | None => None
  end.

Definition to_uint24 := to_integer 0 (2 ^ 24 - 1).
Definition to_uint32 := to_integer 0 (2 ^ 32 - 1).
Definition to_int24 := to_integer (- 2 ^ 23) (2 ^ 23 - 1).
Definition to_int32 := to_integer (- 2 ^ 31) (2 ^ 31 - 1).

(** Modelled from the spec: [CEIL(x)] and [FLOOR(x)], whose header is
    not among the files modelled, are "ceil" and "floor"; here they are
    given together with the assignment to an integer type that follows
    them in the code.  [ceil] and [floor] return a float that is a whole
    number, and converting a whole number that fits the type is exact,
    so the two steps are one. *)
Definition in_range (lo hi : Z) (o : option Z) : option Z :=
  match o with
  | Some z => if (lo <=? z) && (z <=? hi) then Some z else None
  | None => None
  end.

Definition CEIL_uint24 (x : float) := in_range 0 (2 ^ 24 - 1) (ceilZ x).
Definition CEIL_uint32 (x : float) := in_range 0 (2 ^ 32 - 1) (ceilZ x).
Definition CEIL_int32 (x : float) :=
  in_range (- 2 ^ 31) (2 ^ 31 - 1) (ceilZ x).
Definition FLOOR_int32 (x : float) :=
  in_range (- 2 ^ 31) (2 ^ 31 - 1) (floorZ x).

End F32.

(** ** Results of code that may fail to produce a value *)

(** Why a call yields no value in this sequential model. *)
Inductive stuck : Type :=
  | UndefinedConversion   (* float-to-integer conversion outside the type *)
  | BufferFull            (* spins in [idle()] until the stepper frees a slot *)
  | OutOfFuel.            (* a ring walk that does not meet its end index *)

Inductive result (A : Type) : Type :=
  | Ok (a : A)
  | Stuck (why : stuck).
Arguments Ok {A} a.
Arguments Stuck {A} why.

Definition rbind {A B : Type} (m : result A) (k : A -> result B) : result B :=
  match m with
  | Ok a => k a
  | Stuck w => Stuck w
  end.

Definition cast {A : Type} (o : option A) : result A :=
  match o with
  | Some a => Ok a
  | None => Stuck UndefinedConversion
  end.

Declare Scope result_scope.
Delimit Scope result_scope with result.
Notation "'do' x <- m ; k" := (rbind m (fun x => k))
  (at level 10, x name, m at level 100, k at level 200) : result_scope.

(** ** Axis-indexed arrays *)

(** Modelled from the spec: [enum AxisEnum], [NUM_AXIS] and the loop
    macro [LOOP_XYZE], whose header is not among the files modelled:
    the four motor axes X, Y, Z and E, numbered from 0 in this order;
    [axis_bit] is that number. *)
Inductive AxisEnum : Type := X_AXIS | Y_AXIS | Z_AXIS | E_AXIS.

Definition axis_bit (a : AxisEnum) : Z :=
  match a with X_AXIS => 0 | Y_AXIS => 1 | Z_AXIS => 2 | E_AXIS => 3 end.

(** [T v[NUM_AXIS]] *)
Record xyze (A : Type) : Type := XYZE { at_X : A; at_Y : A; at_Z : A; at_E : A }.
Arguments XYZE {A} _ _ _ _.
Arguments at_X {A} _.
Arguments at_Y {A} _.
Arguments at_Z {A} _.
Arguments at_E {A} _.

Definition axis_get {A : Type} (v : xyze A) (i : AxisEnum) : A :=
  match i with
  | X_AXIS => at_X v | Y_AXIS => at_Y v | Z_AXIS => at_Z v | E_AXIS => at_E v
  end.

Definition axis_set {A : Type} (i : AxisEnum) (a : A) (v : xyze A) : xyze A :=
  match i with
  | X_AXIS => XYZE a (at_Y v) (at_Z v) (at_E v)
  | Y_AXIS => XYZE (at_X v) a (at_Z v) (at_E v)
  | Z_AXIS => XYZE (at_X v) (at_Y v) a (at_E v)
  | E_AXIS => XYZE (at_X v) (at_Y v) (at_Z v) a
  end.

Definition axis_map {A B : Type} (f : A -> B) (v : xyze A) : xyze B :=
  XYZE (f (at_X v)) (f (at_Y v)) (f (at_Z v)) (f (at_E v)).

(** [LOOP_XYZE(i)] visits the axes in this order. *)
Definition LOOP_XYZE : list AxisEnum := [X_AXIS; Y_AXIS; Z_AXIS; E_AXIS].

(** ** The planner ([planner.h], [Marlin_main.cpp]) *)

(** Compile-time configuration the planner code refers to; the headers
    that fix these values are not among the files modelled.  Optional
    features that are compiled in only on request ([LIN_ADVANCE],
    [DISTINCT_E_FACTORS], [MIXING_EXTRUDER], [BARICUDA], [ULTRA_LCD],
    [XY_FREQUENCY_LIMIT], [FILAMENT_WIDTH_SENSOR],
    [DISABLE_INACTIVE_EXTRUDER], core kinematics, bed leveling) are
    taken to be absent. *)
Class PlannerConfig : Type := {
  BLOCK_BUFFER_SIZE : Z;
  MIN_STEPS_PER_SEGMENT : Z;
  F_CPU : Z;
  EXTRUDERS : Z;
  PREVENT_COLD_EXTRUSION : bool;
  PREVENT_LENGTHY_EXTRUDE : bool;
  EXTRUDE_MAXLENGTH : Z;
  SLOWDOWN : bool;
  (* the helper template [round<uint24>(float)] *)
  round_uint24 : F32.float -> option Z;
  (* the macro [LROUND(x)], with a result of type [long] *)
  LROUND : F32.float -> option Z
}.

Module Planner.
Import MachineInt.

Definition float : Type := F32.float.

(** [enum BlockFlagBit] *)
Definition BLOCK_BIT_RECALCULATE : Z := 0.
Definition BLOCK_BIT_NOMINAL_LENGTH : Z := 1.
Definition BLOCK_BIT_START_FROM_FULL_HALT : Z := 2.
Definition BLOCK_BIT_BUSY : Z := 3.
Definition BLOCK_BIT_ARC : Z := 4.

(** [enum BlockFlag] *)
Definition BLOCK_FLAG_RECALCULATE : Z := _BV BLOCK_BIT_RECALCULATE.
Definition BLOCK_FLAG_NOMINAL_LENGTH : Z := _BV BLOCK_BIT_NOMINAL_LENGTH.
Definition BLOCK_FLAG_START_FROM_FULL_HALT : Z :=
  _BV BLOCK_BIT_START_FROM_FULL_HALT.
Definition BLOCK_FLAG_BUSY : Z := _BV BLOCK_BIT_BUSY.
Definition BLOCK_FLAG_ARC : Z := _BV BLOCK_BIT_ARC.

(** [struct block_t] *)
Record block_t : Type := Block {
  flag : Z;                        (* uint8 *)
  active_extruder : Z;             (* uint8 *)
  steps : xyze Z;                  (* uint24[NUM_AXIS] *)
  step_event_count : Z;            (* uint24 *)
  accelerate_until : Z;            (* uint24 *)
  decelerate_after : Z;            (* uint24 *)
  acceleration_rate : Z;           (* uint24 *)
  direction_bits : Z;              (* uint8 *)
  nominal_speed : float;
  entry_speed : float;
  max_entry_speed : float;
  millimeters : float;
  acceleration : float;
  nominal_rate : Z;                (* uint24 *)
  initial_rate : Z;                (* uint24 *)
  final_rate : Z;                  (* uint24 *)
  acceleration_steps_per_s2 : Z;   (* uint24 *)
  fan_speed : list Z;              (* uint8[FAN_COUNT] *)
  segment_time : Z                 (* uint32 *)
}.

Definition zero_xyze_Z : xyze Z := XYZE 0 0 0 0.
Definition zero_xyze_float : xyze float :=
  XYZE F32.zero F32.zero F32.zero F32.zero.

(** A zero-initialised block (static storage). *)
Definition block_zero : block_t :=
  Block 0 0 zero_xyze_Z 0 0 0 0 0 F32.zero F32.zero F32.zero F32.zero
        F32.zero 0 0 0 0 [] 0.

Definition with_flag (v : Z) (b : block_t) : block_t :=
  Block v (active_extruder b) (steps b) (step_event_count b)
        (accelerate_until b) (decelerate_after b) (acceleration_rate b)
        (direction_bits b) (nominal_speed b) (entry_speed b)
        (max_entry_speed b) (millimeters b) (acceleration b)
        (nominal_rate b) (initial_rate b) (final_rate b)
        (acceleration_steps_per_s2 b) (fan_speed b) (segment_time b).

Definition with_entry_speed (v : float) (b : block_t) : block_t :=
  Block (flag b) (active_extruder b) (steps b) (step_event_count b)
        (accelerate_until b) (decelerate_after b) (acceleration_rate b)
        (direction_bits b) (nominal_speed b) v
        (max_entry_speed b) (millimeters b) (acceleration b)
        (nominal_rate b) (initial_rate b) (final_rate b)
        (acceleration_steps_per_s2 b) (fan_speed b) (segment_time b).

(** The tunables of [class Planner] (set by G-code, constant while a
    move is queued). *)
Record settings : Type := Settings {
  max_feedrate_mm_s : xyze float;
  axis_steps_per_mm : xyze float;
  steps_to_mm : xyze float;
  max_acceleration_steps_per_s2 : xyze Z;   (* uint32 *)
  min_feedrate_mm_s : float;
  acceleration_mm_s2 : float;               (* Planner::acceleration *)
  retract_acceleration : float;
  travel_acceleration : float;
  max_jerk : xyze float;
  min_travel_feedrate_mm_s : float;
  cutoff_long : Z;                          (* uint32 *)
  min_segment_time : Z                      (* millis_t *)
}.

(** The mutable state of [class Planner]; [previous_safe_speed] is the
    function-local static of [_buffer_line]. *)
Record state : Type := PlannerState {
  block_buffer : list block_t;     (* block_t[BLOCK_BUFFER_SIZE] *)
  block_buffer_head : Z;           (* volatile uint8_t *)
  block_buffer_tail : Z;           (* volatile uint8_t *)
  position : xyze Z;               (* uint24[NUM_AXIS] *)
  previous_speed : xyze float;
  previous_nominal_speed : float;
  previous_safe_speed : float
}.

Definition with_block_buffer (v : list block_t) (p : state) : state :=
  PlannerState v (block_buffer_head p) (block_buffer_tail p) (position p)
               (previous_speed p) (previous_nominal_speed p)
               (previous_safe_speed p).

Definition with_tail (v : Z) (p : state) : state :=
  PlannerState (block_buffer p) (block_buffer_head p) v (position p)
               (previous_speed p) (previous_nominal_speed p)
               (previous_safe_speed p).

Definition with_position (v : xyze Z) (p : state) : state :=
  PlannerState (block_buffer p) (block_buffer_head p) (block_buffer_tail p)
               v (previous_speed p) (previous_nominal_speed p)
               (previous_safe_speed p).

(** [block_buffer[i]] and [block_buffer[i] = b]. *)
Definition block_at (p : state) (i : Z) : block_t :=
  default block_zero (block_buffer p !! Z.to_nat i).

Definition store_block (i : Z) (b : block_t) (p : state) : state :=
  with_block_buffer (<[Z.to_nat i := b]> (block_buffer p)) p.

Section Ring.
Context {cfg : PlannerConfig}.

(** [Planner::init] *)
Definition init : state :=
  PlannerState (replicate (Z.to_nat BLOCK_BUFFER_SIZE) block_zero) 0 0
               zero_xyze_Z zero_xyze_float F32.zero F32.zero.

Definition BLOCK_MOD (n : Z) : Z := Z.land n (BLOCK_BUFFER_SIZE - 1).

Definition movesplanned (p : state) : Z :=
  uint8 (BLOCK_MOD
           (block_buffer_head p - block_buffer_tail p + BLOCK_BUFFER_SIZE)).

Definition is_full (p : state) : bool :=
  block_buffer_tail p =? BLOCK_MOD (block_buffer_head p + 1).

Definition blocks_queued (p : state) : bool :=
  negb (block_buffer_head p =? block_buffer_tail p).

(** Both take and return an [int8_t]. *)
Definition next_block_index (block_index : Z) : Z :=
  int8 (BLOCK_MOD (int8 block_index + 1)).
Definition prev_block_index (block_index : Z) : Z :=
  int8 (BLOCK_MOD (int8 block_index - 1)).

Definition discard_current_block (p : state) : state :=
  if blocks_queued p
  then with_tail (uint8 (BLOCK_MOD (block_buffer_tail p + 1))) p
  else p.

(** The pointer returned is the index of the block in
    [block_buffer]; [None] is [nullptr]. *)
Definition get_current_block (p : state) : option Z * state :=
  if blocks_queued p then
    let block := block_at p (block_buffer_tail p) in
    let claimed :=
      (Some (block_buffer_tail p),
       store_block (block_buffer_tail p)
                   (with_flag (SBI (flag block) BLOCK_BIT_BUSY) block) p) in
    if 1 <? movesplanned p then
      let next := block_at p (next_block_index (block_buffer_tail p)) in
      if TEST (flag block) BLOCK_BIT_RECALCULATE
         || TEST (flag next) BLOCK_BIT_RECALCULATE
      then (None, p)
      else claimed
    else if TEST (flag block) BLOCK_BIT_RECALCULATE then (None, p)
    else claimed
  else (None, p).

(** *** Trapezoid generator *)

Definition MINIMAL_STEP_RATE : Z := 120.

Definition estimate_acceleration_distance
           (initial_rate target_rate accel : float) : float :=
  if F32.eqb accel F32.zero then F32.zero
  else F32.div (F32.sub (F32.sq target_rate) (F32.sq initial_rate))
               (F32.mul accel (F32.of_Z 2)).

Definition intersection_distance
           (initial_rate final_rate accel distance : float) : float :=
  if F32.eqb accel F32.zero then F32.zero
  else F32.div
         (F32.add
            (F32.sub (F32.mul (F32.mul accel (F32.of_Z 2)) distance)
                     (F32.sq initial_rate))
            (F32.sq final_rate))
         (F32.mul accel (F32.of_Z 4)).

Definition max_allowable_speed
           (accel target_velocity distance : float) : float :=
  F32.sqrt (F32.sub (F32.sq target_velocity)
                    (F32.mul (F32.mul (F32.of_Z 2) accel) distance)).

(** The locals of [calculate_trapezoid_for_block] when it reaches its
    critical section. *)
Record trapezoid : Type := Trapezoid {
  t_initial_rate : Z;       (* uint32 *)
  t_final_rate : Z;         (* uint32 *)
  t_accel : Z;              (* int32 *)
  t_accelerate_steps : Z;   (* int32 *)
  t_plateau_steps : Z       (* int32 *)
}.

(** [calculate_trapezoid_for_block], up to the critical section. *)
Definition trapezoid_steps (block : block_t)
           (entry_speed next_entry_speed : float) : result trapezoid :=
  (do initial_rate0 <- cast (F32.CEIL_uint32 entry_speed);
   do final_rate0 <- cast (F32.CEIL_uint32 next_entry_speed);
   let initial_rate := NOLESS initial_rate0 MINIMAL_STEP_RATE in
   let final_rate := NOLESS final_rate0 MINIMAL_STEP_RATE in
   let accel := int32 (acceleration_steps_per_s2 block) in
   do accelerate_steps <-
     cast (F32.CEIL_int32
             (estimate_acceleration_distance
                (F32.of_Z initial_rate) (F32.of_Z (nominal_rate block))
                (F32.of_Z accel)));
   do decelerate_steps <-
     cast (F32.FLOOR_int32
             (estimate_acceleration_distance
                (F32.of_Z (nominal_rate block)) (F32.of_Z final_rate)
                (F32.of_Z (int32 (- accel)))));
   let plateau_steps :=
     int32 (int32 (step_event_count block - accelerate_steps)
            - decelerate_steps) in
   if plateau_steps <? 0 then
     do accelerate_steps1 <-
       cast (F32.CEIL_int32
               (intersection_distance
                  (F32.of_Z initial_rate) (F32.of_Z final_rate)
                  (F32.of_Z accel) (F32.of_Z (step_event_count block))));
     let accelerate_steps2 := NOLESS accelerate_steps1 0 in
     let accelerate_steps3 :=
       int32 (Z.min (uint32 accelerate_steps2)
                    (uint32 (step_event_count block))) in
     Ok (Trapezoid initial_rate final_rate accel accelerate_steps3 0)
   else
     Ok (Trapezoid initial_rate final_rate accel accelerate_steps
                   plateau_steps))%result.

(** The critical section of [calculate_trapezoid_for_block]: the
    fields handed to the stepper are written unless the block is
    busy. *)
Definition commit_trapezoid (block : block_t) (t : trapezoid)
  : result block_t :=
  if negb (TEST (flag block) BLOCK_BIT_BUSY) then
    (do acceleration_rate' <-
       cast (F32.to_int24
               (F32.div (F32.mul (F32.of_Z (t_accel t))
                                 (F32.of_Z 16777216))
                        (F32.mul (F32.of_Z F_CPU) (F32.of_ratio 1 8))));
     Ok (Block (flag block) (active_extruder block) (steps block)
               (step_event_count block)
               (uint24 (t_accelerate_steps t))
               (uint24 (int32 (t_accelerate_steps t + t_plateau_steps t)))
               (uint24 acceleration_rate')
               (direction_bits block) (nominal_speed block)
               (entry_speed block) (max_entry_speed block)
               (millimeters block) (acceleration block)
               (nominal_rate block)
               (uint24 (t_initial_rate t))
               (uint24 (t_final_rate t))
               (acceleration_steps_per_s2 block)
               (fan_speed block) (segment_time block)))%result
  else Ok block.

Definition calculate_trapezoid_for_block (block : block_t)
           (entry_speed next_entry_speed : float) : result block_t :=
  (do t <- trapezoid_steps block entry_speed next_entry_speed;
   commit_trapezoid block t)%result.

(** *** Look-ahead *)

(** Block pointers are indices into [block_buffer]; [None] is
    [nullptr]. *)
Definition reverse_pass_kernel (p : state) (current next : option Z)
  : state :=
  match current, next with
  | Some c, Some n =>
      let cur := block_at p c in
      let nxt := block_at p n in
      let max_entry_speed' := max_entry_speed cur in
      if F32.neb (entry_speed cur) max_entry_speed' then
        let entry_speed' :=
          if TEST (flag cur) BLOCK_BIT_NOMINAL_LENGTH
             || F32.leb max_entry_speed' (entry_speed nxt)
          then max_entry_speed'
          else F32.min max_entry_speed'
                       (max_allowable_speed (F32.opp (acceleration cur))
                                            (entry_speed nxt)
                                            (millimeters cur)) in
        let cur1 := with_entry_speed entry_speed' cur in
        store_block c (with_flag (SBI (flag cur1) BLOCK_BIT_RECALCULATE)
                                 cur1) p
      else p
  | _, _ => p
  end.

(** The [do ... while (blocknr != endnr)] loop of [reverse_pass];
    [current] is the block index held on entry to an iteration. *)
Fixpoint reverse_pass_loop (fuel : nat) (endnr blocknr : Z) (p : state)
  : result state :=
  match fuel with
  | O => Stuck OutOfFuel
  | S fuel' =>
      let next := blocknr in
      let blocknr' := uint8 (prev_block_index blocknr) in
      let current := blocknr' in
      if TEST (flag (block_at p current)) BLOCK_BIT_START_FROM_FULL_HALT
      then Ok p
      else
        let p' := reverse_pass_kernel p (Some current) (Some next) in
        if negb (blocknr' =? endnr)
        then reverse_pass_loop fuel' endnr blocknr' p'
        else Ok p'
  end.

Definition ring_fuel : nat := S (Z.to_nat BLOCK_BUFFER_SIZE).

Definition reverse_pass (p : state) : result state :=
  if 3 <? movesplanned p then
    let endnr := uint8 (BLOCK_MOD (block_buffer_tail p + 2)) in
    let blocknr := uint8 (prev_block_index (block_buffer_head p)) in
    reverse_pass_loop ring_fuel endnr blocknr p
  else Ok p.

Definition forward_pass_kernel (p : state) (previous current : option Z)
  : state :=
  match previous, current with
  | Some pr, Some c =>
      let prv := block_at p pr in
      let cur := block_at p c in
      if negb (TEST (flag prv) BLOCK_BIT_NOMINAL_LENGTH) then
        if F32.ltb (entry_speed prv) (entry_speed cur) then
          let entry_speed' :=
            F32.min (entry_speed cur)
                    (max_allowable_speed (F32.opp (acceleration prv))
                                         (entry_speed prv)
                                         (millimeters prv)) in
          if F32.neb (entry_speed cur) entry_speed' then
            let cur1 := with_entry_speed entry_speed' cur in
            store_block c
              (with_flag (SBI (flag cur1) BLOCK_BIT_RECALCULATE) cur1) p
          else p
        else p
      else p
  | _, _ => p
  end.

(** The [for] loop of [forward_pass] with its window
    [block[0..2]]; the value is the state and the window at exit. *)
Fixpoint forward_pass_loop (fuel : nat) (b : Z)
         (block1 block2 : option Z) (p : state)
  : result (state * option Z * option Z) :=
  match fuel with
  | O => Stuck OutOfFuel
  | S fuel' =>
      if negb (b =? block_buffer_head p) then
        let block0' := block1 in
        let block1' := block2 in
        let block2' := Some b in
        let p' := forward_pass_kernel p block0' block1' in
        forward_pass_loop fuel' (uint8 (next_block_index b))
                          block1' block2' p'
      else Ok (p, block1, block2)
  end.

Definition forward_pass (p : state) : result state :=
  (do r <- forward_pass_loop ring_fuel (block_buffer_tail p) None None p;
   let '(p', block1, block2) := r in
   Ok (forward_pass_kernel p' block1 block2))%result.

(** The [while] loop of [recalculate_trapezoids]; [NEW_SPEEDER] is
    [false], so that branch is not compiled. *)
Fixpoint recalculate_trapezoids_loop (fuel : nat) (block_index : Z)
         (next : option Z) (p : state) : result (state * option Z) :=
  match fuel with
  | O => Stuck OutOfFuel
  | S fuel' =>
      if negb (block_index =? block_buffer_head p) then
        let current := next in
        let next' := Some block_index in
        (do p' <-
           match current with
           | Some c =>
               let cur := block_at p c in
               let nxt := block_at p block_index in
               if TEST (flag cur) BLOCK_BIT_RECALCULATE
                  || TEST (flag nxt) BLOCK_BIT_RECALCULATE
               then
                 do cur1 <- calculate_trapezoid_for_block
                              cur (entry_speed cur) (entry_speed nxt);
                 Ok (store_block c
                       (with_flag (CBI (flag cur1) BLOCK_BIT_RECALCULATE)
                                  cur1) p)
               else Ok p
           | None => Ok p
           end;
         recalculate_trapezoids_loop
           fuel' (uint8 (next_block_index block_index)) next' p')%result
      else Ok (p, next)
  end.

Definition recalculate_trapezoids (p : state) : result state :=
  (do r <- recalculate_trapezoids_loop
             ring_fuel (block_buffer_tail p) None p;
   let '(p', next) := r in
   match next with
   | Some n =>
       let nxt := block_at p' n in
       do nxt1 <- calculate_trapezoid_for_block
                    nxt (entry_speed nxt) F32.zero;
       Ok (store_block n
             (with_flag (CBI (flag nxt1) BLOCK_BIT_RECALCULATE) nxt1) p')
   | None => Ok p'
   end)%result.

Definition recalculate (p : state) : result state :=
  (do p1 <- reverse_pass p;
   do p2 <- forward_pass p1;
   recalculate_trapezoids p2)%result.

(** *** Block builder *)

(** What [_buffer_line] reads outside the planner. *)
Record machine : Type := Machine {
  volumetric_multiplier : Z -> float;   (* float[EXTRUDERS] *)
  flow_percentage : Z -> Z;             (* int16_t[EXTRUDERS] *)
  fanSpeeds : list Z;                   (* uint8[FAN_COUNT] *)
  DEBUGGING_DRYRUN : bool;              (* DEBUGGING(DRYRUN) *)
  is_coldextrude : bool;                (* Temperature::is_coldextrude() *)
  STEPPER_ISR_ENABLED : bool            (* TEST(TIMSK1, OCIE1A) *)
}.

(** The locals of [_buffer_line] computed before a buffer slot is
    taken. *)
Record move : Type := Move {
  target : xyze Z;          (* uint24[XYZE] *)
  da : Z; db : Z; dc : Z;   (* int24 *)
  de : Z;                   (* int24 *)
  dm : Z;                   (* uint8_t *)
  esteps_float : float;
  esteps : Z                (* uint24 *)
}.

Definition set_position_E (v : Z) (p : state) : state :=
  with_position (axis_set E_AXIS v (position p)) p.

(** [_buffer_line], from its entry to the computation of [esteps]. *)
Definition move_steps (env : machine) (s : settings) (p : state)
           (a b c e : float) (extruder : Z) : result (move * state) :=
  (do tx <- cast (round_uint24 (F32.mul a (at_X (axis_steps_per_mm s))));
   do ty <- cast (round_uint24 (F32.mul b (at_Y (axis_steps_per_mm s))));
   do tz <- cast (round_uint24 (F32.mul c (at_Z (axis_steps_per_mm s))));
   do te <- cast (round_uint24 (F32.mul e (at_E (axis_steps_per_mm s))));
   let target := XYZE tx ty tz te in
   let da := int24 (uint24 (tx - at_X (position p))) in
   let db := int24 (uint24 (ty - at_Y (position p))) in
   let dc := int24 (uint24 (tz - at_Z (position p))) in
   let p1 := if DEBUGGING_DRYRUN env then set_position_E te p else p in
   let de0 := int24 (uint24 (te - at_E (position p1))) in
   do r <-
     (if PREVENT_COLD_EXTRUSION && negb (de0 =? 0) then
        let '(p2, de1) :=
          if is_coldextrude env then (set_position_E te p1, 0)
          else (p1, de0) in
        if PREVENT_LENGTHY_EXTRUDE then
          do steps_e <- cast (F32.to_int32 (at_E (axis_steps_per_mm s)));
          if int32 (steps_e * EXTRUDE_MAXLENGTH) <? int24 (Z.abs de1)
          then Ok (set_position_E te p2, 0)
          else Ok (p2, de1)
        else Ok (p2, de1)
      else Ok (p1, de0));
   let '(p3, de) := r in
   let dm0 := 0 in
   let dm1 := if da <? 0 then SBI dm0 (axis_bit X_AXIS) else dm0 in
   let dm2 := if db <? 0 then SBI dm1 (axis_bit Y_AXIS) else dm1 in
   let dm3 := if dc <? 0 then SBI dm2 (axis_bit Z_AXIS) else dm2 in
   let dm := if de <? 0 then SBI dm3 (axis_bit E_AXIS) else dm3 in
   let esteps_float :=
     F32.mul (F32.mul (F32.mul (F32.of_Z de)
                               (volumetric_multiplier env extruder))
                      (F32.of_Z (flow_percentage env extruder)))
             (F32.of_ratio 1 100) in
   do esteps <-
     cast (F32.to_uint24 (F32.add (F32.abs esteps_float)
                                  (F32.of_ratio 1 2)));
   Ok (Move target da db dc de dm esteps_float esteps, p3))%result.

(** Modelled from the spec: [uabs] and the [max] of four numbers, whose
    header is not among the files modelled: the "absolute step counts"
    and the largest of them, "step_event_count = max(|delta_i|)". *)
Definition uabs (x : Z) : Z := Z.abs x.
Definition max4 (a b c d : Z) : Z := Z.max (Z.max (Z.max a b) c) d.

(** The first writes to the slot at [block_buffer_head]: flags
    cleared, direction bits, step counts and [step_event_count]. *)
Definition start_block (slot : block_t) (m : move) : block_t :=
  let steps' :=
    XYZE (uint24 (uabs (da m))) (uint24 (uabs (db m)))
         (uint24 (uabs (dc m))) (esteps m) in
  Block 0 (active_extruder slot) steps'
        (max4 (at_X steps') (at_Y steps') (at_Z steps') (esteps m))
        (accelerate_until slot) (decelerate_after slot)
        (acceleration_rate slot) (dm m)
        (nominal_speed slot) (entry_speed slot) (max_entry_speed slot)
        (millimeters slot) (acceleration slot) (nominal_rate slot)
        (initial_rate slot) (final_rate slot)
        (acceleration_steps_per_s2 slot) (fan_speed slot)
        (segment_time slot).

(** [LIMIT_ACCEL_LONG(AXIS, INDX)] *)
Definition LIMIT_ACCEL_LONG (s : settings) (block : block_t)
           (axis : AxisEnum) (accel : Z) : Z :=
  if negb (axis_get (steps block) axis =? 0)
     && (axis_get (max_acceleration_steps_per_s2 s) axis <? accel)
  then
    let comp :=
      uint32 (axis_get (max_acceleration_steps_per_s2 s) axis
              * step_event_count block) in
    if comp <? uint32 (accel * axis_get (steps block) axis)
    then comp / axis_get (steps block) axis
    else accel
  else accel.

(** [LIMIT_ACCEL_FLOAT(AXIS, INDX)] *)
Definition LIMIT_ACCEL_FLOAT (s : settings) (block : block_t)
           (axis : AxisEnum) (accel : Z) : result Z :=
  if negb (axis_get (steps block) axis =? 0)
     && (axis_get (max_acceleration_steps_per_s2 s) axis <? accel)
  then
    let comp :=
      F32.mul (F32.of_Z (axis_get (max_acceleration_steps_per_s2 s) axis))
              (F32.of_Z (step_event_count block)) in
    if F32.gtb (F32.mul (F32.of_Z accel)
                        (F32.of_Z (axis_get (steps block) axis))) comp
    then cast (F32.to_uint32
                 (F32.div comp (F32.of_Z (axis_get (steps block) axis))))
    else Ok accel
  else Ok accel.

(** The acceleration in steps/s^2 ([uint32 accel]). *)
Definition limited_acceleration (s : settings) (block : block_t)
           (esteps : Z) (steps_per_mm : float) : result Z :=
  if (at_X (steps block) =? 0) && (at_Y (steps block) =? 0)
     && (at_Z (steps block) =? 0)
  then
    cast (F32.CEIL_uint32 (F32.mul (retract_acceleration s) steps_per_mm))
  else
    (do accel0 <-
       cast (F32.CEIL_uint32
               (F32.mul (if negb (esteps =? 0) then acceleration_mm_s2 s
                         else travel_acceleration s)
                        steps_per_mm));
     if step_event_count block <=? cutoff_long s then
       Ok (fold_left (fun accel axis => LIMIT_ACCEL_LONG s block axis accel)
                     LOOP_XYZE accel0)
     else
       fold_left (fun r axis =>
                    do accel <- r; LIMIT_ACCEL_FLOAT s block axis accel)
                 LOOP_XYZE (Ok accel0))%result.

(** The per-axis speeds and the factor that keeps each below
    [max_feedrate_mm_s]. *)
Definition speed_factor_of (s : settings) (current_speed : xyze float)
  : float :=
  fold_left
    (fun speed_factor i =>
       let cs := F32.abs (axis_get current_speed i) in
       if F32.gtb cs (axis_get (max_feedrate_mm_s s) i) then
         let n := F32.div (axis_get (max_feedrate_mm_s s) i) cs in
         if F32.gtb speed_factor n then n else speed_factor
       else speed_factor)
    LOOP_XYZE F32.one.

(** The speed from which a full halt respects the jerk limits. *)
Definition safe_speed_of (s : settings) (nominal_speed' : float)
           (current_speed : xyze float) : float :=
  fst (fold_left
         (fun '(safe_speed, limited) i =>
            let jerk := F32.abs (axis_get current_speed i) in
            let maxj := axis_get (max_jerk s) i in
            if F32.gtb jerk maxj then
              if negb (limited =? 0) then
                let mjerk := F32.mul maxj nominal_speed' in
                if F32.gtb (F32.mul jerk safe_speed) mjerk
                then (F32.div mjerk jerk, limited)
                else (safe_speed, limited)
              else (maxj, uint8 (limited + 1))
            else (safe_speed, limited))
         LOOP_XYZE (nominal_speed', 0)).

(** The junction speed with the previous segment and whether the
    block starts from a full halt. *)
Definition junction (s : settings) (p : state) (moves_queued : Z)
           (nominal_speed' safe_speed : float)
           (current_speed : xyze float) : float * bool :=
  if (1 <? moves_queued)
     && F32.gtb (previous_nominal_speed p) (F32.of_ratio 1 10000)
  then
    let prev_speed_larger :=
      F32.gtb (previous_nominal_speed p) nominal_speed' in
    let smaller_speed_factor :=
      if prev_speed_larger
      then F32.div nominal_speed' (previous_nominal_speed p)
      else F32.div (previous_nominal_speed p) nominal_speed' in
    let vmax_junction0 :=
      if prev_speed_larger then nominal_speed'
      else previous_nominal_speed p in
    let '(v_factor, limited) :=
      fold_left
        (fun '(v_factor, limited) axis =>
           let v_exit0 := axis_get (previous_speed p) axis in
           let v_entry0 := axis_get current_speed axis in
           let v_exit1 :=
             if prev_speed_larger
             then F32.mul v_exit0 smaller_speed_factor else v_exit0 in
           let v_exit :=
             if negb (limited =? 0) then F32.mul v_exit1 v_factor
             else v_exit1 in
           let v_entry :=
             if negb (limited =? 0) then F32.mul v_entry0 v_factor
             else v_entry0 in
           let jerk :=
             if F32.gtb v_exit v_entry then
               if F32.gtb v_entry F32.zero || F32.ltb v_exit F32.zero
               then F32.sub v_exit v_entry
               else F32.max v_exit (F32.opp v_entry)
             else
               if F32.ltb v_entry F32.zero || F32.gtb v_exit F32.zero
               then F32.sub v_entry v_exit
               else F32.max (F32.opp v_exit) v_entry in
           if F32.gtb jerk (axis_get (max_jerk s) axis)
           then (F32.mul v_factor
                         (F32.div (axis_get (max_jerk s) axis) jerk),
                 uint8 (limited + 1))
           else (v_factor, limited))
        LOOP_XYZE (F32.one, 0) in
    let vmax_junction1 :=
      if negb (limited =? 0) then F32.mul vmax_junction0 v_factor
      else vmax_junction0 in
    let vmax_junction_threshold :=
      F32.mul vmax_junction1 (F32.of_ratio 99 100) in
    if F32.gtb (previous_safe_speed p) vmax_junction_threshold
       && F32.gtb safe_speed vmax_junction_threshold
    then (safe_speed, true)
    else (vmax_junction1, false)
  else (safe_speed, true).

(** A block as [_buffer_line] leaves it before the buffer head
    moves, with the locals that outlive it. *)
Record built : Type := Built {
  the_block : block_t;
  current_speed : xyze float;
  safe_speed : float;
  vmax_junction : float;
  v_allowable : float
}.

(** [_buffer_line] from the zero-length test to the initialisation
    of the planner flags. *)
Definition build_block (env : machine) (s : settings) (p : state)
           (block : block_t) (m : move) (fr_mm_s0 : float) (extruder : Z)
  : result built :=
  let fan_speed' := fanSpeeds env in
  let active_extruder' :=
    if 1 <? EXTRUDERS then extruder else active_extruder block in
  let steps' := steps block in
  let fr_mm_s :=
    if negb (esteps m =? 0) && F32.ltb fr_mm_s0 (min_feedrate_mm_s s)
    then min_feedrate_mm_s s
    else if (esteps m =? 0)
            && F32.ltb fr_mm_s0 (min_travel_feedrate_mm_s s)
    then min_travel_feedrate_mm_s s
    else fr_mm_s0 in
  let delta_mm :=
    XYZE (F32.mul (F32.of_Z (da m)) (at_X (steps_to_mm s)))
         (F32.mul (F32.of_Z (db m)) (at_Y (steps_to_mm s)))
         (F32.mul (F32.of_Z (dc m)) (at_Z (steps_to_mm s)))
         (F32.mul (esteps_float m) (at_E (steps_to_mm s))) in
  let millimeters' :=
    if (at_X steps' <? MIN_STEPS_PER_SEGMENT)
       && (at_Y steps' <? MIN_STEPS_PER_SEGMENT)
       && (at_Z steps' <? MIN_STEPS_PER_SEGMENT)
    then F32.abs (at_E delta_mm)
    else F32.sqrt (F32.add (F32.add (F32.sq (at_X delta_mm))
                                    (F32.sq (at_Y delta_mm)))
                           (F32.sq (at_Z delta_mm))) in
  let inverse_millimeters := F32.div F32.one millimeters' in
  let inverse_mm_s0 := F32.mul fr_mm_s inverse_millimeters in
  let moves_queued := movesplanned p in
  (do inverse_mm_s <-
     (if SLOWDOWN then
        do segment_time0 <-
          cast (LROUND (F32.div (F32.of_Z 1000000) inverse_mm_s0));
        let segment_time' := uint32 segment_time0 in
        if WITHIN moves_queued 2 (Z.quot BLOCK_BUFFER_SIZE 2 - 1) then
          if segment_time' <? min_segment_time s then
            do extra <-
              cast (LROUND
                      (F32.of_Z
                         (Z.quot
                            (uint32
                               (2 * (min_segment_time s - segment_time')))
                            moves_queued)));
            Ok (F32.div (F32.of_Z 1000000)
                        (F32.of_Z (uint32 (segment_time' + extra))))
          else Ok inverse_mm_s0
        else Ok inverse_mm_s0
      else Ok inverse_mm_s0);
   let nominal_speed0 := F32.mul millimeters' inverse_mm_s in
   do nominal_rate0 <-
     cast (F32.CEIL_uint24
             (F32.mul (F32.of_Z (step_event_count block)) inverse_mm_s));
   let current_speed0 :=
     axis_map (fun d => F32.mul d inverse_mm_s) delta_mm in
   let speed_factor := speed_factor_of s current_speed0 in
   do r <-
     (if F32.ltb speed_factor F32.one then
        do nominal_rate1 <-
          cast (F32.to_uint24 (F32.mul (F32.of_Z nominal_rate0)
                                       speed_factor));
        Ok (axis_map (fun v => F32.mul v speed_factor) current_speed0,
            F32.mul nominal_speed0 speed_factor, nominal_rate1)
      else Ok (current_speed0, nominal_speed0, nominal_rate0));
   let '(current_speed, nominal_speed', nominal_rate') := r in
   let steps_per_mm :=
     F32.mul (F32.of_Z (step_event_count block)) inverse_millimeters in
   do accel <- limited_acceleration s block (esteps m) steps_per_mm;
   let acceleration' := F32.div (F32.of_Z accel) steps_per_mm in
   let safe_speed := safe_speed_of s nominal_speed' current_speed in
   let '(vmax_junction, full_halt) :=
     junction s p moves_queued nominal_speed' safe_speed current_speed in
   let flag1 :=
     if full_halt then SBI (flag block) BLOCK_BIT_START_FROM_FULL_HALT
     else flag block in
   let v_allowable :=
     max_allowable_speed (F32.opp acceleration') F32.zero millimeters' in
   let entry_speed' :=
     if STEPPER_ISR_ENABLED env then F32.zero
     else F32.min vmax_junction v_allowable in
   let flag2 :=
     Z.lor flag1
           (if F32.leb nominal_speed' v_allowable
            then Z.lor BLOCK_FLAG_RECALCULATE BLOCK_FLAG_NOMINAL_LENGTH
            else BLOCK_FLAG_RECALCULATE) in
   Ok (Built
         (Block flag2 active_extruder' steps' (step_event_count block)
                (accelerate_until block) (decelerate_after block)
                (acceleration_rate block) (direction_bits block)
                nominal_speed' entry_speed' vmax_junction millimeters'
                acceleration' nominal_rate' (initial_rate block)
                (final_rate block) (uint24 accel) fan_speed'
                (segment_time block))
         current_speed safe_speed vmax_junction v_allowable))%result.

(** What one call of [_buffer_line] did with the move. *)
Inductive enqueued : Type :=
  | Dropped (p : state)
  | Queued (bl : built) (p : state).

(** [_buffer_line] up to, and without, its call of [recalculate()]. *)
Definition enqueue (env : machine) (s : settings) (p : state)
           (a b c e fr_mm_s : float) (extruder : Z) : result enqueued :=
  (do r <- move_steps env s p a b c e extruder;
   let '(m, p1) := r in
   let next_buffer_head :=
     uint8 (next_block_index (block_buffer_head p1)) in
   if block_buffer_tail p1 =? next_buffer_head then Stuck BufferFull
   else
     let block := start_block (block_at p1 (block_buffer_head p1)) m in
     if step_event_count block <? MIN_STEPS_PER_SEGMENT
     then Ok (Dropped (store_block (block_buffer_head p1) block p1))
     else
       do bl <- build_block env s p1 block m fr_mm_s extruder;
       Ok (Queued bl
             (PlannerState
                (<[Z.to_nat (block_buffer_head p1) := the_block bl]>
                   (block_buffer p1))
                next_buffer_head (block_buffer_tail p1) (target m)
                (current_speed bl) (nominal_speed (the_block bl))
                (safe_speed bl))))%result.

Definition _buffer_line (env : machine) (s : settings) (p : state)
           (a b c e fr_mm_s : float) (extruder : Z) : result state :=
  (do r <- enqueue env s p a b c e fr_mm_s extruder;
   match r with
   | Dropped p' => Ok p'
   | Queued _ p' => recalculate p'
   end)%result.

End Ring.
End Planner.

(** Rounding to the nearest 24-bit unsigned integer by adding one half
    and cutting the fraction off, and [lround]. *)
Definition round_nearest (x : F32.float) : option Z :=
  match F32.floorZ (F32.add x (F32.of_ratio 1 2)) with
  | Some z => if (0 <=? z) && (z <? 2 ^ 24) then Some z else None
  | None => None
  end.

Definition lround (x : F32.float) : option Z :=
  F32.in_range (- 2 ^ 31) (2 ^ 31 - 1) (F32.roundZ x).

(** A configuration to run the planner on: sixteen slots and the
    customary values of the remaining constants. *)

Definition example_config : PlannerConfig :=
  {| BLOCK_BUFFER_SIZE := 16;
     MIN_STEPS_PER_SEGMENT := 6;
     F_CPU := 16000000;
     EXTRUDERS := 1;
     PREVENT_COLD_EXTRUSION := true;
     PREVENT_LENGTHY_EXTRUDE := true;
     EXTRUDE_MAXLENGTH := 200;
     SLOWDOWN := true;
     round_uint24 := round_nearest;
     LROUND := lround |}.

(** ** Heater control and thermal safety ([thermal/thermal.cpp]) *)

(** Constants, tables and helper types of the thermal code that are
    fixed in headers outside the files modelled. *)
Class Board : Type := {
  (* Hotend::max_temperature, Hotend::min_temperature, Bed::... *)
  HOTEND_MAX_ADC : Z;
  HOTEND_MIN_ADC : Z;
  BED_MAX_ADC : Z;
  BED_MIN_ADC : Z;
  HOTEND_MAX_TEMP : Z;
  HOTEND_MIN_TEMP : Z;
  BED_MAX_TEMP : Z;
  BED_MIN_TEMP : Z;
  HEATER_0_RAW_LO_TEMP : Z;
  HEATER_0_RAW_HI_TEMP : Z;
  HEATER_BED_RAW_LO_TEMP : Z;
  HEATER_BED_RAW_HI_TEMP : Z;
  OVERSAMPLENR : Z;
  WATCH_TEMP_INCREASE : Z;
  TEMP_HYSTERESIS : Z;
  WATCH_TEMP_PERIOD : Z;
  WATCH_BED_TEMP_INCREASE : Z;
  TEMP_BED_HYSTERESIS : Z;
  WATCH_BED_TEMP_PERIOD : Z;
  THERMAL_PROTECTION_PERIOD : Z;
  THERMAL_PROTECTION_HYSTERESIS : Z;
  THERMAL_PROTECTION_BED_PERIOD : Z;
  THERMAL_PROTECTION_BED_HYSTERESIS : Z;
  MAX_BED_POWER : Z;
  (* bit numbers of the heater pins in their ports *)
  DIO4_PIN : Z;
  DIO3_PIN : Z;
  (* Thermistor::adc_to_temperature, Thermistor::clamp_adc *)
  Thermistor_adc_to_temperature : Z -> Z;
  Thermistor_clamp_adc : Z -> Z;
  (* HeaterManager::get_power *)
  HeaterManager_get_power : Z -> Z -> Z;
  (* temp_t: construction from whole degrees, operator+ and operator- *)
  temp_of_degrees : Z -> Z;
  temp_add : Z -> Z -> Z;
  temp_sub : Z -> Z -> Z;
  (* the macro PENDING(now, soon) *)
  PENDING : Z -> Z -> bool
}.

Module Thermal.
Import MachineInt.

(** [temp_t] is an unsigned fixed-point number; a value is identified
    with its raw representation, which orders like the temperature.
    [0_C] has raw value 0. *)
Definition temp_t : Type := Z.

Definition ENABLE_ERROR_1A : bool := false.
Definition ENABLE_ERROR_1B : bool := false.
Definition ENABLE_ERROR_2A : bool := false.
Definition ENABLE_ERROR_2B : bool := false.
Definition ENABLE_ERROR_3 : bool := true.
Definition ENABLE_ERROR_4 : bool := true.
Definition ENABLE_ERROR_5 : bool := true.

Definition has_bed_thermal_management : bool := false.

(** [is_preheating()] is [constexpr] and returns [false]. *)
Definition is_preheating : bool := false.

(** [HEATER_0_PIN] and [HEATER_BED_PIN] are the pins 4 and 3, as the
    cases of [set_pin] name them. *)
Definition HEATER_0_PIN : Z := 4.
Definition HEATER_BED_PIN : Z := 3.

Inductive Manager : Type := Hotend | Bed.

Inductive TRState : Type :=
  TRInactive | TRFirstHeating | TRStable | TRRunaway.

Inductive sensor_state : Type :=
  initialize_hotend | read_hotend | initialize_bed | read_bed | ready.

(** The serial messages handed to [_temp_error]. *)
Inductive message : Type :=
  | MSG_T_MAXTEMP
  | MSG_T_MINTEMP
  | MSG_T_HEATING_FAILED
  | MSG_T_THERMAL_RUNAWAY.

Inductive serial_item : Type :=
  | SERIAL_ERROR_START
  | SERIAL_PGM (m : message)
  | SERIAL_STOPPED_HEATER
  | SERIAL_HEATER_0
  | SERIAL_HEATER_BED
  | SERIAL_ERR_KILLED.

Inductive Page : Type := Thermal_Runaway.

(** [struct interrupt]: the hand-over from the ISR. *)
Record interrupt : Type := Interrupt {
  ready_ : bool;
  raw_adc_hotend : Z;   (* uint16 *)
  raw_adc_bed : Z       (* uint16 *)
}.

(** [class temp_trend] *)
Record temp_trend : Type := TempTrend {
  m_Positive : bool;
  m_MeanSum : Z
}.

(** The function-local statics of [Temperature::isr]; a
    [running_average] is its [value_]. *)
Record isr_static : Type := IsrStatic {
  adc_sensor_state : sensor_state;
  local_raw_adc_hotend : Z;
  local_raw_adc_bed : Z;
  skip_counter : Z;     (* uint8 *)
  pwm_counter : Z       (* uint8 *)
}.

Record state : Type := State {
  Running : bool;   (* bool Running *)
  killed_hotend : bool;   (* static bool killed of _temp_error<Hotend> *)
  killed_bed : bool;   (* static bool killed of _temp_error<Bed> *)
  current_temperature : temp_t;
  current_temperature_bed : temp_t;
  target_temperature : temp_t;
  target_temperature_bed : temp_t;
  watch_target_temp : temp_t;
  watch_heater_next_ms : Z;   (* millis_t *)
  watch_target_bed_temp : temp_t;
  watch_bed_next_ms : Z;   (* millis_t *)
  soft_pwm_amount : Z;   (* memory<uint8_t> *)
  soft_pwm_amount_bed : Z;   (* uint8, used if has_bed_thermal_management *)
  is_bed_heating : bool;   (* used if !has_bed_thermal_management *)
  irq : interrupt;   (* struct interrupt *)
  temperatureTrendCalculator : temp_trend;
  thermal_runaway_state_machine : TRState;
  thermal_runaway_timer : Z;   (* millis_t *)
  thermal_runaway_bed_state_machine : TRState;
  thermal_runaway_bed_timer : Z;   (* millis_t *)
  tr_target_temperature_hotend : temp_t;   (* tr_target_temperature<Hotend> *)
  tr_target_temperature_bed : temp_t;   (* tr_target_temperature<Bed> *)
  DIO4_WPORT : Z;   (* output port of HEATER_0_PIN *)
  DIO3_WPORT : Z;   (* output port of HEATER_BED_PIN *)
  interrupts_enabled : bool;   (* the global interrupt flag *)
  watchdog_resets : nat;   (* how many times wdr was executed *)
  millis : Z;   (* what millis() returns *)
  isr_statics : isr_static;   (* function-local statics of isr() *)
  serial_out : list serial_item;   (* what was sent on the serial line *)
  lcd_page : option Page;   (* page last shown by lcd::show_page *)
  temp_errors : list (Manager * message)   (* history of _temp_error calls *)
}.

Definition set_Running (v : bool) (s : state) : state :=
  State v (killed_hotend s) (killed_bed s) (current_temperature s)
        (current_temperature_bed s) (target_temperature s)
        (target_temperature_bed s) (watch_target_temp s)
        (watch_heater_next_ms s) (watch_target_bed_temp s)
        (watch_bed_next_ms s) (soft_pwm_amount s) (soft_pwm_amount_bed
        s) (is_bed_heating s) (irq s) (temperatureTrendCalculator s)
        (thermal_runaway_state_machine s) (thermal_runaway_timer s)
        (thermal_runaway_bed_state_machine s)
        (thermal_runaway_bed_timer s) (tr_target_temperature_hotend s)
        (tr_target_temperature_bed s) (DIO4_WPORT s) (DIO3_WPORT s)
        (interrupts_enabled s) (watchdog_resets s) (millis s)
        (isr_statics s) (serial_out s) (lcd_page s) (temp_errors s).

Definition set_killed_hotend (v : bool) (s : state) : state :=
  State (Running s) v (killed_bed s) (current_temperature s)
        (current_temperature_bed s) (target_temperature s)
        (target_temperature_bed s) (watch_target_temp s)
        (watch_heater_next_ms s) (watch_target_bed_temp s)
        (watch_bed_next_ms s) (soft_pwm_amount s) (soft_pwm_amount_bed
        s) (is_bed_heating s) (irq s) (temperatureTrendCalculator s)
        (thermal_runaway_state_machine s) (thermal_runaway_timer s)
        (thermal_runaway_bed_state_machine s)
        (thermal_runaway_bed_timer s) (tr_target_temperature_hotend s)
        (tr_target_temperature_bed s) (DIO4_WPORT s) (DIO3_WPORT s)
        (interrupts_enabled s) (watchdog_resets s) (millis s)
        (isr_statics s) (serial_out s) (lcd_page s) (temp_errors s).

Definition set_killed_bed (v : bool) (s : state) : state :=
  State (Running s) (killed_hotend s) v (current_temperature s)
        (current_temperature_bed s) (target_temperature s)
        (target_temperature_bed s) (watch_target_temp s)
        (watch_heater_next_ms s) (watch_target_bed_temp s)
        (watch_bed_next_ms s) (soft_pwm_amount s) (soft_pwm_amount_bed
        s) (is_bed_heating s) (irq s) (temperatureTrendCalculator s)
        (thermal_runaway_state_machine s) (thermal_runaway_timer s)
        (thermal_runaway_bed_state_machine s)
        (thermal_runaway_bed_timer s) (tr_target_temperature_hotend s)
        (tr_target_temperature_bed s) (DIO4_WPORT s) (DIO3_WPORT s)
        (interrupts_enabled s) (watchdog_resets s) (millis s)
        (isr_statics s) (serial_out s) (lcd_page s) (temp_errors s).

Definition set_current_temperature (v : temp_t) (s : state) : state :=
  State (Running s) (killed_hotend s) (killed_bed s) v
        (current_temperature_bed s) (target_temperature s)
        (target_temperature_bed s) (watch_target_temp s)
        (watch_heater_next_ms s) (watch_target_bed_temp s)
        (watch_bed_next_ms s) (soft_pwm_amount s) (soft_pwm_amount_bed
        s) (is_bed_heating s) (irq s) (temperatureTrendCalculator s)
        (thermal_runaway_state_machine s) (thermal_runaway_timer s)
        (thermal_runaway_bed_state_machine s)
        (thermal_runaway_bed_timer s) (tr_target_temperature_hotend s)
        (tr_target_temperature_bed s) (DIO4_WPORT s) (DIO3_WPORT s)
        (interrupts_enabled s) (watchdog_resets s) (millis s)
        (isr_statics s) (serial_out s) (lcd_page s) (temp_errors s).

Definition set_current_temperature_bed (v : temp_t) (s : state) : state :=
  State (Running s) (killed_hotend s) (killed_bed s)
        (current_temperature s) v (target_temperature s)
        (target_temperature_bed s) (watch_target_temp s)
        (watch_heater_next_ms s) (watch_target_bed_temp s)
        (watch_bed_next_ms s) (soft_pwm_amount s) (soft_pwm_amount_bed
        s) (is_bed_heating s) (irq s) (temperatureTrendCalculator s)
        (thermal_runaway_state_machine s) (thermal_runaway_timer s)
        (thermal_runaway_bed_state_machine s)
        (thermal_runaway_bed_timer s) (tr_target_temperature_hotend s)
        (tr_target_temperature_bed s) (DIO4_WPORT s) (DIO3_WPORT s)
        (interrupts_enabled s) (watchdog_resets s) (millis s)
        (isr_statics s) (serial_out s) (lcd_page s) (temp_errors s).

Definition set_target_temperature (v : temp_t) (s : state) : state :=
  State (Running s) (killed_hotend s) (killed_bed s)
        (current_temperature s) (current_temperature_bed s) v
        (target_temperature_bed s) (watch_target_temp s)
        (watch_heater_next_ms s) (watch_target_bed_temp s)
        (watch_bed_next_ms s) (soft_pwm_amount s) (soft_pwm_amount_bed
        s) (is_bed_heating s) (irq s) (temperatureTrendCalculator s)
        (thermal_runaway_state_machine s) (thermal_runaway_timer s)
        (thermal_runaway_bed_state_machine s)
        (thermal_runaway_bed_timer s) (tr_target_temperature_hotend s)
        (tr_target_temperature_bed s) (DIO4_WPORT s) (DIO3_WPORT s)
        (interrupts_enabled s) (watchdog_resets s) (millis s)
        (isr_statics s) (serial_out s) (lcd_page s) (temp_errors s).

Definition set_target_temperature_bed (v : temp_t) (s : state) : state :=
  State (Running s) (killed_hotend s) (killed_bed s)
        (current_temperature s) (current_temperature_bed s)
        (target_temperature s) v (watch_target_temp s)
        (watch_heater_next_ms s) (watch_target_bed_temp s)
        (watch_bed_next_ms s) (soft_pwm_amount s) (soft_pwm_amount_bed
        s) (is_bed_heating s) (irq s) (temperatureTrendCalculator s)
        (thermal_runaway_state_machine s) (thermal_runaway_timer s)
        (thermal_runaway_bed_state_machine s)
        (thermal_runaway_bed_timer s) (tr_target_temperature_hotend s)
        (tr_target_temperature_bed s) (DIO4_WPORT s) (DIO3_WPORT s)
        (interrupts_enabled s) (watchdog_resets s) (millis s)
        (isr_statics s) (serial_out s) (lcd_page s) (temp_errors s).

Definition set_watch_target_temp (v : temp_t) (s : state) : state :=
  State (Running s) (killed_hotend s) (killed_bed s)
        (current_temperature s) (current_temperature_bed s)
        (target_temperature s) (target_temperature_bed s) v
        (watch_heater_next_ms s) (watch_target_bed_temp s)
        (watch_bed_next_ms s) (soft_pwm_amount s) (soft_pwm_amount_bed
        s) (is_bed_heating s) (irq s) (temperatureTrendCalculator s)
        (thermal_runaway_state_machine s) (thermal_runaway_timer s)
        (thermal_runaway_bed_state_machine s)
        (thermal_runaway_bed_timer s) (tr_target_temperature_hotend s)
        (tr_target_temperature_bed s) (DIO4_WPORT s) (DIO3_WPORT s)
        (interrupts_enabled s) (watchdog_resets s) (millis s)
        (isr_statics s) (serial_out s) (lcd_page s) (temp_errors s).

Definition set_watch_heater_next_ms (v : Z) (s : state) : state :=
  State (Running s) (killed_hotend s) (killed_bed s)
        (current_temperature s) (current_temperature_bed s)
        (target_temperature s) (target_temperature_bed s)
        (watch_target_temp s) v (watch_target_bed_temp s)
        (watch_bed_next_ms s) (soft_pwm_amount s) (soft_pwm_amount_bed
        s) (is_bed_heating s) (irq s) (temperatureTrendCalculator s)
        (thermal_runaway_state_machine s) (thermal_runaway_timer s)
        (thermal_runaway_bed_state_machine s)
        (thermal_runaway_bed_timer s) (tr_target_temperature_hotend s)
        (tr_target_temperature_bed s) (DIO4_WPORT s) (DIO3_WPORT s)
        (interrupts_enabled s) (watchdog_resets s) (millis s)
        (isr_statics s) (serial_out s) (lcd_page s) (temp_errors s).

Definition set_watch_target_bed_temp (v : temp_t) (s : state) : state :=
  State (Running s) (killed_hotend s) (killed_bed s)
        (current_temperature s) (current_temperature_bed s)
        (target_temperature s) (target_temperature_bed s)
        (watch_target_temp s) (watch_heater_next_ms s) v
        (watch_bed_next_ms s) (soft_pwm_amount s) (soft_pwm_amount_bed
        s) (is_bed_heating s) (irq s) (temperatureTrendCalculator s)
        (thermal_runaway_state_machine s) (thermal_runaway_timer s)
        (thermal_runaway_bed_state_machine s)
        (thermal_runaway_bed_timer s) (tr_target_temperature_hotend s)
        (tr_target_temperature_bed s) (DIO4_WPORT s) (DIO3_WPORT s)
        (interrupts_enabled s) (watchdog_resets s) (millis s)
        (isr_statics s) (serial_out s) (lcd_page s) (temp_errors s).

Definition set_watch_bed_next_ms (v : Z) (s : state) : state :=
  State (Running s) (killed_hotend s) (killed_bed s)
        (current_temperature s) (current_temperature_bed s)
        (target_temperature s) (target_temperature_bed s)
        (watch_target_temp s) (watch_heater_next_ms s)
        (watch_target_bed_temp s) v (soft_pwm_amount s)
        (soft_pwm_amount_bed s) (is_bed_heating s) (irq s)
        (temperatureTrendCalculator s) (thermal_runaway_state_machine
        s) (thermal_runaway_timer s)
        (thermal_runaway_bed_state_machine s)
        (thermal_runaway_bed_timer s) (tr_target_temperature_hotend s)
        (tr_target_temperature_bed s) (DIO4_WPORT s) (DIO3_WPORT s)
        (interrupts_enabled s) (watchdog_resets s) (millis s)
        (isr_statics s) (serial_out s) (lcd_page s) (temp_errors s).

Definition set_soft_pwm_amount (v : Z) (s : state) : state :=
  State (Running s) (killed_hotend s) (killed_bed s)
        (current_temperature s) (current_temperature_bed s)
        (target_temperature s) (target_temperature_bed s)
        (watch_target_temp s) (watch_heater_next_ms s)
        (watch_target_bed_temp s) (watch_bed_next_ms s) v
        (soft_pwm_amount_bed s) (is_bed_heating s) (irq s)
        (temperatureTrendCalculator s) (thermal_runaway_state_machine
        s) (thermal_runaway_timer s)
        (thermal_runaway_bed_state_machine s)
        (thermal_runaway_bed_timer s) (tr_target_temperature_hotend s)
        (tr_target_temperature_bed s) (DIO4_WPORT s) (DIO3_WPORT s)
        (interrupts_enabled s) (watchdog_resets s) (millis s)
        (isr_statics s) (serial_out s) (lcd_page s) (temp_errors s).

Definition set_soft_pwm_amount_bed (v : Z) (s : state) : state :=
  State (Running s) (killed_hotend s) (killed_bed s)
        (current_temperature s) (current_temperature_bed s)
        (target_temperature s) (target_temperature_bed s)
        (watch_target_temp s) (watch_heater_next_ms s)
        (watch_target_bed_temp s) (watch_bed_next_ms s)
        (soft_pwm_amount s) v (is_bed_heating s) (irq s)
        (temperatureTrendCalculator s) (thermal_runaway_state_machine
        s) (thermal_runaway_timer s)
        (thermal_runaway_bed_state_machine s)
        (thermal_runaway_bed_timer s) (tr_target_temperature_hotend s)
        (tr_target_temperature_bed s) (DIO4_WPORT s) (DIO3_WPORT s)
        (interrupts_enabled s) (watchdog_resets s) (millis s)
        (isr_statics s) (serial_out s) (lcd_page s) (temp_errors s).

Definition set_is_bed_heating (v : bool) (s : state) : state :=
  State (Running s) (killed_hotend s) (killed_bed s)
        (current_temperature s) (current_temperature_bed s)
        (target_temperature s) (target_temperature_bed s)
        (watch_target_temp s) (watch_heater_next_ms s)
        (watch_target_bed_temp s) (watch_bed_next_ms s)
        (soft_pwm_amount s) (soft_pwm_amount_bed s) v (irq s)
        (temperatureTrendCalculator s) (thermal_runaway_state_machine
        s) (thermal_runaway_timer s)
        (thermal_runaway_bed_state_machine s)
        (thermal_runaway_bed_timer s) (tr_target_temperature_hotend s)
        (tr_target_temperature_bed s) (DIO4_WPORT s) (DIO3_WPORT s)
        (interrupts_enabled s) (watchdog_resets s) (millis s)
        (isr_statics s) (serial_out s) (lcd_page s) (temp_errors s).

Definition set_irq (v : interrupt) (s : state) : state :=
  State (Running s) (killed_hotend s) (killed_bed s)
        (current_temperature s) (current_temperature_bed s)
        (target_temperature s) (target_temperature_bed s)
        (watch_target_temp s) (watch_heater_next_ms s)
        (watch_target_bed_temp s) (watch_bed_next_ms s)
        (soft_pwm_amount s) (soft_pwm_amount_bed s) (is_bed_heating s)
        v (temperatureTrendCalculator s)
        (thermal_runaway_state_machine s) (thermal_runaway_timer s)
        (thermal_runaway_bed_state_machine s)
        (thermal_runaway_bed_timer s) (tr_target_temperature_hotend s)
        (tr_target_temperature_bed s) (DIO4_WPORT s) (DIO3_WPORT s)
        (interrupts_enabled s) (watchdog_resets s) (millis s)
        (isr_statics s) (serial_out s) (lcd_page s) (temp_errors s).

Definition set_temperatureTrendCalculator (v : temp_trend) (s : state) : state :=
  State (Running s) (killed_hotend s) (killed_bed s)
        (current_temperature s) (current_temperature_bed s)
        (target_temperature s) (target_temperature_bed s)
        (watch_target_temp s) (watch_heater_next_ms s)
        (watch_target_bed_temp s) (watch_bed_next_ms s)
        (soft_pwm_amount s) (soft_pwm_amount_bed s) (is_bed_heating s)
        (irq s) v (thermal_runaway_state_machine s)
        (thermal_runaway_timer s) (thermal_runaway_bed_state_machine
        s) (thermal_runaway_bed_timer s) (tr_target_temperature_hotend
        s) (tr_target_temperature_bed s) (DIO4_WPORT s) (DIO3_WPORT s)
        (interrupts_enabled s) (watchdog_resets s) (millis s)
        (isr_statics s) (serial_out s) (lcd_page s) (temp_errors s).

Definition set_thermal_runaway_state_machine (v : TRState) (s : state) : state :=
  State (Running s) (killed_hotend s) (killed_bed s)
        (current_temperature s) (current_temperature_bed s)
        (target_temperature s) (target_temperature_bed s)
        (watch_target_temp s) (watch_heater_next_ms s)
        (watch_target_bed_temp s) (watch_bed_next_ms s)
        (soft_pwm_amount s) (soft_pwm_amount_bed s) (is_bed_heating s)
        (irq s) (temperatureTrendCalculator s) v
        (thermal_runaway_timer s) (thermal_runaway_bed_state_machine
        s) (thermal_runaway_bed_timer s) (tr_target_temperature_hotend
        s) (tr_target_temperature_bed s) (DIO4_WPORT s) (DIO3_WPORT s)
        (interrupts_enabled s) (watchdog_resets s) (millis s)
        (isr_statics s) (serial_out s) (lcd_page s) (temp_errors s).

Definition set_thermal_runaway_timer (v : Z) (s : state) : state :=
  State (Running s) (killed_hotend s) (killed_bed s)
        (current_temperature s) (current_temperature_bed s)
        (target_temperature s) (target_temperature_bed s)
        (watch_target_temp s) (watch_heater_next_ms s)
        (watch_target_bed_temp s) (watch_bed_next_ms s)
        (soft_pwm_amount s) (soft_pwm_amount_bed s) (is_bed_heating s)
        (irq s) (temperatureTrendCalculator s)
        (thermal_runaway_state_machine s) v
        (thermal_runaway_bed_state_machine s)
        (thermal_runaway_bed_timer s) (tr_target_temperature_hotend s)
        (tr_target_temperature_bed s) (DIO4_WPORT s) (DIO3_WPORT s)
        (interrupts_enabled s) (watchdog_resets s) (millis s)
        (isr_statics s) (serial_out s) (lcd_page s) (temp_errors s).

Definition set_thermal_runaway_bed_state_machine (v : TRState) (s : state) : state :=
  State (Running s) (killed_hotend s) (killed_bed s)
        (current_temperature s) (current_temperature_bed s)
        (target_temperature s) (target_temperature_bed s)
        (watch_target_temp s) (watch_heater_next_ms s)
        (watch_target_bed_temp s) (watch_bed_next_ms s)
        (soft_pwm_amount s) (soft_pwm_amount_bed s) (is_bed_heating s)
        (irq s) (temperatureTrendCalculator s)
        (thermal_runaway_state_machine s) (thermal_runaway_timer s) v
        (thermal_runaway_bed_timer s) (tr_target_temperature_hotend s)
        (tr_target_temperature_bed s) (DIO4_WPORT s) (DIO3_WPORT s)
        (interrupts_enabled s) (watchdog_resets s) (millis s)
        (isr_statics s) (serial_out s) (lcd_page s) (temp_errors s).

Definition set_thermal_runaway_bed_timer (v : Z) (s : state) : state :=
  State (Running s) (killed_hotend s) (killed_bed s)
        (current_temperature s) (current_temperature_bed s)
        (target_temperature s) (target_temperature_bed s)
        (watch_target_temp s) (watch_heater_next_ms s)
        (watch_target_bed_temp s) (watch_bed_next_ms s)
        (soft_pwm_amount s) (soft_pwm_amount_bed s) (is_bed_heating s)
        (irq s) (temperatureTrendCalculator s)
        (thermal_runaway_state_machine s) (thermal_runaway_timer s)
        (thermal_runaway_bed_state_machine s) v
        (tr_target_temperature_hotend s) (tr_target_temperature_bed s)
        (DIO4_WPORT s) (DIO3_WPORT s) (interrupts_enabled s)
        (watchdog_resets s) (millis s) (isr_statics s) (serial_out s)
        (lcd_page s) (temp_errors s).

Definition set_tr_target_temperature_hotend (v : temp_t) (s : state) : state :=
  State (Running s) (killed_hotend s) (killed_bed s)
        (current_temperature s) (current_temperature_bed s)
        (target_temperature s) (target_temperature_bed s)
        (watch_target_temp s) (watch_heater_next_ms s)
        (watch_target_bed_temp s) (watch_bed_next_ms s)
        (soft_pwm_amount s) (soft_pwm_amount_bed s) (is_bed_heating s)
        (irq s) (temperatureTrendCalculator s)
        (thermal_runaway_state_machine s) (thermal_runaway_timer s)
        (thermal_runaway_bed_state_machine s)
        (thermal_runaway_bed_timer s) v (tr_target_temperature_bed s)
        (DIO4_WPORT s) (DIO3_WPORT s) (interrupts_enabled s)
        (watchdog_resets s) (millis s) (isr_statics s) (serial_out s)
        (lcd_page s) (temp_errors s).

Definition set_tr_target_temperature_bed (v : temp_t) (s : state) : state :=
  State (Running s) (killed_hotend s) (killed_bed s)
        (current_temperature s) (current_temperature_bed s)
        (target_temperature s) (target_temperature_bed s)
        (watch_target_temp s) (watch_heater_next_ms s)
        (watch_target_bed_temp s) (watch_bed_next_ms s)
        (soft_pwm_amount s) (soft_pwm_amount_bed s) (is_bed_heating s)
        (irq s) (temperatureTrendCalculator s)
        (thermal_runaway_state_machine s) (thermal_runaway_timer s)
        (thermal_runaway_bed_state_machine s)
        (thermal_runaway_bed_timer s) (tr_target_temperature_hotend s)
        v (DIO4_WPORT s) (DIO3_WPORT s) (interrupts_enabled s)
        (watchdog_resets s) (millis s) (isr_statics s) (serial_out s)
        (lcd_page s) (temp_errors s).

Definition set_DIO4_WPORT (v : Z) (s : state) : state :=
  State (Running s) (killed_hotend s) (killed_bed s)
        (current_temperature s) (current_temperature_bed s)
        (target_temperature s) (target_temperature_bed s)
        (watch_target_temp s) (watch_heater_next_ms s)
        (watch_target_bed_temp s) (watch_bed_next_ms s)
        (soft_pwm_amount s) (soft_pwm_amount_bed s) (is_bed_heating s)
        (irq s) (temperatureTrendCalculator s)
        (thermal_runaway_state_machine s) (thermal_runaway_timer s)
        (thermal_runaway_bed_state_machine s)
        (thermal_runaway_bed_timer s) (tr_target_temperature_hotend s)
        (tr_target_temperature_bed s) v (DIO3_WPORT s)
        (interrupts_enabled s) (watchdog_resets s) (millis s)
        (isr_statics s) (serial_out s) (lcd_page s) (temp_errors s).

Definition set_DIO3_WPORT (v : Z) (s : state) : state :=
  State (Running s) (killed_hotend s) (killed_bed s)
        (current_temperature s) (current_temperature_bed s)
        (target_temperature s) (target_temperature_bed s)
        (watch_target_temp s) (watch_heater_next_ms s)
        (watch_target_bed_temp s) (watch_bed_next_ms s)
        (soft_pwm_amount s) (soft_pwm_amount_bed s) (is_bed_heating s)
        (irq s) (temperatureTrendCalculator s)
        (thermal_runaway_state_machine s) (thermal_runaway_timer s)
        (thermal_runaway_bed_state_machine s)
        (thermal_runaway_bed_timer s) (tr_target_temperature_hotend s)
        (tr_target_temperature_bed s) (DIO4_WPORT s) v
        (interrupts_enabled s) (watchdog_resets s) (millis s)
        (isr_statics s) (serial_out s) (lcd_page s) (temp_errors s).

Definition set_interrupts_enabled (v : bool) (s : state) : state :=
  State (Running s) (killed_hotend s) (killed_bed s)
        (current_temperature s) (current_temperature_bed s)
        (target_temperature s) (target_temperature_bed s)
        (watch_target_temp s) (watch_heater_next_ms s)
        (watch_target_bed_temp s) (watch_bed_next_ms s)
        (soft_pwm_amount s) (soft_pwm_amount_bed s) (is_bed_heating s)
        (irq s) (temperatureTrendCalculator s)
        (thermal_runaway_state_machine s) (thermal_runaway_timer s)
        (thermal_runaway_bed_state_machine s)
        (thermal_runaway_bed_timer s) (tr_target_temperature_hotend s)
        (tr_target_temperature_bed s) (DIO4_WPORT s) (DIO3_WPORT s) v
        (watchdog_resets s) (millis s) (isr_statics s) (serial_out s)
        (lcd_page s) (temp_errors s).

Definition set_watchdog_resets (v : nat) (s : state) : state :=
  State (Running s) (killed_hotend s) (killed_bed s)
        (current_temperature s) (current_temperature_bed s)
        (target_temperature s) (target_temperature_bed s)
        (watch_target_temp s) (watch_heater_next_ms s)
        (watch_target_bed_temp s) (watch_bed_next_ms s)
        (soft_pwm_amount s) (soft_pwm_amount_bed s) (is_bed_heating s)
        (irq s) (temperatureTrendCalculator s)
        (thermal_runaway_state_machine s) (thermal_runaway_timer s)
        (thermal_runaway_bed_state_machine s)
        (thermal_runaway_bed_timer s) (tr_target_temperature_hotend s)
        (tr_target_temperature_bed s) (DIO4_WPORT s) (DIO3_WPORT s)
        (interrupts_enabled s) v (millis s) (isr_statics s)
        (serial_out s) (lcd_page s) (temp_errors s).

Definition set_millis (v : Z) (s : state) : state :=
  State (Running s) (killed_hotend s) (killed_bed s)
        (current_temperature s) (current_temperature_bed s)
        (target_temperature s) (target_temperature_bed s)
        (watch_target_temp s) (watch_heater_next_ms s)
        (watch_target_bed_temp s) (watch_bed_next_ms s)
        (soft_pwm_amount s) (soft_pwm_amount_bed s) (is_bed_heating s)
        (irq s) (temperatureTrendCalculator s)
        (thermal_runaway_state_machine s) (thermal_runaway_timer s)
        (thermal_runaway_bed_state_machine s)
        (thermal_runaway_bed_timer s) (tr_target_temperature_hotend s)
        (tr_target_temperature_bed s) (DIO4_WPORT s) (DIO3_WPORT s)
        (interrupts_enabled s) (watchdog_resets s) v (isr_statics s)
        (serial_out s) (lcd_page s) (temp_errors s).

Definition set_isr_statics (v : isr_static) (s : state) : state :=
  State (Running s) (killed_hotend s) (killed_bed s)
        (current_temperature s) (current_temperature_bed s)
        (target_temperature s) (target_temperature_bed s)
        (watch_target_temp s) (watch_heater_next_ms s)
        (watch_target_bed_temp s) (watch_bed_next_ms s)
        (soft_pwm_amount s) (soft_pwm_amount_bed s) (is_bed_heating s)
        (irq s) (temperatureTrendCalculator s)
        (thermal_runaway_state_machine s) (thermal_runaway_timer s)
        (thermal_runaway_bed_state_machine s)
        (thermal_runaway_bed_timer s) (tr_target_temperature_hotend s)
        (tr_target_temperature_bed s) (DIO4_WPORT s) (DIO3_WPORT s)
        (interrupts_enabled s) (watchdog_resets s) (millis s) v
        (serial_out s) (lcd_page s) (temp_errors s).

Definition set_serial_out (v : list serial_item) (s : state) : state :=
  State (Running s) (killed_hotend s) (killed_bed s)
        (current_temperature s) (current_temperature_bed s)
        (target_temperature s) (target_temperature_bed s)
        (watch_target_temp s) (watch_heater_next_ms s)
        (watch_target_bed_temp s) (watch_bed_next_ms s)
        (soft_pwm_amount s) (soft_pwm_amount_bed s) (is_bed_heating s)
        (irq s) (temperatureTrendCalculator s)
        (thermal_runaway_state_machine s) (thermal_runaway_timer s)
        (thermal_runaway_bed_state_machine s)
        (thermal_runaway_bed_timer s) (tr_target_temperature_hotend s)
        (tr_target_temperature_bed s) (DIO4_WPORT s) (DIO3_WPORT s)
        (interrupts_enabled s) (watchdog_resets s) (millis s)
        (isr_statics s) v (lcd_page s) (temp_errors s).

Definition set_lcd_page (v : option Page) (s : state) : state :=
  State (Running s) (killed_hotend s) (killed_bed s)
        (current_temperature s) (current_temperature_bed s)
        (target_temperature s) (target_temperature_bed s)
        (watch_target_temp s) (watch_heater_next_ms s)
        (watch_target_bed_temp s) (watch_bed_next_ms s)
        (soft_pwm_amount s) (soft_pwm_amount_bed s) (is_bed_heating s)
        (irq s) (temperatureTrendCalculator s)
        (thermal_runaway_state_machine s) (thermal_runaway_timer s)
        (thermal_runaway_bed_state_machine s)
        (thermal_runaway_bed_timer s) (tr_target_temperature_hotend s)
        (tr_target_temperature_bed s) (DIO4_WPORT s) (DIO3_WPORT s)
        (interrupts_enabled s) (watchdog_resets s) (millis s)
        (isr_statics s) (serial_out s) v (temp_errors s).

Definition set_temp_errors (v : list (Manager * message)) (s : state) : state :=
  State (Running s) (killed_hotend s) (killed_bed s)
        (current_temperature s) (current_temperature_bed s)
        (target_temperature s) (target_temperature_bed s)
        (watch_target_temp s) (watch_heater_next_ms s)
        (watch_target_bed_temp s) (watch_bed_next_ms s)
        (soft_pwm_amount s) (soft_pwm_amount_bed s) (is_bed_heating s)
        (irq s) (temperatureTrendCalculator s)
        (thermal_runaway_state_machine s) (thermal_runaway_timer s)
        (thermal_runaway_bed_state_machine s)
        (thermal_runaway_bed_timer s) (tr_target_temperature_hotend s)
        (tr_target_temperature_bed s) (DIO4_WPORT s) (DIO3_WPORT s)
        (interrupts_enabled s) (watchdog_resets s) (millis s)
        (isr_statics s) (serial_out s) (lcd_page s) v.

(** The power-on values of the statics. *)
Definition init : state :=
State true false false 0 0 0 0 0 0 0 0 0 0 false
      (Interrupt false 0 0) (TempTrend true 0)
      TRInactive 0 TRInactive 0 0 0 0 0 true O 0
      (IsrStatic initialize_hotend 0 0 0 0) [] None [].

(** *** Calls that may not return *)

(** [Locked s]: the call ended in the final loop of [kill()], entered
    in state [s]. *)
Inductive outcome (A : Type) : Type :=
  | Returns (a : A) (s : state)
  | Locked (s : state).
Arguments Returns {A} a s.
Arguments Locked {A} s.

Definition obind {A B : Type} (m : outcome A) (k : A -> state -> outcome B)
  : outcome B :=
  match m with
  | Returns a s => k a s
  | Locked s => Locked s
  end.

Definition final_state {A : Type} (m : outcome A) : state :=
  match m with
  | Returns _ s => s
  | Locked s => s
  end.

Definition is_locked {A : Type} (m : outcome A) : bool :=
  match m with
  | Returns _ _ => false
  | Locked _ => true
  end.

(** [if (c) f();] for an [f] that may not return. *)
Definition when (c : bool) (f : state -> outcome unit) (s : state)
  : outcome unit :=
  if c then f s else Returns tt s.

Section Firmware.
Context {board : Board}.

(** *** Output pins and the watchdog *)

(** [set_pin<pin>(state)], not superscalar; the two heater pins sit in
    different port registers. *)
Definition set_pin (pin : Z) (level : bool) (s : state) : state :=
  if pin =? 4 then
    let port_pin_mask := uint8 (Z.shiftl 1 (uint8 DIO4_PIN)) in
    set_DIO4_WPORT (if level then Z.lor (DIO4_WPORT s) port_pin_mask
                    else Z.ldiff (DIO4_WPORT s) port_pin_mask) s
  else if pin =? 3 then
    let port_pin_mask := uint8 (Z.shiftl 1 (uint8 DIO3_PIN)) in
    set_DIO3_WPORT (if level then Z.lor (DIO3_WPORT s) port_pin_mask
                    else Z.ldiff (DIO3_WPORT s) port_pin_mask) s
  else s.

(** Modelled from the spec: the macros [WRITE_HEATER_0(v)] and
    [WRITE_HEATER_BED(v)], whose header is not among the files modelled:
    they drive the "heater output" of the hotend and of the bed, the
    pins that [set_pin] drives. *)
Definition WRITE_HEATER_0 (level : bool) (s : state) : state :=
  set_pin HEATER_0_PIN level s.
Definition WRITE_HEATER_BED (level : bool) (s : state) : state :=
  set_pin HEATER_BED_PIN level s.

(** The level driven on a heater pin. *)
Definition heater_0_output (s : state) : bool :=
  Z.testbit (DIO4_WPORT s) (uint8 DIO4_PIN).
Definition heater_bed_output (s : state) : bool :=
  Z.testbit (DIO3_WPORT s) (uint8 DIO3_PIN).

(** Modelled from the spec: [Tuna::intrinsic::wdr()] and
    [Tuna::intrinsic::cli()], whose header is not among the files
    modelled.  [wdr] resets ("pets") the watchdog timer, as
    [updateTemperaturesFromRawValues] says where it calls it; the resets
    are counted.  [cli] disables interrupts globally. *)
Definition wdr (s : state) : state :=
  set_watchdog_resets (S (watchdog_resets s)) s.
Definition cli (s : state) : state := set_interrupts_enabled false s.

(** *** Watching that a heater heats *)

Definition degHotend (s : state) : temp_t := current_temperature s.
Definition degBed (s : state) : temp_t := current_temperature_bed s.
Definition degTargetHotend (s : state) : temp_t := target_temperature s.
Definition degTargetBed (s : state) : temp_t := target_temperature_bed s.

Definition start_watching_heater (s : state) : state :=
  if degHotend s
     <? temp_sub (degTargetHotend s)
                 (temp_of_degrees
                    (uint8 (WATCH_TEMP_INCREASE + TEMP_HYSTERESIS + 1)))
  then
    set_watch_heater_next_ms
      (uint32 (millis s + uint32 (WATCH_TEMP_PERIOD * 1000)))
      (set_watch_target_temp
         (temp_add (degHotend s)
                   (temp_of_degrees (uint8 WATCH_TEMP_INCREASE))) s)
  else set_watch_heater_next_ms 0 s.

Definition start_watching_bed (s : state) : state :=
  if degBed s
     <? temp_sub (degTargetBed s)
                 (temp_of_degrees
                    (uint8 (WATCH_BED_TEMP_INCREASE + TEMP_BED_HYSTERESIS
                            + 1)))
  then
    set_watch_bed_next_ms
      (uint32 (millis s + uint32 (uint8 WATCH_BED_TEMP_PERIOD * 1000)))
      (set_watch_target_bed_temp
         (temp_add (degBed s) (temp_of_degrees WATCH_BED_TEMP_INCREASE)) s)
  else set_watch_bed_next_ms 0 s.

Definition setTargetHotend (celsius : temp_t) (s : state) : state :=
  start_watching_heater (set_target_temperature celsius s).

Definition setTargetBed (celsius : temp_t) (s : state) : state :=
  start_watching_bed
    (set_target_temperature_bed
       (if celsius <? BED_MAX_TEMP then celsius else BED_MAX_TEMP) s).

(** *** Switching everything off *)

(** [planner.autotemp_enabled] and [print_job_timer] are not part of
    the state modelled. *)
Definition disable_all_heaters (s : state) : state :=
  let s1 := setTargetHotend 0 s in
  let s2 := setTargetBed 0 s1 in
  let s3 := setTargetHotend 0 s2 in
  let s4 := set_soft_pwm_amount 0 s3 in
  let s5 := WRITE_HEATER_0 false s4 in
  let s6 := set_target_temperature_bed 0 s5 in
  let s7 :=
    if has_bed_thermal_management then set_soft_pwm_amount_bed 0 s6
    else set_is_bed_heating false s6 in
  WRITE_HEATER_BED false s7.

Definition serial (items : list serial_item) (s : state) : state :=
  set_serial_out (serial_out s ++ items) s.

(** [kill()] up to its final loop.  The stepper drivers switched off by
    [disable_all_steppers()] are outside the state modelled, the delays
    leave it unchanged, and [suicide()] has an empty body. *)
Definition kill_enter (s : state) : state :=
  let s1 := serial [SERIAL_ERROR_START; SERIAL_ERR_KILLED] s in
  let s2 := disable_all_heaters s1 in
  let s3 := cli s2 in
  disable_all_heaters s3.

(** One turn of [while (1) { Tuna::intrinsic::wdr(); }]. *)
Inductive control : Type := InLoop | AfterLoop.

Definition while_step (cond : state -> bool) (body : state -> state)
           (c : control * state) : control * state :=
  match c with
  | (InLoop, s) => if cond s then (InLoop, body s) else (AfterLoop, s)
  | (AfterLoop, s) => (AfterLoop, s)
  end.

Definition kill_loop_step : control * state -> control * state :=
  while_step (fun _ => true) wdr.

(** The machine [n] loop turns after [kill()] entered its loop in [s]. *)
Definition kill_loop (n : nat) (s : state) : control * state :=
  Nat.iter n kill_loop_step (InLoop, s).

Definition kill (s : state) : outcome unit := Locked (kill_enter s).

(** *** Temperature error handlers *)

Definition killed (m : Manager) (s : state) : bool :=
  match m with Hotend => killed_hotend s | Bed => killed_bed s end.

Definition set_killed (m : Manager) (v : bool) (s : state) : state :=
  match m with
  | Hotend => set_killed_hotend v s
  | Bed => set_killed_bed v s
  end.

(** Modelled from the spec: [is_running()], whose header is not among
    the files modelled, reads the "Running" flag. *)
Definition is_running (s : state) : bool := Running s.

(** [_temp_error<manager_type>(serial_msg, lcd_msg)];
    [BOGUS_TEMPERATURE_FAILSAFE_OVERRIDE] is not defined. *)
Definition _temp_error (manager_type : Manager) (serial_msg : message)
           (s : state) : outcome unit :=
  let s0 := set_temp_errors (temp_errors s ++ [(manager_type, serial_msg)]) s in
  let s1 := set_lcd_page (Some Thermal_Runaway) s0 in
  let s2 :=
    if is_running s1 then
      serial [SERIAL_ERROR_START; SERIAL_PGM serial_msg;
              SERIAL_STOPPED_HEATER;
              match manager_type with
              | Hotend => SERIAL_HEATER_0
              | Bed => SERIAL_HEATER_BED
              end] s1
    else s1 in
  if negb (killed manager_type s2) then
    kill (set_killed manager_type true (set_Running false s2))
  else Returns tt (disable_all_heaters s2).

Definition max_temp_error (manager_type : Manager) (s : state)
  : outcome unit := _temp_error manager_type MSG_T_MAXTEMP s.

Definition min_temp_error (manager_type : Manager) (s : state)
  : outcome unit := _temp_error manager_type MSG_T_MINTEMP s.

(** *** Raw readings to temperatures *)

(** [temp_trend::appendValue]; [MeanCount] is 8. *)
Definition appendValue (value : temp_t) (positive : bool) (t : temp_trend)
  : temp_trend :=
  let raw_value := value in
  let sum1 := m_MeanSum t - m_MeanSum t / 8 in
  if Bool.eqb positive (m_Positive t) then
    TempTrend (m_Positive t) (sum1 + raw_value)
  else if sum1 <? raw_value then
    TempTrend (negb (m_Positive t)) (raw_value - sum1)
  else TempTrend (m_Positive t) (sum1 - raw_value).

(** The min/max checks on the hotend reading ([ENABLE_ERROR_3]). *)
Definition check_hotend_raw (temperature_raw : Z) (s : state)
  : outcome unit :=
  if HEATER_0_RAW_LO_TEMP <? HEATER_0_RAW_HI_TEMP then
    obind (when ((HOTEND_MAX_ADC <=? temperature_raw)
                 && (0 <? target_temperature s))
                (max_temp_error Hotend) s)
          (fun _ s1 =>
             when ((temperature_raw <=? HOTEND_MIN_ADC)
                   && negb is_preheating
                   && (0 <? target_temperature s1))
                  (min_temp_error Hotend) s1)
  else
    obind (when ((temperature_raw <=? HOTEND_MAX_ADC)
                 && (0 <? target_temperature s))
                (max_temp_error Hotend) s)
          (fun _ s1 =>
             when ((HOTEND_MIN_ADC <=? temperature_raw)
                   && negb is_preheating
                   && (0 <? target_temperature s1))
                  (min_temp_error Hotend) s1).

(** The min/max checks on the bed reading ([ENABLE_ERROR_5]). *)
Definition check_bed_raw (temperature_bed_raw : Z) (s : state)
  : outcome unit :=
  if HEATER_BED_RAW_LO_TEMP <? HEATER_BED_RAW_HI_TEMP then
    obind (when ((BED_MAX_ADC <=? temperature_bed_raw)
                 && (0 <? target_temperature_bed s))
                (max_temp_error Bed) s)
          (fun _ s1 =>
             when ((temperature_bed_raw <=? BED_MIN_ADC)
                   && (0 <? target_temperature_bed s1))
                  (min_temp_error Bed) s1)
  else
    obind (when ((temperature_bed_raw <=? BED_MAX_ADC)
                 && (0 <? target_temperature_bed s))
                (max_temp_error Bed) s)
          (fun _ s1 =>
             when ((BED_MIN_ADC <=? temperature_bed_raw)
                   && (0 <? target_temperature_bed s1))
                  (min_temp_error Bed) s1).

Definition updateTemperaturesFromRawValues (s : state) : outcome bool :=
  if ready_ (irq s) then
    let temperature_raw := raw_adc_hotend (irq s) in
    let temperature_bed_raw := raw_adc_bed (irq s) in
    let s1 :=
      set_irq (Interrupt false (raw_adc_hotend (irq s))
                         (raw_adc_bed (irq s))) s in
    obind (when ENABLE_ERROR_3 (check_hotend_raw temperature_raw) s1)
      (fun _ s2 =>
    obind (when ENABLE_ERROR_5 (check_bed_raw temperature_bed_raw) s2)
      (fun _ s3 =>
         let temperature_raw' := Thermistor_clamp_adc temperature_raw in
         let temperature_bed_raw' :=
           Thermistor_clamp_adc temperature_bed_raw in
         let previous_temperature := current_temperature s3 in
         let s4 :=
           set_current_temperature
             (Thermistor_adc_to_temperature temperature_raw') s3 in
         let s5 :=
           set_current_temperature_bed
             (Thermistor_adc_to_temperature temperature_bed_raw') s4 in
         let s6 :=
           if previous_temperature <=? current_temperature s5 then
             set_temperatureTrendCalculator
               (appendValue
                  (temp_sub (current_temperature s5) previous_temperature)
                  true (temperatureTrendCalculator s5)) s5
           else
             set_temperatureTrendCalculator
               (appendValue
                  (temp_sub previous_temperature (current_temperature s5))
                  false (temperatureTrendCalculator s5)) s5 in
         Returns true (wdr s6)))
  else Returns false s.

(** *** Thermal runaway protection *)

Definition tr_target_temperature (m : Manager) (s : state) : temp_t :=
  match m with
  | Hotend => tr_target_temperature_hotend s
  | Bed => tr_target_temperature_bed s
  end.

Definition set_tr_target_temperature (m : Manager) (v : temp_t) (s : state)
  : state :=
  match m with
  | Hotend => set_tr_target_temperature_hotend v s
  | Bed => set_tr_target_temperature_bed v s
  end.

(** The state machine and the timer a manager's instantiation is called
    with by [manage_heater]. *)
Definition tr_state (m : Manager) (s : state) : TRState :=
  match m with
  | Hotend => thermal_runaway_state_machine s
  | Bed => thermal_runaway_bed_state_machine s
  end.

Definition set_tr_state (m : Manager) (v : TRState) (s : state) : state :=
  match m with
  | Hotend => set_thermal_runaway_state_machine v s
  | Bed => set_thermal_runaway_bed_state_machine v s
  end.

Definition tr_timer (m : Manager) (s : state) : Z :=
  match m with
  | Hotend => thermal_runaway_timer s
  | Bed => thermal_runaway_bed_timer s
  end.

Definition set_tr_timer (m : Manager) (v : Z) (s : state) : state :=
  match m with
  | Hotend => set_thermal_runaway_timer v s
  | Bed => set_thermal_runaway_bed_timer v s
  end.

(** The [switch] of [thermal_runaway_protection], entered at the label
    of the current state; a case without [break] falls through. *)
Definition tr_case_Runaway (m : Manager) (s : state) : outcome unit :=
  match tr_state m s with
  | TRRunaway => _temp_error m MSG_T_THERMAL_RUNAWAY s
  | _ => Returns tt s
  end.

Definition tr_case_Stable (m : Manager) (current : temp_t)
           (period_seconds hysteresis_degc : Z) (s : state) : outcome unit :=
  if temp_sub (tr_target_temperature m s) (temp_of_degrees hysteresis_degc)
     <=? current
  then
    Returns tt
      (set_tr_timer m (uint32 (millis s + uint32 (period_seconds * 1000))) s)
  else if PENDING (millis s) (tr_timer m s) then Returns tt s
  else tr_case_Runaway m (set_tr_state m TRRunaway s).

Definition tr_case_FirstHeating (m : Manager) (current : temp_t)
           (period_seconds hysteresis_degc : Z) (s : state) : outcome unit :=
  if current <? tr_target_temperature m s then Returns tt s
  else tr_case_Stable m current period_seconds hysteresis_degc
                      (set_tr_state m TRStable s).

Definition thermal_runaway_protection (m : Manager)
           (current target : temp_t) (period_seconds hysteresis_degc : Z)
           (s : state) : outcome unit :=
  let s1 :=
    if negb (tr_target_temperature m s =? target) then
      set_tr_state m (if 0 <? target then TRFirstHeating else TRInactive)
                   (set_tr_target_temperature m target s)
    else s in
  match tr_state m s1 with
  | TRInactive => Returns tt s1
  | TRFirstHeating =>
      tr_case_FirstHeating m current period_seconds hysteresis_degc s1
  | TRStable => tr_case_Stable m current period_seconds hysteresis_degc s1
  | TRRunaway => tr_case_Runaway m s1
  end.

(** *** The heater manager *)

(** Modelled from the spec: [ELAPSED(now, soon)], whose header is not
    among the files modelled: the time [soon] is no longer pending. *)
Definition ELAPSED (now soon : Z) : bool := negb (PENDING now soon).

(** The hotend watch of [manage_heater]. *)
Definition watch_hotend (ms : Z) (s : state) : outcome unit :=
  if negb (watch_heater_next_ms s =? 0) && ELAPSED ms (watch_heater_next_ms s)
  then
    if ENABLE_ERROR_1A && (degHotend s <? watch_target_temp s)
    then _temp_error Hotend MSG_T_HEATING_FAILED s
    else Returns tt (start_watching_heater s)
  else Returns tt s.

(** The bed watch of [manage_heater]. *)
Definition watch_bed (ms : Z) (s : state) : outcome unit :=
  if negb (watch_bed_next_ms s =? 0) && ELAPSED ms (watch_bed_next_ms s)
  then
    if ENABLE_ERROR_1B && (degBed s <? watch_target_bed_temp s)
    then _temp_error Bed MSG_T_HEATING_FAILED s
    else Returns tt (start_watching_bed s)
  else Returns tt s.

(** The hotend duty of [manage_heater]. *)
Definition drive_hotend (s : state) : state :=
  if target_temperature s =? 0 then
    WRITE_HEATER_0 false (set_soft_pwm_amount 0 s)
  else if (current_temperature s <=? HOTEND_MIN_TEMP) || is_preheating
          || (HOTEND_MAX_TEMP <=? current_temperature s)
  then set_soft_pwm_amount 0 s
  else
    set_soft_pwm_amount
      (uint8 (HeaterManager_get_power (current_temperature s)
                                      (target_temperature s))) s.

(** The bed duty of [manage_heater]. *)
Definition drive_bed (s : state) : state :=
  let s1 :=
    if target_temperature_bed s =? 0 then
      WRITE_HEATER_BED false
        (if has_bed_thermal_management then set_soft_pwm_amount_bed 0 s
         else set_is_bed_heating false s)
    else s in
  if WITHIN (current_temperature_bed s1) BED_MIN_TEMP BED_MAX_TEMP then
    if has_bed_thermal_management then
      set_soft_pwm_amount_bed
        (if current_temperature_bed s1 <? target_temperature_bed s1
         then uint8 (Z.shiftr MAX_BED_POWER 1) else 0) s1
    else
      set_is_bed_heating
        (current_temperature_bed s1 <? target_temperature_bed s1) s1
  else
    WRITE_HEATER_BED false
      (if has_bed_thermal_management then set_soft_pwm_amount_bed 0 s1
       else set_is_bed_heating false s1).

Definition manage_heater (s : state) : outcome bool :=
  obind (updateTemperaturesFromRawValues s) (fun updated s1 =>
  if negb updated then Returns false s1
  else
    let ms := millis s1 in
    obind (when ENABLE_ERROR_2A
             (thermal_runaway_protection
                Hotend (current_temperature s1) (target_temperature s1)
                THERMAL_PROTECTION_PERIOD THERMAL_PROTECTION_HYSTERESIS) s1)
      (fun _ s2 =>
    obind (watch_hotend ms s2) (fun _ s3 =>
    obind (watch_bed ms s3) (fun _ s4 =>
    obind (when ENABLE_ERROR_2B
             (thermal_runaway_protection
                Bed (current_temperature_bed s4) (target_temperature_bed s4)
                THERMAL_PROTECTION_BED_PERIOD
                THERMAL_PROTECTION_BED_HYSTERESIS) s4)
      (fun _ s5 => Returns true (drive_bed (drive_hotend s5))))))).

(** *** The timer interrupt *)

(** [running_average<uint16, 32>]: the averaged value and [+=]. *)
Definition running_average_value (value_ : Z) : Z := uint16 (value_ / 32).

Definition running_average_add (value_ new_value : Z) : Z :=
  value_ - running_average_value value_ + new_value.

(** The ADC part of [Temperature::isr]; [ADC] is the conversion result
    register. *)
Definition isr_adc (ADC : Z) (s : state) : state :=
  let st := isr_statics s in
  match adc_sensor_state st with
  | initialize_hotend =>
      set_isr_statics
        (IsrStatic read_hotend (local_raw_adc_hotend st)
                   (local_raw_adc_bed st) (skip_counter st) (pwm_counter st))
        s
  | read_hotend =>
      set_isr_statics
        (IsrStatic initialize_bed
                   (running_average_add (local_raw_adc_hotend st)
                                        (uint16 (uint16 ADC * OVERSAMPLENR)))
                   (local_raw_adc_bed st) (skip_counter st) (pwm_counter st))
        s
  | initialize_bed =>
      set_isr_statics
        (IsrStatic read_bed (local_raw_adc_hotend st)
                   (local_raw_adc_bed st) (skip_counter st) (pwm_counter st))
        s
  | read_bed =>
      let bed' :=
        running_average_add (local_raw_adc_bed st)
                            (uint16 (uint16 ADC * OVERSAMPLENR)) in
      set_irq
        (Interrupt true (running_average_value (local_raw_adc_hotend st))
                   (running_average_value bed'))
        (set_isr_statics
           (IsrStatic initialize_hotend (local_raw_adc_hotend st) bed'
                      (skip_counter st) (pwm_counter st))
           s)
  | ready => s
  end.

Definition skip_mask : Z := 8.

(** The duty values latched by the ISR. *)
Definition extruder_pwm (s : state) : Z := soft_pwm_amount s.
Definition bed_pwm (s : state) : Z :=
  if has_bed_thermal_management then soft_pwm_amount_bed s
  else if is_bed_heating s then 255 else 0.

(** The plain-counter branch ([uniform_distributed_pwm] is [false]). *)
Definition isr_pwm (s : state) : state :=
  let st := isr_statics s in
  let new_extruder_state :=
    (pwm_counter st <=? extruder_pwm s) && (0 <? extruder_pwm s) in
  let new_bed_state :=
    (pwm_counter st <=? bed_pwm s) && (0 <? bed_pwm s) in
  let s1 :=
    set_isr_statics
      (IsrStatic (adc_sensor_state st) (local_raw_adc_hotend st)
                 (local_raw_adc_bed st) (skip_counter st)
                 (uint8 (pwm_counter st + 1)))
      s in
  set_pin HEATER_BED_PIN new_bed_state
          (set_pin HEATER_0_PIN new_extruder_state s1).

(** Whether this invocation of the ISR gets past the skip counter. *)
Definition pwm_tick (s : state) : bool :=
  uint8 (skip_counter (isr_statics s) + 1) mod skip_mask =? 0.

Definition isr (ADC : Z) (s : state) : state :=
  let s1 := isr_adc ADC s in
  let st := isr_statics s1 in
  let s2 :=
    set_isr_statics
      (IsrStatic (adc_sensor_state st) (local_raw_adc_hotend st)
                 (local_raw_adc_bed st) (uint8 (skip_counter st + 1))
                 (pwm_counter st))
      s1 in
  if negb (skip_counter (isr_statics s2) mod skip_mask =? 0) then s2
  else isr_pwm s2.

End Firmware.
End Thermal.

(** A board to run the thermal code on: a thermistor whose reading
    falls as the temperature rises, temperatures with four fraction
    bits, and the customary timing constants. *)
Definition example_board : Board :=
  {| HOTEND_MAX_ADC := 1200;
     HOTEND_MIN_ADC := 16000;
     BED_MAX_ADC := 6000;
     BED_MIN_ADC := 16000;
     HOTEND_MAX_TEMP := 275 * 16;
     HOTEND_MIN_TEMP := 5 * 16;
     BED_MAX_TEMP := 150 * 16;
     BED_MIN_TEMP := 5 * 16;
     HEATER_0_RAW_LO_TEMP := 16383;
     HEATER_0_RAW_HI_TEMP := 0;
     HEATER_BED_RAW_LO_TEMP := 16383;
     HEATER_BED_RAW_HI_TEMP := 0;
     OVERSAMPLENR := 16;
     WATCH_TEMP_INCREASE := 2;
     TEMP_HYSTERESIS := 3;
     WATCH_TEMP_PERIOD := 20;
     WATCH_BED_TEMP_INCREASE := 2;
     TEMP_BED_HYSTERESIS := 2;
     WATCH_BED_TEMP_PERIOD := 60;
     THERMAL_PROTECTION_PERIOD := 40;
     THERMAL_PROTECTION_HYSTERESIS := 4;
     THERMAL_PROTECTION_BED_PERIOD := 20;
     THERMAL_PROTECTION_BED_HYSTERESIS := 2;
     MAX_BED_POWER := 255;
     DIO4_PIN := 5;
     DIO3_PIN := 5;
     Thermistor_adc_to_temperature := fun raw => (16383 - raw) / 4;
     Thermistor_clamp_adc := fun raw => Z.max 0 (Z.min raw 16383);
     HeaterManager_get_power := fun current target =>
                                  if current <? target then 255 else 0;
     temp_of_degrees := fun d => d * 16;
     temp_add := fun a b => a + b;
     temp_sub := fun a b => Z.max 0 (a - b);
     PENDING := fun now soon =>
                  MachineInt.int32 (MachineInt.uint32 (now - soon)) <? 0 |}.

(** ** Sample inputs *)

Module PlannerExamples.
Import MachineInt Planner.

(** A queue of sixteen slots holding one finished block at slot 0. *)
Definition one_block_queue : state :=
  PlannerState (replicate 16 block_zero) 1 0 zero_xyze_Z zero_xyze_float
               F32.zero F32.zero.

(** Steps per mm 80, 80, 400, 100; feedrate limits 300, 300, 5, 25 mm/s;
    acceleration limits 1500, 1500, 100, 10000 mm/s^2; jerk limits 10,
    10, 0.4, 5 mm/s; acceleration 1000 mm/s^2; shortest segment time
    20000 us. *)
Definition example_settings : settings :=
  Settings
    (XYZE (F32.of_Z 300) (F32.of_Z 300) (F32.of_Z 5) (F32.of_Z 25))
    (XYZE (F32.of_Z 80) (F32.of_Z 80) (F32.of_Z 400) (F32.of_Z 100))
    (XYZE (F32.of_ratio 1 80) (F32.of_ratio 1 80) (F32.of_ratio 1 400)
          (F32.of_ratio 1 100))
    (XYZE 120000 120000 40000 1000000)
    (F32.of_ratio 5 100) (F32.of_Z 1000) (F32.of_Z 3000) (F32.of_Z 1000)
    (XYZE (F32.of_Z 10) (F32.of_Z 10) (F32.of_ratio 4 10) (F32.of_Z 5))
    F32.zero 4294 20000.

(** One extruder at 100 % flow, one fan at rest, a hot nozzle. *)
Definition example_machine (stepper_isr dryrun : bool) : machine :=
  Machine (fun _ => F32.one) (fun _ => 100) [0] dryrun false stepper_isr.

(** A block of 100 steps at 50 steps/s with 1000 steps/s^2. *)
Definition slow_block : block_t :=
  Block 1 0 (XYZE 100 0 0 0) 100 0 0 0 0 F32.zero F32.zero F32.zero F32.zero
        F32.zero 50 0 0 1000 [] 0.

(** A block of 100 steps at 4800 steps/s with 80000 steps/s^2: too
    short to reach its nominal rate. *)
Definition short_block : block_t :=
  Block 1 0 (XYZE 100 0 0 0) 100 0 0 0 0 F32.zero F32.zero F32.zero F32.zero
        F32.zero 4800 0 0 80000 [] 0.

(** The steps of a move of 0.05 mm along X from the origin. *)
Definition tiny_move : move := Move (XYZE 4 0 0 0) 4 0 0 0 0 F32.zero 0.

(** The steps of a move of 1 mm of filament from the origin in dry-run
    mode. *)
Definition dry_move : move := Move (XYZE 0 0 0 100) 0 0 0 0 0 F32.zero 0.

(** A block that still waits for its trapezoid. *)
Definition pending_block : block_t :=
  with_flag BLOCK_FLAG_RECALCULATE block_zero.

(** Sixteen slots, one move queued at slot 0, not yet recalculated. *)
Definition tail_pending_queue : state :=
  PlannerState (pending_block :: replicate 15 block_zero) 1 0
               zero_xyze_Z zero_xyze_float F32.zero F32.zero.

(** Sixteen slots, two finished moves queued at slots 0 and 1. *)
Definition two_block_queue : state :=
  PlannerState (replicate 16 block_zero) 2 0 zero_xyze_Z zero_xyze_float
               F32.zero F32.zero.

(** Sixteen slots, two moves queued at slots 15 and 0: the one at the
    tail is finished, the one after it, at slot 0, is not yet
    recalculated. *)
Definition wrapped_queue : state :=
  PlannerState (pending_block :: replicate 15 block_zero) 1 15
               zero_xyze_Z zero_xyze_float F32.zero F32.zero.

End PlannerExamples.

(** ** Formulas in the words of the specification *)

Module PlannerSpec.



End PlannerSpec.

(** ** Sample thermal states *)

Module ThermalExamples.
Import MachineInt Thermal.

(** The heater pin is high, the duty is 0, the PWM counter is 0 and the
    next interrupt is one that reaches the PWM code. *)
Definition idle_high_state : state :=
  set_isr_statics (IsrStatic initialize_hotend 0 0 7 0)
                  (set_DIO4_WPORT 32 init).

(** The hotend is set to 200 degrees and is watched in state Stable
    with a timer that ran out long ago; a fresh reading of 180 degrees
    waits to be consumed. *)
Definition stuck_state : state :=
  set_irq (Interrupt true 4863 15000)
    (set_millis 100000
       (set_thermal_runaway_timer 1000
          (set_thermal_runaway_state_machine TRStable
             (set_tr_target_temperature_hotend 3200
                (set_current_temperature 2880
                   (set_target_temperature 3200 init)))))).

(** A hotend reading beyond the maximum bound while a target is set. *)
Definition overheated_state : state :=
  set_irq (Interrupt true 1000 15000) (set_target_temperature 3200 init).

End ThermalExamples.

(** ** Notions used to state the thermal properties *)

Module ThermalSpec.
Import Thermal.

(** The target temperature of the heater a manager stands for. *)
Definition target_of (m : Manager) (s : state) : temp_t :=
  match m with
  | Hotend => target_temperature s
  | Bed => target_temperature_bed s
  end.

(** The thermal-runaway bookkeeping of both heaters. *)
Definition tr_view (s : state) : TRState * Z * temp_t * (TRState * Z * temp_t) :=
  (thermal_runaway_state_machine s, thermal_runaway_timer s,
   tr_target_temperature_hotend s,
   (thermal_runaway_bed_state_machine s, thermal_runaway_bed_timer s,
    tr_target_temperature_bed s)).

(** What the min/max checks have done so far, seen from state [s0]:
    nothing, or one error of a heater whose target was above 0. *)
Definition checked (s0 : state) (r : outcome unit) : Prop :=
  (exists s', r = Returns tt s' /\
              temp_errors s' = temp_errors s0 /\
              target_temperature s' = target_temperature s0 /\
              target_temperature_bed s' = target_temperature_bed s0)
  \/
  (exists m e, (e = MSG_T_MAXTEMP \/ e = MSG_T_MINTEMP) /\
               0 < target_of m s0 /\
               temp_errors (final_state r) = temp_errors s0 ++ [(m, e)] /\
               (forall s', r = Returns tt s' ->
                           target_temperature s' = 0 /\
                           target_temperature_bed s' = 0)).

(** What the heater manager may change of the watch on thermal
    runaway: nothing; and which errors it may add. *)
Definition watch_view (s : state)
  : TRState * Z * temp_t * (TRState * Z * temp_t)
    * list (Manager * message) :=
  (tr_view s, temp_errors s).

End ThermalSpec.

(** ** Setting the planner position and the acceleration rates
    ([Marlin_main.cpp]) *)

Module PlannerSetup.
Import MachineInt F32 Planner.

Section Ring.
Context {cfg : PlannerConfig}.

(** [Planner::_set_position_mm]; the stepper position set alongside is
    outside the state modelled. *)
Definition _set_position_mm (s : settings) (p : state) (a b c e : float)
  : result state :=
  (do na <- cast (LROUND (F32.mul a (at_X (axis_steps_per_mm s))));
   do nb <- cast (LROUND (F32.mul b (at_Y (axis_steps_per_mm s))));
   do nc <- cast (LROUND (F32.mul c (at_Z (axis_steps_per_mm s))));
   do ne <- cast (LROUND (F32.mul e (at_E (axis_steps_per_mm s))));
   Ok (PlannerState (block_buffer p) (block_buffer_head p)
                    (block_buffer_tail p)
                    (XYZE (uint24 na) (uint24 nb) (uint24 nc) (uint24 ne))
                    zero_xyze_float F32.zero (previous_safe_speed p)))%result.

(** [Planner::set_position_mm(axis, v)] *)
Definition set_position_mm (s : settings) (p : state) (axis : AxisEnum)
           (v : float) : result state :=
  (do n <- cast (LROUND (F32.mul v (axis_get (axis_steps_per_mm s) axis)));
   Ok (PlannerState (block_buffer p) (block_buffer_head p)
                    (block_buffer_tail p)
                    (axis_set axis (uint24 n) (position p))
                    (axis_set axis F32.zero (previous_speed p))
                    (previous_nominal_speed p) (previous_safe_speed p)))%result.

(** [Planner::reset_acceleration_rates]; [max_acceleration_mm_per_s2]
    is its input. *)
Definition reset_acceleration_rates (max_acceleration_mm_per_s2 : xyze Z)
           (s : settings) : result settings :=
  (do r <-
     fold_left
       (fun r i =>
          do acc <- r;
          let '(rates, highest_rate) := acc in
          do rate <-
            cast (F32.to_uint32
                    (F32.mul
                       (F32.of_Z (axis_get max_acceleration_mm_per_s2 i))
                       (axis_get (axis_steps_per_mm s) i)));
          Ok (axis_set i rate rates, NOLESS highest_rate rate))
       LOOP_XYZE (Ok (max_acceleration_steps_per_s2 s, 1));
   let '(rates, highest_rate) := r in
   Ok (Settings (max_feedrate_mm_s s) (axis_steps_per_mm s) (steps_to_mm s)
                rates (min_feedrate_mm_s s) (acceleration_mm_s2 s)
                (retract_acceleration s) (travel_acceleration s)
                (max_jerk s) (min_travel_feedrate_mm_s s)
                (uint32 (Z.quot 4294967295 highest_rate))
                (min_segment_time s)))%result.

End Ring.
End PlannerSetup.

(** ** Notions used to state what replanning keeps *)

Module PlannerViews.
Import MachineInt Planner.

(** What the block builder writes and the look-ahead reads. *)
Definition geometry (b : block_t) :=
  (active_extruder b, steps b, step_event_count b, direction_bits b,
   nominal_speed b, max_entry_speed b, millimeters b, acceleration b,
   nominal_rate b, acceleration_steps_per_s2 b, fan_speed b,
   segment_time b).

(** What the trapezoid generator hands to the stepper. *)
Definition stepper_profile (b : block_t) :=
  (accelerate_until b, decelerate_after b, acceleration_rate b,
   initial_rate b, final_rate b).

(** [b'] is [b] after replanning. *)
Definition replanned (b b' : block_t) : Prop :=
  geometry b' = geometry b /\
  (forall n : Z, n <> BLOCK_BIT_RECALCULATE ->
                 TEST (flag b') n = TEST (flag b) n) /\
  (TEST (flag b) BLOCK_BIT_BUSY = true ->
   stepper_profile b' = stepper_profile b).

Definition plan_kept (p p' : state) : Prop :=
  block_buffer_head p' = block_buffer_head p /\
  block_buffer_tail p' = block_buffer_tail p /\
  position p' = position p /\
  previous_speed p' = previous_speed p /\
  previous_nominal_speed p' = previous_nominal_speed p /\
  previous_safe_speed p' = previous_safe_speed p /\
  length (block_buffer p') = length (block_buffer p) /\
  forall i : Z, replanned (block_at p i) (block_at p' i).

(** Whether the block in slot [i] still waits for its trapezoid. *)
Definition recalc_flag (p : state) (i : Z) : bool :=
  TEST (flag (block_at p i)) BLOCK_BIT_RECALCULATE.

End PlannerViews.

(** ** The G-code command queue ([Marlin_main.cpp]) *)

(** The capacity of the command queue and the size of one slot, set in
    a configuration header outside the files modelled. *)
Class QueueConfig : Type := {
  BUFSIZE : Z;
  MAX_CMD_SIZE : Z
}.

Module CommandQueue.
Import MachineInt.

Section Queue.
Context {qcfg : QueueConfig}.

(** [commands_in_queue], [cmd_queue_index_r], [cmd_queue_index_w],
    [command_queue] and [send_ok].  A slot of [command_queue] holds a C
    string, modelled by its characters before the terminating NUL. *)
Record state : Type := QueueState {
  commands_in_queue : Z;    (* uint8_t *)
  cmd_queue_index_r : Z;    (* uint8_t *)
  cmd_queue_index_w : Z;    (* uint8_t *)
  command_queue : list String.string;
  send_ok : list bool
}.

Definition clear_command_queue (q : state) : state :=
  QueueState 0 (cmd_queue_index_w q) (cmd_queue_index_w q)
             (command_queue q) (send_ok q).

(** A store into an array; outside the array the behaviour is
    undefined ([None]). *)
Definition store_slot {A : Type} (i : Z) (x : A) (l : list A)
  : option (list A) :=
  if (0 <=? i) && (i <? Z.of_nat (length l)) then
    Some (<[Z.to_nat i := x]> l)
  else None.

Definition _commit_command (say_ok : bool) (q : state) : option state :=
  match store_slot (cmd_queue_index_w q) say_ok (send_ok q) with
  | Some oks =>
      let w := uint8 (cmd_queue_index_w q + 1) in
      let w := if BUFSIZE <=? w then 0 else w in
      Some (QueueState (uint8 (commands_in_queue q + 1))
                       (cmd_queue_index_r q) w (command_queue q) oks)
  | None => None
  end.

(** [*cmd == ';'] *)
Definition is_comment (cmd : String.string) : bool :=
  match cmd with
  | String.String c _ => Ascii.eqb c (Ascii.ascii_of_nat 59)
  | String.EmptyString => false
  end.

(** [strcpy] into a slot of [MAX_CMD_SIZE] characters: the string and
    its terminator have to fit. *)
Definition strcpy_slot (i : Z) (cmd : String.string)
           (l : list String.string) : option (list String.string) :=
  if Z.of_nat (String.length cmd) <? MAX_CMD_SIZE then store_slot i cmd l
  else None.

Definition _enqueuecommand (cmd : String.string) (say_ok : bool)
           (q : state) : option (bool * state) :=
  if is_comment cmd || (BUFSIZE <=? commands_in_queue q) then
    Some (false, q)
  else
    match strcpy_slot (cmd_queue_index_w q) cmd (command_queue q) with
    | Some slots =>
        match _commit_command say_ok
                (QueueState (commands_in_queue q) (cmd_queue_index_r q)
                            (cmd_queue_index_w q) slots (send_ok q)) with
        | Some q' => Some (true, q')
        | None => None
        end
    | None => None
    end.

(** The command [process_next_command] works on, and the flag
    [ok_to_send] consults. *)
Definition current_command (q : state) : option String.string :=
  command_queue q !! Z.to_nat (cmd_queue_index_r q).

Definition current_send_ok (q : state) : option bool :=
  send_ok q !! Z.to_nat (cmd_queue_index_r q).

(** The end of the command branch of [loop()]: the command that was
    processed leaves the queue. *)
Definition loop_advance (q : state) : state :=
  if commands_in_queue q =? 0 then q
  else
    let r := uint8 (cmd_queue_index_r q + 1) in
    QueueState (uint8 (commands_in_queue q - 1))
               (if BUFSIZE <=? r then 0 else r)
               (cmd_queue_index_w q) (command_queue q) (send_ok q).

End Queue.
End CommandQueue.

Definition example_queue_config : QueueConfig :=
  {| BUFSIZE := 4; MAX_CMD_SIZE := 96 |}.

Module CommandQueueViews.
Import MachineInt CommandQueue.
Section Views.
Context {qcfg : QueueConfig}.

(** The indices and the count agree, and the arrays have their
    declared size. *)
Definition consistent (q : state) : Prop :=
  0 <= cmd_queue_index_r q < BUFSIZE /\
  0 <= commands_in_queue q <= BUFSIZE /\
  cmd_queue_index_w q
  = (cmd_queue_index_r q + commands_in_queue q) mod BUFSIZE /\
  Z.of_nat (length (command_queue q)) = BUFSIZE /\
  Z.of_nat (length (send_ok q)) = BUFSIZE.

(** The slot [j] places after the read index. *)
Definition slot_after (q : state) (j : nat)
  : option (String.string * bool) :=
  let i := Z.to_nat ((cmd_queue_index_r q + Z.of_nat j) mod BUFSIZE) in
  match command_queue q !! i, send_ok q !! i with
  | Some c, Some o => Some (c, o)
  | _, _ => None
  end.

(** The commands waiting, oldest first, each with its [send_ok]. *)
Definition pending (q : state) : list (option (String.string * bool)) :=
  map (slot_after q) (seq 0 (Z.to_nat (commands_in_queue q))).

End Views.
End CommandQueueViews.

(** ** Software endstops ([Marlin_main.cpp]) *)

Module Motion.
Import F32.

(** Modelled from the spec: the clamping macros [NOLESS(v, n)] and
    [NOMORE(v, n)], whose header is not among the files modelled, on
    operands of type [float]: [v] is "clamped up to" [n], and clamped
    down to [n]; they are statements that assign to [v] when the
    comparison holds. *)
Definition NOLESS (v n : float) : float := if ltb v n then n else v.
Definition NOMORE (v n : float) : float := if gtb v n then n else v.

(** [soft_endstops_enabled], [soft_endstop_min] and
    [soft_endstop_max]. *)
Record soft_endstops : Type := SoftEndstops {
  soft_endstops_enabled : bool;
  soft_endstop_min : xyze float;   (* float [XYZ]; no E *)
  soft_endstop_max : xyze float
}.

(** [target] is a [float[XYZ]]; callers pass the first three elements
    of a position with four, whose E is out of the function's reach. *)
Definition clamp_to_software_endstops (g : soft_endstops)
           (target : xyze float) : xyze float :=
  if negb (soft_endstops_enabled g) then target
  else
    let x := NOLESS (at_X target) (at_X (soft_endstop_min g)) in
    let y := NOLESS (at_Y target) (at_Y (soft_endstop_min g)) in
    let z := NOLESS (at_Z target) (at_Z (soft_endstop_min g)) in
    let x := NOMORE x (at_X (soft_endstop_max g)) in
    let y := NOMORE y (at_Y (soft_endstop_max g)) in
    let z := NOMORE z (at_Z (soft_endstop_max g)) in
    XYZE x y z (at_E target).

End Motion.

(** ** Notions used to state how the heater manager ends *)

Module ThermalViews.
Import MachineInt Thermal.

(** What a call that returns leaves alone: the run flag, the [killed]
    flags, the hand-over flag of the ISR and the watchdog. *)
Definition undisturbed (s s' : state) : Prop :=
  Running s' = Running s /\
  killed_hotend s' = killed_hotend s /\
  killed_bed s' = killed_bed s /\
  ready_ (irq s') = ready_ (irq s) /\
  interrupts_enabled s' = interrupts_enabled s /\
  watchdog_resets s' = watchdog_resets s.

Section Views.
Context {board : Board}.

(** The state in which the machine is locked by [kill()], entered from
    [s]: everything off, the watchdog not yet reset again. *)
Definition locked_down (s s0 : state) : Prop :=
  Running s0 = false /\
  heater_0_output s0 = false /\
  heater_bed_output s0 = false /\
  soft_pwm_amount s0 = 0 /\
  bed_pwm s0 = 0 /\
  target_temperature s0 = 0 /\
  target_temperature_bed s0 = 0 /\
  interrupts_enabled s0 = false /\
  watchdog_resets s0 = watchdog_resets s.

Definition outcome_is {A : Type} (R L : state -> Prop) (r : outcome A)
  : Prop :=
  match r with
  | Returns _ s' => R s'
  | Locked s0 => L s0
  end.

(** The end of [updateTemperaturesFromRawValues], after the range
    checks: the current temperatures are written from the clamped raw
    readings, the change of the hotend temperature goes to the trend
    calculator, and the watchdog is reset. *)
Definition publish (raw raw_bed : Z) (s3 : state) : state :=
  let temperature_raw' := Thermistor_clamp_adc raw in
  let temperature_bed_raw' := Thermistor_clamp_adc raw_bed in
  let previous_temperature := current_temperature s3 in
  let s4 :=
    set_current_temperature
      (Thermistor_adc_to_temperature temperature_raw') s3 in
  let s5 :=
    set_current_temperature_bed
      (Thermistor_adc_to_temperature temperature_bed_raw') s4 in
  let s6 :=
    if previous_temperature <=? current_temperature s5 then
      set_temperatureTrendCalculator
        (appendValue
           (temp_sub (current_temperature s5) previous_temperature)
           true (temperatureTrendCalculator s5)) s5
    else
      set_temperatureTrendCalculator
        (appendValue
           (temp_sub previous_temperature (current_temperature s5))
           false (temperatureTrendCalculator s5)) s5 in
  wdr s6.

End Views.
End ThermalViews.

(** ** Runs of the thermal code *)

Module ThermalRuns.
Import MachineInt Thermal.
Section Runs.
Context {board : Board}.

(** Timer interrupts in a row, each with the conversion result it
    finds in [ADC]. *)
Definition ticks (adcs : list Z) (s : state) : state :=
  fold_left (fun s ADC => isr ADC s) adcs s.

(** What happens to the thermal code from outside: the timer interrupt
    fires with a conversion result, or the main loop calls
    [manage_heater]. *)
Inductive event : Type :=
  | Tick (ADC : Z)
  | Manage.

(** A sequence of events; it ends where a call does not return. *)
Fixpoint run (es : list event) (s : state) : outcome unit :=
  match es with
  | [] => Returns tt s
  | Tick ADC :: es' => run es' (isr ADC s)
  | Manage :: es' => obind (manage_heater s) (fun _ s' => run es' s')
  end.

(** No target is set and nothing is powered. *)
Definition idle (s : state) : Prop :=
  target_temperature s = 0 /\ target_temperature_bed s = 0 /\
  soft_pwm_amount s = 0 /\ is_bed_heating s = false /\
  heater_0_output s = false /\ heater_bed_output s = false.

End Runs.
End ThermalRuns.

(** ** Sample runs and sample inputs *)

Module PlannerRuns.
Import MachineInt Planner PlannerExamples PlannerSetup.

(** A move of 10 mm along X at 60 mm/s on an empty planner, the
    stepper interrupt being disabled: the block built for it, the
    planner state with the block queued, and the state [_buffer_line]
    returns. *)
Definition one_move_built : built :=
  Eval vm_compute in
    match enqueue (cfg := example_config) (example_machine false false)
                  example_settings (init (cfg := example_config))
                  (F32.of_Z 10) F32.zero F32.zero F32.zero (F32.of_Z 60) 0
    with
    | Ok (Queued bl _) => bl
    | _ => Built block_zero zero_xyze_float F32.zero F32.zero F32.zero
    end.

Definition one_move_enqueued : state :=
  Eval vm_compute in
    match enqueue (cfg := example_config) (example_machine false false)
                  example_settings (init (cfg := example_config))
                  (F32.of_Z 10) F32.zero F32.zero F32.zero (F32.of_Z 60) 0
    with
    | Ok (Queued _ p) => p
    | _ => init (cfg := example_config)
    end.

Definition one_move_planned : state :=
  Eval vm_compute in
    match _buffer_line (cfg := example_config)
                       (example_machine false false) example_settings
                       (init (cfg := example_config))
                       (F32.of_Z 10) F32.zero F32.zero F32.zero
                       (F32.of_Z 60) 0
    with
    | Ok p => p
    | Stuck _ => init (cfg := example_config)
    end.

(** [short_block] with its trapezoid committed. *)
Definition short_block_planned : block_t :=
  Eval vm_compute in
    match calculate_trapezoid_for_block (cfg := example_config)
                                        short_block F32.zero F32.zero
    with
    | Ok b => b
    | Stuck _ => short_block
    end.

(** Acceleration limits of 1500, 1500, 100 and 10000 mm/s^2, and the
    settings [reset_acceleration_rates] derives from them. *)
Definition example_max_acceleration : xyze Z := XYZE 1500 1500 100 10000.

Definition example_settings_reset : settings :=
  Eval vm_compute in
    match reset_acceleration_rates example_max_acceleration
                                   example_settings
    with
    | Ok s => s
    | Stuck _ => example_settings
    end.

(** The planner after [_set_position_mm(1, 2, 3, 0)], and the move of
    10 mm along X queued next. *)
Definition positioned : state :=
  Eval vm_compute in
    match _set_position_mm (cfg := example_config) example_settings
                           one_move_planned
                           (F32.of_Z 1) (F32.of_Z 2) (F32.of_Z 3) F32.zero
    with
    | Ok p => p
    | Stuck _ => one_move_planned
    end.

Definition next_move_built : built :=
  Eval vm_compute in
    match enqueue (cfg := example_config) (example_machine false false)
                  example_settings positioned
                  (F32.of_Z 10) F32.zero F32.zero F32.zero (F32.of_Z 60) 0
    with
    | Ok (Queued bl _) => bl
    | _ => Built block_zero zero_xyze_float F32.zero F32.zero F32.zero
    end.

Definition next_move_enqueued : state :=
  Eval vm_compute in
    match enqueue (cfg := example_config) (example_machine false false)
                  example_settings positioned
                  (F32.of_Z 10) F32.zero F32.zero F32.zero (F32.of_Z 60) 0
    with
    | Ok (Queued _ p) => p
    | _ => positioned
    end.

(** The steps of a move of 0.01 mm of filament from the origin, the
    nozzle being hot: one step of E. *)
Definition tiny_e_move : move :=
  Eval vm_compute in
    match move_steps (cfg := example_config) (example_machine true false)
                     example_settings (init (cfg := example_config))
                     F32.zero F32.zero F32.zero (F32.of_ratio 1 100) 0
    with
    | Ok (m, _) => m
    | Stuck _ => tiny_move
    end.

(** The same machine with a nozzle too cold to extrude. *)
Definition cold_machine : machine :=
  Machine (fun _ => F32.one) (fun _ => 100) [0] false true true.

(** The steps of the same move with the cold nozzle: its E part is
    discarded. *)
Definition cold_e_move : move :=
  Eval vm_compute in
    match move_steps (cfg := example_config) cold_machine
                     example_settings (init (cfg := example_config))
                     F32.zero F32.zero F32.zero (F32.of_ratio 1 100) 0
    with
    | Ok (m, _) => m
    | Stuck _ => tiny_move
    end.

End PlannerRuns.

Module ThermalRunExamples.
Import MachineInt Thermal ThermalExamples ThermalRuns.

(** [stuck_state] after the heater manager has consumed its reading. *)
Definition stuck_managed : state :=
  Eval vm_compute in
    final_state (manage_heater (board := example_board) stuck_state).

(** A hotend duty of 128, the PWM counter at 0, the next interrupt one
    that reaches the PWM code. *)
Definition half_duty_state : state :=
  set_soft_pwm_amount 128 idle_high_state.

(** The conversion results of sixteen timer interrupts. *)
Definition sixteen_ticks : list Z := replicate 16 0.

(** The conversion results of the timer interrupts while hotend and bed
    stay at room temperature, and while the hotend is a little above
    200 degrees: each reading takes four interrupts, of which the
    second reads the hotend and the fourth the bed. *)
Definition room_readings : list Z := concat (replicate 200 [0; 924; 0; 924]).
Definition hot_readings : list Z := concat (replicate 400 [0; 220; 0; 924]).

(** The machine after power-up at room temperature, once the heater
    manager has consumed a reading. *)
Definition room_state : state :=
  final_state (manage_heater (board := example_board)
                 (ticks (board := example_board) room_readings init)).

(** The hotend has then been set to 200 degrees, and a fresh reading
    waits to be consumed. *)
Definition heating_state : state :=
  ticks (board := example_board) [0; 924; 0; 924]
        (setTargetHotend (board := example_board) 3200 room_state).

End ThermalRunExamples.

Module CommandQueueExamples.
Import CommandQueue.

(** Four slots; one command waits in the last one. *)
Definition example_queue : state :=
  QueueState 1 3 0
             [String.EmptyString; String.EmptyString; String.EmptyString;
              "G28"%string]
             [true; true; true; true].

End CommandQueueExamples.

Module MotionExamples.
Import Motion.

(** A bed of 200 by 200 mm and 180 mm of height. *)
Definition example_endstops : soft_endstops :=
  SoftEndstops true
               (XYZE F32.zero F32.zero F32.zero F32.zero)
               (XYZE (F32.of_Z 200) (F32.of_Z 200) (F32.of_Z 180) F32.zero).

(** A target beyond the bed in X and before it in Y. *)
Definition example_target : xyze F32.float :=
  XYZE (F32.of_Z 250) (F32.of_Z (-5)) (F32.of_Z 10) (F32.of_Z 3).

End MotionExamples.

(** * Properties of the planner *)

Module PlannerProperties.
Import MachineInt Planner PlannerExamples PlannerSpec.

Section WithConfig.
Context {cfg : PlannerConfig}.

Lemma SBI_sets (v b : Z) : 0 <= b -> TEST (SBI v b) b = true.
Proof.
  intros Hb. unfold TEST, SBI, _BV.
  rewrite Z.lor_spec, Z.shiftl_spec by assumption.
  rewrite Z.sub_diag. simpl. apply orb_true_r.
Qed.

Lemma block_at_store (p : state) (i : Z) (b : block_t) :
  (Z.to_nat i < length (block_buffer p))%nat ->
  block_at (store_block i b p) i = b.
Proof.
  intros Hi. unfold block_at, store_block. simpl.
  rewrite list_lookup_insert_eq by assumption. reflexivity.
Qed.

Lemma BLOCK_MOD_mod (k n : Z) :
  0 <= k -> BLOCK_BUFFER_SIZE = 2 ^ k -> BLOCK_MOD n = n mod BLOCK_BUFFER_SIZE.
Proof.
  intros Hk Hsize. unfold BLOCK_MOD. rewrite Hsize.
  rewrite <- Z.land_ones by assumption.
  rewrite Z.ones_equiv. reflexivity.
Qed.

Lemma ring_size_bounds (k : Z) :
  BLOCK_BUFFER_SIZE = 2 ^ k -> 0 <= k <= 8 ->
  0 < BLOCK_BUFFER_SIZE <= 256.
Proof.
  intros Hsize Hk. rewrite Hsize. split.
  - apply Z.pow_pos_nonneg; lia.
  - change 256 with (2 ^ 8). apply Z.pow_le_mono_r; lia.
Qed.

Lemma uint8_BLOCK_MOD (k n : Z) :
  BLOCK_BUFFER_SIZE = 2 ^ k -> 0 <= k <= 8 ->
  uint8 (BLOCK_MOD n) = n mod BLOCK_BUFFER_SIZE.
Proof.
  intros Hsize Hk. rewrite (BLOCK_MOD_mod k) by (assumption || lia).
  pose proof (ring_size_bounds k Hsize Hk) as Hb.
  pose proof (Z.mod_pos_bound n BLOCK_BUFFER_SIZE (proj1 Hb)).
  unfold uint8, wrap_unsigned. apply Z.mod_small. lia.
Qed.

Lemma int8_BLOCK_MOD (k n : Z) :
  BLOCK_BUFFER_SIZE = 2 ^ k -> 0 <= k <= 7 ->
  int8 (BLOCK_MOD n) = n mod BLOCK_BUFFER_SIZE.
Proof.
  intros Hsize Hk. rewrite (BLOCK_MOD_mod k) by (assumption || lia).
  assert (Hb : 0 < BLOCK_BUFFER_SIZE <= 128).
  { rewrite Hsize. split; [apply Z.pow_pos_nonneg; lia|].
    change 128 with (2 ^ 7). apply Z.pow_le_mono_r; lia. }
  pose proof (Z.mod_pos_bound n BLOCK_BUFFER_SIZE (proj1 Hb)).
  unfold int8, wrap_signed.
  change (2 ^ (8 - 1)) with 128. change (2 ^ 8) with 256.
  rewrite Z.mod_small by lia. lia.
Qed.

Lemma int8_small (x : Z) : -128 <= x < 128 -> int8 x = x.
Proof.
  intros Hx. unfold int8, wrap_signed.
  change (2 ^ (8 - 1)) with 128. change (2 ^ 8) with 256.
  rewrite Z.mod_small by lia. lia.
Qed.

Lemma ring_count (p : state) (k : Z) :
  BLOCK_BUFFER_SIZE = 2 ^ k -> 0 <= k <= 8 ->
  0 <= block_buffer_head p < BLOCK_BUFFER_SIZE ->
  0 <= block_buffer_tail p < BLOCK_BUFFER_SIZE ->
  movesplanned p
  = (block_buffer_head p - block_buffer_tail p) mod BLOCK_BUFFER_SIZE /\
  (blocks_queued p = false <-> movesplanned p = 0).
Proof.
  intros Hsize Hk Hh Ht.
  pose proof (ring_size_bounds k Hsize Hk) as Hb.
  assert (Hm : movesplanned p
               = (block_buffer_head p - block_buffer_tail p)
                 mod BLOCK_BUFFER_SIZE).
  { unfold movesplanned. rewrite (uint8_BLOCK_MOD k) by assumption.
    rewrite <- (Z.mod_add (_ - _) 1 BLOCK_BUFFER_SIZE) by lia.
    f_equal. lia. }
  split; [exact Hm|].
  unfold blocks_queued. rewrite negb_false_iff, Z.eqb_eq, Hm. split.
  - intros ->. rewrite Z.sub_diag. apply Z.mod_0_l. lia.
  - intros H0.
    destruct (Z.le_gt_cases (block_buffer_tail p) (block_buffer_head p)).
    + rewrite Z.mod_small in H0 by lia. lia.
    + rewrite <- (Z.mod_add _ 1) in H0 by lia.
      rewrite Z.mod_small in H0 by lia. lia.
Qed.

Lemma block_index_mod (i k : Z) :
  BLOCK_BUFFER_SIZE = 2 ^ k -> 0 <= k <= 7 ->
  0 <= i < BLOCK_BUFFER_SIZE ->
  next_block_index i = (i + 1) mod BLOCK_BUFFER_SIZE /\
  prev_block_index i = (i - 1) mod BLOCK_BUFFER_SIZE.
Proof.
  intros Hsize Hk Hi.
  assert (Hb : 0 < BLOCK_BUFFER_SIZE <= 128).
  { rewrite Hsize. split; [apply Z.pow_pos_nonneg; lia|].
    change 128 with (2 ^ 7). apply Z.pow_le_mono_r; lia. }
  unfold next_block_index, prev_block_index.
  rewrite (int8_small i) by lia.
  split; apply (int8_BLOCK_MOD k); assumption.
Qed.

Lemma TEST_SBI_other (v b n : Z) :
  0 <= b -> n <> b -> TEST (SBI v b) n = TEST v n.
Proof.
  intros Hb Hn. unfold TEST, SBI, _BV. rewrite Z.lor_spec.
  destruct (Z.neg_nonneg_cases n) as [Hneg|Hpos].
  - rewrite !Z.testbit_neg_r by assumption. reflexivity.
  - rewrite Z.shiftl_spec by assumption.
    destruct (Z.lt_trichotomy n b) as [L|[L|L]]; [|lia|].
    + rewrite (Z.testbit_neg_r 1) by lia. apply orb_false_r.
    + replace (Z.testbit 1 (n - b)) with false; [apply orb_false_r|].
      destruct (n - b) eqn:E; try lia. reflexivity.
Qed.

(** C3.  [get_current_block] returns [nullptr] and changes nothing when
    the buffer is empty (head = tail), when the tail block still
    carries RECALCULATE, and, with more than one move queued, when the
    block after the tail still carries RECALCULATE.  In every other
    case it returns the tail block, and the only change to the planner
    is that this block's BUSY flag is set: the indices, the position,
    the previous speeds, every other slot, every other flag bit and
    every other field of the block are as before.  On a ring whose
    capacity is a power of two (at most 128) with indices in range,
    the block after the tail is the one at [(tail + 1) mod
    BLOCK_BUFFER_SIZE] and the number of moves queued is [(head - tail)
    mod BLOCK_BUFFER_SIZE]. *)
Theorem get_current_block_cases (p : state) :
  let head := block_buffer_head p in
  let tail := block_buffer_tail p in
  let block := block_at p tail in
  let next := block_at p (next_block_index tail) in
  (head = tail -> get_current_block p = (None, p)) /\
  (TEST (flag block) BLOCK_BIT_RECALCULATE = true ->
   get_current_block p = (None, p)) /\
  (1 < movesplanned p ->
   TEST (flag next) BLOCK_BIT_RECALCULATE = true ->
   get_current_block p = (None, p)) /\
  (head <> tail ->
   TEST (flag block) BLOCK_BIT_RECALCULATE = false ->
   (1 < movesplanned p -> TEST (flag next) BLOCK_BIT_RECALCULATE = false) ->
   exists p',
     get_current_block p = (Some tail, p') /\
     block_buffer_head p' = head /\
     block_buffer_tail p' = tail /\
     position p' = position p /\
     previous_speed p' = previous_speed p /\
     previous_nominal_speed p' = previous_nominal_speed p /\
     previous_safe_speed p' = previous_safe_speed p /\
     length (block_buffer p') = length (block_buffer p) /\
     (forall i : nat, i <> Z.to_nat tail ->
                      block_buffer p' !! i = block_buffer p !! i) /\
     ((Z.to_nat tail < length (block_buffer p))%nat ->
      TEST (flag (block_at p' tail)) BLOCK_BIT_BUSY = true /\
      (forall n : Z, n <> BLOCK_BIT_BUSY ->
                     TEST (flag (block_at p' tail)) n
                     = TEST (flag block) n) /\
      PlannerViews.geometry (block_at p' tail)
      = PlannerViews.geometry block /\
      PlannerViews.stepper_profile (block_at p' tail)
      = PlannerViews.stepper_profile block /\
      entry_speed (block_at p' tail) = entry_speed block)) /\
  (forall k : Z,
     BLOCK_BUFFER_SIZE = 2 ^ k -> 0 <= k <= 7 ->
     0 <= head < BLOCK_BUFFER_SIZE -> 0 <= tail < BLOCK_BUFFER_SIZE ->
     next_block_index tail = (tail + 1) mod BLOCK_BUFFER_SIZE /\
     movesplanned p = (head - tail) mod BLOCK_BUFFER_SIZE).
Proof.
  intros head tail block next.
  assert (Hq : blocks_queued p = negb (head =? tail)) by reflexivity.
  split; [|split; [|split; [|split]]].
  - intros Heq. unfold get_current_block. rewrite Hq.
    apply Z.eqb_eq in Heq. rewrite Heq. reflexivity.
  - intros Hrec. unfold get_current_block.
    fold tail. fold block. rewrite Hrec.
    destruct (blocks_queued p); [|reflexivity].
    destruct (1 <? movesplanned p); reflexivity.
  - intros Hmany Hrec. unfold get_current_block.
    fold tail. fold block. fold next.
    apply Z.ltb_lt in Hmany. rewrite Hmany, Hrec.
    destruct (blocks_queued p); [|reflexivity].
    rewrite orb_true_r. reflexivity.
  - intros Hne Hb Hn.
    exists (store_block tail
              (with_flag (SBI (flag block) BLOCK_BIT_BUSY) block) p).
    split.
    { unfold get_current_block. fold tail. fold block. fold next.
      rewrite Hq. apply Z.eqb_neq in Hne. rewrite Hne. cbn [negb].
      rewrite Hb. destruct (1 <? movesplanned p) eqn:Hmany.
      - apply Z.ltb_lt in Hmany. rewrite (Hn Hmany). reflexivity.
      - reflexivity. }
    unfold store_block, with_block_buffer.
    cbn [block_buffer_head block_buffer_tail position previous_speed
         previous_nominal_speed previous_safe_speed block_buffer].
    repeat (split; [reflexivity|]).
    split; [apply length_insert|].
    split.
    { intros i Hi. apply list_lookup_insert_ne. intros E. apply Hi.
      symmetry. exact E. }
    intros Hlen.
    assert (Hat : block_at
                    (PlannerState
                       (<[Z.to_nat tail :=
                            with_flag (SBI (flag block) BLOCK_BIT_BUSY)
                                      block]> (block_buffer p))
                       (block_buffer_head p) (block_buffer_tail p)
                       (position p) (previous_speed p)
                       (previous_nominal_speed p) (previous_safe_speed p))
                    tail
                  = with_flag (SBI (flag block) BLOCK_BIT_BUSY) block).
    { unfold block_at. cbn [block_buffer].
      rewrite list_lookup_insert_eq by exact Hlen. reflexivity. }
    rewrite Hat. unfold with_flag. cbn [flag entry_speed].
    split; [apply SBI_sets; unfold BLOCK_BIT_BUSY; lia|].
    split.
    { intros n Hn'. apply TEST_SBI_other; [unfold BLOCK_BIT_BUSY; lia|].
      exact Hn'. }
    repeat split; reflexivity.
  - intros k Hsize Hk Hh Ht. split.
    + exact (proj1 (block_index_mod tail k Hsize Hk Ht)).
    + assert (Hk8 : 0 <= k <= 8) by lia.
      exact (proj1 (ring_count p k Hsize Hk8 Hh Ht)).
Qed.

Lemma rbind_Ok {A B : Type} (m : result A) (k : A -> result B) (b : B) :
  rbind m k = Ok b -> exists a, m = Ok a /\ k a = Ok b.
Proof.
  destruct m as [a|w]; simpl; intros Hk; [|discriminate Hk].
  exists a. split; [reflexivity|exact Hk].
Qed.

Lemma cast_Ok {A : Type} (o : option A) (a : A) : cast o = Ok a -> o = Some a.
Proof.
  destruct o; simpl; intros Ho; [|discriminate Ho].
  injection Ho as ->. reflexivity.
Qed.

Lemma in_range_Some (lo hi : Z) (o : option Z) (z : Z) :
  F32.in_range lo hi o = Some z -> o = Some z /\ lo <= z <= hi.
Proof.
  unfold F32.in_range. destruct o as [y|]; [|discriminate].
  destruct ((lo <=? y) && (y <=? hi)) eqn:Hr; [|discriminate].
  intros Hz. injection Hz as ->.
  apply andb_true_iff in Hr. destruct Hr as [Hlo Hhi].
  apply Z.leb_le in Hlo. apply Z.leb_le in Hhi. split; [reflexivity|lia].
Qed.

(** One step of a computation in [result] that produced a value. *)
Ltac step_ok H x Hx :=
  apply rbind_Ok in H; destruct H as [x [Hx H]]; apply cast_Ok in Hx.

Lemma NOLESS_max (v n : Z) : NOLESS v n = Z.max v n.
Proof. unfold NOLESS. destruct (Z.ltb_spec v n); lia. Qed.

Lemma int32_small (x : Z) : - 2 ^ 31 <= x < 2 ^ 31 -> int32 x = x.
Proof.
  intros Hx. unfold int32, wrap_signed.
  rewrite Z.mod_small by lia. lia.
Qed.

Lemma uint32_small (x : Z) : 0 <= x < 2 ^ 32 -> uint32 x = x.
Proof. intros Hx. unfold uint32, wrap_unsigned. apply Z.mod_small. lia. Qed.

Lemma uint24_small (x : Z) : 0 <= x < 2 ^ 24 -> uint24 x = x.
Proof. intros Hx. unfold uint24, wrap_unsigned. apply Z.mod_small. lia. Qed.



(** What the critical section of the trapezoid generator writes into a
    block that is not busy. *)
Lemma commit_trapezoid_fields (block b' : block_t) (t : trapezoid) :
  TEST (flag block) BLOCK_BIT_BUSY = false ->
  commit_trapezoid block t = Ok b' ->
  initial_rate b' = uint24 (t_initial_rate t) /\
  final_rate b' = uint24 (t_final_rate t) /\
  accelerate_until b' = uint24 (t_accelerate_steps t) /\
  decelerate_after b'
  = uint24 (int32 (t_accelerate_steps t + t_plateau_steps t)).
Proof.
  intros Hbusy Hc. unfold commit_trapezoid in Hc.
  rewrite Hbusy in Hc. cbn [negb] in Hc.
  apply rbind_Ok in Hc. destruct Hc as [rate [_ Hc]].
  injection Hc as <-.
  cbn [initial_rate final_rate accelerate_until decelerate_after].
  repeat split; reflexivity.
Qed.


(** What [move_steps] leaves of the planner state: everything but
    [position[E_AXIS]], which is kept or set to the target. *)
Lemma move_steps_frame (env : machine) (s : settings) (p : state)
      (a b c e : float) (extruder : Z) (m : move) (p1 : state) :
  move_steps env s p a b c e extruder = Ok (m, p1) ->
  block_buffer p1 = block_buffer p /\
  block_buffer_head p1 = block_buffer_head p /\
  block_buffer_tail p1 = block_buffer_tail p /\
  previous_speed p1 = previous_speed p /\
  previous_nominal_speed p1 = previous_nominal_speed p /\
  previous_safe_speed p1 = previous_safe_speed p /\
  at_X (position p1) = at_X (position p) /\
  at_Y (position p1) = at_Y (position p) /\
  at_Z (position p1) = at_Z (position p) /\
  (position p1 = position p
   \/ position p1 = axis_set E_AXIS (at_E (target m)) (position p)) /\
  (DEBUGGING_DRYRUN env = false -> PREVENT_COLD_EXTRUSION = false ->
   position p1 = position p).
Proof.
  intros Hm. unfold move_steps in Hm.
  step_ok Hm tx Htx. step_ok Hm ty Hty. step_ok Hm tz Htz.
  step_ok Hm te Hte.
  apply rbind_Ok in Hm. destruct Hm as [[p3 de'] [Hcold Hm]].
  step_ok Hm es Hes. injection Hm as <- <-. cbn [target].
  destruct (DEBUGGING_DRYRUN env) eqn:Hdry;
    destruct PREVENT_COLD_EXTRUSION eqn:Hprevent; cbn [andb] in Hcold;
    repeat match type of Hcold with
           | context [if ?c then _ else _] => destruct c
           | context [rbind (cast ?o) _] => destruct o; cbn [cast rbind] in Hcold
           | (let '(_, _) := _ in _) = _ => cbv zeta beta iota in Hcold
           end;
    try discriminate Hcold;
    injection Hcold as <- <-;
    cbn; repeat split; auto; try discriminate.
Qed.

Lemma junction_frame (s : settings) (p p1 : state) (moves_queued : Z)
      (nominal_speed' safe_speed' : float) (current_speed' : xyze float) :
  previous_speed p1 = previous_speed p ->
  previous_nominal_speed p1 = previous_nominal_speed p ->
  previous_safe_speed p1 = previous_safe_speed p ->
  junction s p1 moves_queued nominal_speed' safe_speed' current_speed'
  = junction s p moves_queued nominal_speed' safe_speed' current_speed'.
Proof.
  intros Hs Hn Hf. unfold junction. rewrite Hs, Hn, Hf. reflexivity.
Qed.

Lemma movesplanned_frame (p p1 : state) :
  block_buffer_head p1 = block_buffer_head p ->
  block_buffer_tail p1 = block_buffer_tail p ->
  movesplanned p1 = movesplanned p.
Proof. intros Hh Ht. unfold movesplanned. rewrite Hh, Ht. reflexivity. Qed.

(** What [build_block] writes into the block about its entry. *)
Lemma build_block_entry (env : machine) (s : settings) (p : state)
      (block : block_t) (m : move) (fr_mm_s : float) (extruder : Z)
      (bl : built) :
  build_block env s p block m fr_mm_s extruder = Ok bl ->
  max_entry_speed (the_block bl) = vmax_junction bl /\
  vmax_junction bl
  = fst (junction s p (movesplanned p) (nominal_speed (the_block bl))
                  (safe_speed bl) (current_speed bl)) /\
  entry_speed (the_block bl)
  = (if STEPPER_ISR_ENABLED env then F32.zero
     else F32.min (vmax_junction bl)
                  (max_allowable_speed
                     (F32.opp (acceleration (the_block bl))) F32.zero
                     (millimeters (the_block bl)))).
Proof.
  intros Hb. unfold build_block in Hb.
  apply rbind_Ok in Hb. destruct Hb as [inverse_mm_s [Hslow Hb]].
  step_ok Hb nominal_rate0 Hrate.
  apply rbind_Ok in Hb. destruct Hb as [[[cs ns] nr] [Hscale Hb]].
  apply rbind_Ok in Hb. destruct Hb as [accel [Haccel Hb]].
  match type of Hb with
  | context [junction ?s ?p ?q ?n ?sf ?c] =>
      destruct (junction s p q n sf c) as [vmax full_halt] eqn:Hj
  end.
  injection Hb as <-.
  cbn [the_block vmax_junction safe_speed current_speed max_entry_speed
       entry_speed nominal_speed acceleration millimeters].
  rewrite Hj. cbn [fst]. repeat split; reflexivity.
Qed.

(** C6, as the code has it.  For every move the block builder queues,
    the new block's [max_entry_speed] is the junction speed
    [vmax_junction] computed for it, and its [entry_speed] is set to 0
    when the stepper interrupt is enabled and to [min(vmax_junction,
    max_allowable_speed(-acceleration, 0, millimeters))] when it is
    disabled.  The block sits in the slot at the old head (when that
    index is inside the buffer) and the head has moved to the next
    index. *)
Theorem queued_block_entry_speed (env : machine) (s : settings) (p : state)
        (a b c e fr_mm_s : float) (extruder : Z) (bl : built) (p' : state) :
  enqueue env s p a b c e fr_mm_s extruder = Ok (Queued bl p') ->
  max_entry_speed (the_block bl) = vmax_junction bl /\
  vmax_junction bl
  = fst (junction s p (movesplanned p) (nominal_speed (the_block bl))
                  (safe_speed bl) (current_speed bl)) /\
  entry_speed (the_block bl)
  = (if STEPPER_ISR_ENABLED env then F32.zero
     else F32.min (vmax_junction bl)
                  (max_allowable_speed
                     (F32.opp (acceleration (the_block bl))) F32.zero
                     (millimeters (the_block bl)))) /\
  block_buffer_head p' = uint8 (next_block_index (block_buffer_head p)) /\
  ((Z.to_nat (block_buffer_head p) < length (block_buffer p))%nat ->
   block_at p' (block_buffer_head p) = the_block bl).
Proof.
  intros He. unfold enqueue in He.
  apply rbind_Ok in He. destruct He as [[m p1] [Hm He]].
  destruct (move_steps_frame _ _ _ _ _ _ _ _ _ _ Hm)
    as (Hbuf & Hhead & Htail & Hps & Hpn & Hpf & _).
  destruct (block_buffer_tail p1
            =? uint8 (next_block_index (block_buffer_head p1)));
    [discriminate He|].
  destruct (step_event_count
              (start_block (block_at p1 (block_buffer_head p1)) m)
            <? MIN_STEPS_PER_SEGMENT); [discriminate He|].
  apply rbind_Ok in He. destruct He as [bl' [Hb He]].
  injection He as <- <-.
  destruct (build_block_entry _ _ _ _ _ _ _ _ Hb) as (Hmax & Hv & Hentry).
  rewrite (junction_frame s p p1) in Hv by assumption.
  rewrite (movesplanned_frame p p1) in Hv by assumption.
  repeat split; try assumption.
  - cbn [block_buffer_head]. rewrite Hhead. reflexivity.
  - intros Hlen. unfold block_at. cbn [block_buffer].
    rewrite Hhead, Hbuf.
    rewrite list_lookup_insert_eq by assumption. reflexivity.
Qed.

Lemma start_block_count (slot slot' : block_t) (m : move) :
  step_event_count (start_block slot m)
  = step_event_count (start_block slot' m).
Proof. reflexivity. Qed.

(** Where [_buffer_line] leaves [position[E]] before the zero-length
    test: at the target when the dry-run flag is set or the E part of
    the move is discarded as a cold or a lengthy extrusion, and where
    it was otherwise. *)
Lemma move_steps_position (env : machine) (s : settings) (p : state)
      (a b c e : float) (extruder : Z) (m : move) (p1 : state) :
  move_steps env s p a b c e extruder = Ok (m, p1) ->
  let de := int24 (uint24 (at_E (target m) - at_E (position p))) in
  (DEBUGGING_DRYRUN env = false ->
   PREVENT_COLD_EXTRUSION = false
   \/ de = 0
   \/ (is_coldextrude env = false /\
       (PREVENT_LENGTHY_EXTRUDE = false
        \/ exists steps_e : Z,
            F32.to_int32 (at_E (axis_steps_per_mm s)) = Some steps_e /\
            int24 (Z.abs de) <= int32 (steps_e * EXTRUDE_MAXLENGTH))) ->
   position p1 = position p) /\
  (DEBUGGING_DRYRUN env = true
   \/ (PREVENT_COLD_EXTRUSION = true /\ de <> 0 /\
       (is_coldextrude env = true
        \/ (PREVENT_LENGTHY_EXTRUDE = true /\
            exists steps_e : Z,
              F32.to_int32 (at_E (axis_steps_per_mm s)) = Some steps_e /\
              int32 (steps_e * EXTRUDE_MAXLENGTH) < int24 (Z.abs de)))) ->
   position p1 = axis_set E_AXIS (at_E (target m)) (position p)).
Proof.
  intros Hm. unfold move_steps in Hm.
  step_ok Hm tx Htx. step_ok Hm ty Hty. step_ok Hm tz Htz.
  step_ok Hm te Hte.
  apply rbind_Ok in Hm. destruct Hm as [[p3 de'] [Hcold Hm]].
  step_ok Hm es Hes. injection Hm as <- <-. cbv zeta. cbn [target at_E].
  set (de := int24 (uint24 (te - at_E (position p)))).
  assert (Hzero : int24 (uint24 (te - te)) = 0)
    by (rewrite Z.sub_diag; reflexivity).
  assert (Hset : forall q : state,
             position (set_position_E te (set_position_E te q))
             = position (set_position_E te q)) by reflexivity.
  destruct (DEBUGGING_DRYRUN env) eqn:Hdry.
  - (* dry run: E is at the target before anything else *)
    cbn [set_position_E with_position position axis_set at_E] in Hcold.
    rewrite Hzero in Hcold. cbn [Z.eqb negb] in Hcold.
    rewrite andb_false_r in Hcold. injection Hcold as <- _.
    split; [discriminate|]. intros _. reflexivity.
  - fold de in Hcold.
    destruct PREVENT_COLD_EXTRUSION eqn:Hpce; cbn [andb] in Hcold.
    2: { injection Hcold as <- _. split; [reflexivity|].
         intros [H|(H & _)]; discriminate H. }
    destruct (Z.eqb_spec de 0) as [Hde|Hde]; cbn [negb] in Hcold.
    { injection Hcold as <- _. split; [reflexivity|].
      intros [H|(_ & H & _)]; [discriminate H|contradiction]. }
    destruct (is_coldextrude env) eqn:Hce.
    + (* cold: E part discarded *)
      assert (Hp3 : position p3
                    = axis_set E_AXIS te (position p)).
      { destruct PREVENT_LENGTHY_EXTRUDE.
        - step_ok Hcold steps_e Hse.
          destruct (_ <? _); injection Hcold as <- _; reflexivity.
        - injection Hcold as <- _. reflexivity. }
      split.
      * intros _ [H|[H|(H & _)]]; [discriminate H|contradiction
                                  |discriminate H].
      * intros _. exact Hp3.
    + destruct PREVENT_LENGTHY_EXTRUDE eqn:Hple.
      * step_ok Hcold steps_e Hse.
        destruct (Z.ltb_spec (int32 (steps_e * EXTRUDE_MAXLENGTH))
                             (int24 (Z.abs de))) as [Hlong|Hshort];
          injection Hcold as <- _.
        -- split.
           ++ intros _ [H|[H|(_ & [H|(x & Hx & Hle)])]];
                try discriminate H; try contradiction.
              rewrite Hse in Hx. injection Hx as <-. lia.
           ++ intros _. reflexivity.
        -- split; [reflexivity|].
           intros [H|(_ & _ & [H|(_ & x & Hx & Hlt)])];
             try discriminate H.
           rewrite Hse in Hx. injection Hx as <-. lia.
      * injection Hcold as <- _. split; [reflexivity|].
        intros [H|(_ & _ & [H|(H & _)])]; discriminate H.
Qed.

(** C8, as the code has it.  A move whose [step_event_count] (the
    largest of the per-axis step counts) is below
    [MIN_STEPS_PER_SEGMENT] is dropped without error when a slot is
    free: [_buffer_line] returns, the ring head and tail and the number
    of queued moves are unchanged, every slot other than the unused one
    at the head is unchanged, [previous_speed], [previous_nominal_speed]
    and [previous_safe_speed] are unchanged, and so are [position[X]],
    [position[Y]] and [position[Z]].  [position[E]] is unchanged too
    when the dry-run flag is clear and the E part of the move is not
    discarded, that is when cold-extrusion prevention is not compiled
    in, or the move has no E steps, or the nozzle is hot and the move
    is not a lengthy extrusion.  It has been set to the target E
    position when the dry-run flag is set, or when prevention is
    compiled in and the move has E steps with a cold nozzle or of a
    lengthy extrusion. *)
Theorem short_move_is_dropped (env : machine) (s : settings) (p : state)
        (a b c e fr_mm_s : float) (extruder : Z) (m : move) (p1 : state) :
  move_steps env s p a b c e extruder = Ok (m, p1) ->
  block_buffer_tail p <> uint8 (next_block_index (block_buffer_head p)) ->
  step_event_count (start_block (block_at p (block_buffer_head p)) m)
  < MIN_STEPS_PER_SEGMENT ->
  let de := int24 (uint24 (at_E (target m) - at_E (position p))) in
  exists p',
    _buffer_line env s p a b c e fr_mm_s extruder = Ok p' /\
    block_buffer_head p' = block_buffer_head p /\
    block_buffer_tail p' = block_buffer_tail p /\
    movesplanned p' = movesplanned p /\
    (forall i : nat, i <> Z.to_nat (block_buffer_head p) ->
                     block_buffer p' !! i = block_buffer p !! i) /\
    previous_speed p' = previous_speed p /\
    previous_nominal_speed p' = previous_nominal_speed p /\
    previous_safe_speed p' = previous_safe_speed p /\
    at_X (position p') = at_X (position p) /\
    at_Y (position p') = at_Y (position p) /\
    at_Z (position p') = at_Z (position p) /\
    (position p' = position p
     \/ position p' = axis_set E_AXIS (at_E (target m)) (position p)) /\
    (DEBUGGING_DRYRUN env = false ->
     PREVENT_COLD_EXTRUSION = false
     \/ de = 0
     \/ (is_coldextrude env = false /\
         (PREVENT_LENGTHY_EXTRUDE = false
          \/ exists steps_e : Z,
              F32.to_int32 (at_E (axis_steps_per_mm s)) = Some steps_e /\
              int24 (Z.abs de) <= int32 (steps_e * EXTRUDE_MAXLENGTH))) ->
     position p' = position p) /\
    (DEBUGGING_DRYRUN env = true
     \/ (PREVENT_COLD_EXTRUSION = true /\ de <> 0 /\
         (is_coldextrude env = true
          \/ (PREVENT_LENGTHY_EXTRUDE = true /\
              exists steps_e : Z,
                F32.to_int32 (at_E (axis_steps_per_mm s)) = Some steps_e /\
                int32 (steps_e * EXTRUDE_MAXLENGTH) < int24 (Z.abs de)))) ->
     position p' = axis_set E_AXIS (at_E (target m)) (position p)).
Proof.
  intros Hm Hfree Hshort de.
  destruct (move_steps_frame _ _ _ _ _ _ _ _ _ _ Hm)
    as (Hbuf & Hhead & Htail & Hps & Hpn & Hpf & Hx & Hy & Hz & Hpos & _).
  destruct (move_steps_position _ _ _ _ _ _ _ _ _ _ Hm) as (Hsame & Hset).
  fold de in Hsame, Hset.
  exists (store_block (block_buffer_head p1)
                      (start_block (block_at p1 (block_buffer_head p1)) m)
                      p1).
  split.
  - unfold _buffer_line, enqueue. rewrite Hm. cbn [rbind].
    rewrite Hhead, Htail.
    apply Z.eqb_neq in Hfree. rewrite Hfree.
    rewrite (start_block_count _ (block_at p (block_buffer_head p))).
    apply Z.ltb_lt in Hshort. rewrite Hshort. reflexivity.
  - unfold store_block, with_block_buffer, movesplanned.
    cbn [block_buffer_head block_buffer_tail block_buffer position
         previous_speed previous_nominal_speed previous_safe_speed].
    rewrite Hhead, Htail.
    repeat split; try assumption.
    intros i Hi. rewrite Hbuf.
    apply list_lookup_insert_ne. intros Heq. apply Hi. symmetry. exact Heq.
Qed.

(** C10.  With a capacity that is a power of two, [discard_current_block]
    on a buffer that holds a block (head <> tail) moves the tail index
    to [(tail + 1) mod BLOCK_BUFFER_SIZE] and changes nothing else: the
    slots, the head index, the position and the previous speeds are as
    before.  On an empty buffer it returns the planner state
    unchanged. *)
Theorem discard_current_block_advances (p : state) (k : Z) :
  BLOCK_BUFFER_SIZE = 2 ^ k -> 0 <= k <= 8 ->
  (block_buffer_head p <> block_buffer_tail p ->
   block_buffer_tail (discard_current_block p)
   = (block_buffer_tail p + 1) mod BLOCK_BUFFER_SIZE /\
   discard_current_block p
   = PlannerState (block_buffer p) (block_buffer_head p)
                  ((block_buffer_tail p + 1) mod BLOCK_BUFFER_SIZE)
                  (position p) (previous_speed p)
                  (previous_nominal_speed p) (previous_safe_speed p)) /\
  (block_buffer_head p = block_buffer_tail p ->
   discard_current_block p = p).
Proof.
  intros Hsize Hk. split.
  - intros Hne.
    assert (Hd : discard_current_block p
                 = PlannerState
                     (block_buffer p) (block_buffer_head p)
                     ((block_buffer_tail p + 1) mod BLOCK_BUFFER_SIZE)
                     (position p) (previous_speed p)
                     (previous_nominal_speed p) (previous_safe_speed p)).
    { unfold discard_current_block.
      assert (Hq : blocks_queued p = true).
      { unfold blocks_queued. apply Z.eqb_neq in Hne. rewrite Hne.
        reflexivity. }
      rewrite Hq. rewrite (uint8_BLOCK_MOD k) by assumption.
      reflexivity. }
    split; [rewrite Hd; reflexivity|exact Hd].
  - intros Heq. unfold discard_current_block.
    assert (Hq : blocks_queued p = false).
    { unfold blocks_queued. apply Z.eqb_eq in Heq. rewrite Heq.
      reflexivity. }
    rewrite Hq. reflexivity.
Qed.

End WithConfig.

(** C4, where the code departs from it.  A move of 1.25 mm along X at
    0.625 mm/s, queued on an empty planner, yields a block of 100 step
    events at 50 steps/s whose trapezoid is committed (the block is not
    busy) with rates 120 and 120, [accelerate_until = 0] and
    [decelerate_after = 101], above [step_event_count = 100].  Handed
    straight to the trapezoid generator, a block of 100 step events at
    50 steps/s with 1000 steps/s^2 gets [accelerate_until = 16777211]
    and [decelerate_after = 106]. *)
Theorem slow_move_breaks_step_order :
  (exists p',
     _buffer_line (cfg := example_config) (example_machine true false)
                  example_settings (init (cfg := example_config))
                  (F32.of_ratio 5 4) F32.zero F32.zero F32.zero
                  (F32.of_ratio 5 8) 0 = Ok p' /\
     block_buffer_head p' = 1 /\
     TEST (flag (block_at p' 0)) BLOCK_BIT_BUSY = false /\
     step_event_count (block_at p' 0) = 100 /\
     nominal_rate (block_at p' 0) = 50 /\
     initial_rate (block_at p' 0) = 120 /\
     final_rate (block_at p' 0) = 120 /\
     accelerate_until (block_at p' 0) = 0 /\
     decelerate_after (block_at p' 0) = 101 /\
     ~ decelerate_after (block_at p' 0) <= step_event_count (block_at p' 0))
  /\
  (exists b',
     calculate_trapezoid_for_block (cfg := example_config) slow_block
                                   F32.zero F32.zero = Ok b' /\
     step_event_count b' = 100 /\
     accelerate_until b' = 16777211 /\
     decelerate_after b' = 106 /\
     ~ accelerate_until b' <= decelerate_after b' /\
     ~ decelerate_after b' <= step_event_count b').
Proof.
  split.
  - eexists. split; [vm_compute; reflexivity|].
    vm_compute. repeat split; try reflexivity. intros Hle. apply Hle.
    reflexivity.
  - eexists. split; [vm_compute; reflexivity|].
    vm_compute. repeat split; try reflexivity;
      intros Hle; apply Hle; reflexivity.
Qed.


(** C6, where the code departs from it.  With the stepper interrupt
    enabled, a move of 10 mm along X at 60 mm/s is queued with entry
    speed 0, while the junction speed is 10 mm/s and
    [min(vmax_junction, max_allowable_speed(-acceleration, 0,
    millimeters))] is 10 mm/s. *)
Lemma entry_speed_zero_while_stepper_runs :
  exists bl p',
    enqueue (cfg := example_config) (example_machine true false)
            example_settings (init (cfg := example_config))
            (F32.of_Z 10) F32.zero F32.zero F32.zero (F32.of_Z 60) 0
    = Ok (Queued bl p') /\
    max_entry_speed (the_block bl) = F32.of_Z 10 /\
    vmax_junction bl = F32.of_Z 10 /\
    entry_speed (the_block bl) = F32.zero /\
    F32.min (vmax_junction bl)
            (max_allowable_speed (F32.opp (acceleration (the_block bl)))
                                 F32.zero (millimeters (the_block bl)))
    = F32.of_Z 10 /\
    entry_speed (the_block bl)
    <> F32.min (vmax_junction bl)
               (max_allowable_speed (F32.opp (acceleration (the_block bl)))
                                    F32.zero (millimeters (the_block bl))).
Proof.
  eexists. eexists. split; [vm_compute; reflexivity|].
  vm_compute. repeat split; try reflexivity. discriminate.
Qed.

Lemma queued_block_entry_speed_witness :
  exists bl p',
    enqueue (cfg := example_config) (example_machine false false)
            example_settings (init (cfg := example_config))
            (F32.of_Z 10) F32.zero F32.zero F32.zero (F32.of_Z 60) 0
    = Ok (Queued bl p') /\
    max_entry_speed (the_block bl) = vmax_junction bl /\
    entry_speed (the_block bl)
    = F32.min (vmax_junction bl)
              (max_allowable_speed (F32.opp (acceleration (the_block bl)))
                                   F32.zero (millimeters (the_block bl))) /\
    block_buffer_head p' = 1.
Proof.
  assert (He : exists bl p',
             enqueue (cfg := example_config) (example_machine false false)
                     example_settings (init (cfg := example_config))
                     (F32.of_Z 10) F32.zero F32.zero F32.zero
                     (F32.of_Z 60) 0
             = Ok (Queued bl p')).
  { eexists. eexists. vm_compute. reflexivity. }
  destruct He as [bl [p' He]]. exists bl, p'.
  destruct (queued_block_entry_speed _ _ _ _ _ _ _ _ _ _ _ He)
    as (Hmax & _ & Hentry & Hhead & _).
  split; [exact He|]. split; [exact Hmax|]. split; [exact Hentry|].
  exact Hhead.
Defined.

(** C8, where the code departs from it.  In dry-run mode a move of 1 mm
    of filament alone has no step events and is dropped, and
    [position[E]] has gone from 0 to 100. *)
Lemma dry_run_drop_moves_position :
  exists p1 p',
    move_steps (cfg := example_config) (example_machine true true)
               example_settings (init (cfg := example_config))
               F32.zero F32.zero F32.zero F32.one 0
    = Ok (dry_move, p1) /\
    step_event_count (start_block block_zero dry_move) = 0 /\
    0 < MIN_STEPS_PER_SEGMENT (PlannerConfig := example_config) /\
    _buffer_line (cfg := example_config) (example_machine true true)
                 example_settings (init (cfg := example_config))
                 F32.zero F32.zero F32.zero F32.one (F32.of_Z 60) 0
    = Ok p' /\
    block_buffer_head p' = 0 /\
    position (init (cfg := example_config)) = XYZE 0 0 0 0 /\
    position p' = XYZE 0 0 0 100 /\
    position p' <> position (init (cfg := example_config)).
Proof.
  eexists. eexists. split; [vm_compute; reflexivity|].
  split; [reflexivity|]. split; [reflexivity|].
  split; [vm_compute; reflexivity|].
  vm_compute. repeat split; try reflexivity. discriminate.
Qed.

Lemma short_move_is_dropped_witness :
  at_E (target PlannerRuns.tiny_e_move) = 1 /\
  PREVENT_COLD_EXTRUSION (PlannerConfig := example_config) = true /\
  (exists p',
    _buffer_line (cfg := example_config) (example_machine true false)
                 example_settings (init (cfg := example_config))
                 F32.zero F32.zero F32.zero (F32.of_ratio 1 100)
                 (F32.of_Z 60) 0
    = Ok p' /\
    block_buffer_head p' = 0 /\
    movesplanned (cfg := example_config) p' = 0 /\
    position p' = XYZE 0 0 0 0) /\
  (exists p',
    _buffer_line (cfg := example_config) PlannerRuns.cold_machine
                 example_settings (init (cfg := example_config))
                 F32.zero F32.zero F32.zero (F32.of_ratio 1 100)
                 (F32.of_Z 60) 0
    = Ok p' /\
    block_buffer_head p' = 0 /\
    movesplanned (cfg := example_config) p' = 0 /\
    position p' = XYZE 0 0 0 1).
Proof.
  assert (Hm : move_steps (cfg := example_config) (example_machine true false)
                          example_settings (init (cfg := example_config))
                          F32.zero F32.zero F32.zero (F32.of_ratio 1 100) 0
               = Ok (PlannerRuns.tiny_e_move, init (cfg := example_config)))
    by (vm_compute; reflexivity).
  assert (Hc : exists p1,
             move_steps (cfg := example_config) PlannerRuns.cold_machine
                        example_settings (init (cfg := example_config))
                        F32.zero F32.zero F32.zero (F32.of_ratio 1 100) 0
             = Ok (PlannerRuns.cold_e_move, p1))
    by (eexists; vm_compute; reflexivity).
  destruct Hc as (p1 & Hc).
  split; [reflexivity|]. split; [reflexivity|]. split.
  - destruct (short_move_is_dropped
                (cfg := example_config) _ _ _ _ _ _ _ (F32.of_Z 60) _ _ _ Hm)
      as (p' & Hret & Hhead & _ & Hmoves & _ & _ & _ & _ & _ & _ & _ & _
          & Hsame & _).
    + vm_compute. discriminate.
    + vm_compute. reflexivity.
    + exists p'. split; [exact Hret|]. split; [exact Hhead|].
      split; [exact Hmoves|].
      change (position p' = position (init (cfg := example_config))).
      apply Hsame; [reflexivity|].
      right. right. split; [reflexivity|]. right.
      exists 100. split; [vm_compute; reflexivity|].
      vm_compute. discriminate.
  - destruct (short_move_is_dropped
                (cfg := example_config) _ _ _ _ _ _ _ (F32.of_Z 60) _ _ _ Hc)
      as (p' & Hret & Hhead & _ & Hmoves & _ & _ & _ & _ & _ & _ & _ & _
          & _ & Hset).
    + vm_compute. discriminate.
    + vm_compute. reflexivity.
    + exists p'. split; [exact Hret|]. split; [exact Hhead|].
      split; [exact Hmoves|].
      rewrite Hset; [reflexivity|].
      right. split; [reflexivity|].
      split; [vm_compute; discriminate|]. left. reflexivity.
Defined.

Lemma get_current_block_cases_witness :
  get_current_block (cfg := example_config) (init (cfg := example_config))
  = (None, init (cfg := example_config)) /\
  get_current_block (cfg := example_config) tail_pending_queue
  = (None, tail_pending_queue) /\
  next_block_index (cfg := example_config) 15 = 0 /\
  movesplanned (cfg := example_config) wrapped_queue = 2 /\
  get_current_block (cfg := example_config) wrapped_queue
  = (None, wrapped_queue) /\
  fst (get_current_block (cfg := example_config) two_block_queue)
  = Some 0 /\
  TEST (flag (block_at
                (snd (get_current_block (cfg := example_config)
                                        two_block_queue)) 0))
       BLOCK_BIT_BUSY = true /\
  block_buffer_tail (snd (get_current_block (cfg := example_config)
                                            two_block_queue)) = 0.
Proof.
  destruct (get_current_block_cases
              (cfg := example_config) (init (cfg := example_config)))
    as (Hempty & _).
  destruct (get_current_block_cases (cfg := example_config)
                                    tail_pending_queue)
    as (_ & Htail & _).
  destruct (get_current_block_cases (cfg := example_config) wrapped_queue)
    as (_ & _ & Hnext & _ & Hring).
  destruct (get_current_block_cases (cfg := example_config) two_block_queue)
    as (_ & _ & _ & Hclaim & _).
  destruct (Hring 4) as (Hsucc & Hcount);
    [reflexivity|lia|cbn; lia|cbn; lia|].
  cbn [block_buffer_tail block_buffer_head wrapped_queue] in Hsucc, Hcount.
  split; [apply Hempty; reflexivity|].
  split; [apply Htail; reflexivity|].
  split; [rewrite Hsucc; reflexivity|].
  split; [rewrite Hcount; reflexivity|].
  split.
  { apply Hnext.
    - rewrite Hcount. reflexivity.
    - cbn [block_buffer_tail wrapped_queue]. rewrite Hsucc.
      reflexivity. }
  destruct Hclaim as (p' & Hret & _ & Htl & _ & _ & _ & _ & _ & _ & Hbusy).
  - cbn. discriminate.
  - reflexivity.
  - intros _. reflexivity.
  - rewrite Hret. cbn [fst snd].
    split; [reflexivity|].
    split; [|exact Htl].
    apply Hbusy. cbn. lia.
Defined.

Lemma discard_current_block_advances_witness :
  block_buffer_tail (discard_current_block (cfg := example_config)
                                           one_block_queue) = 1 /\
  block_buffer_head (discard_current_block (cfg := example_config)
                                           one_block_queue) = 1 /\
  block_buffer_tail (discard_current_block (cfg := example_config)
                                           wrapped_queue) = 0 /\
  block_buffer (discard_current_block (cfg := example_config)
                                      wrapped_queue)
  = block_buffer wrapped_queue /\
  discard_current_block (cfg := example_config)
                        (init (cfg := example_config))
  = init (cfg := example_config).
Proof.
  destruct (discard_current_block_advances
              (cfg := example_config) one_block_queue 4 eq_refl)
    as [Hone _]; [lia|].
  destruct (discard_current_block_advances
              (cfg := example_config) wrapped_queue 4 eq_refl)
    as [Hwrap _]; [lia|].
  destruct (discard_current_block_advances
              (cfg := example_config) (init (cfg := example_config)) 4
              eq_refl)
    as [_ Hempty]; [lia|].
  destruct Hone as [Htail1 Hstate1]; [cbn; discriminate|].
  destruct Hwrap as [Htail2 Hstate2]; [cbn; discriminate|].
  split; [rewrite Htail1; reflexivity|].
  split; [rewrite Hstate1; reflexivity|].
  split; [rewrite Htail2; reflexivity|].
  split; [rewrite Hstate2; reflexivity|].
  apply Hempty. reflexivity.
Defined.

End PlannerProperties.

(** * Properties of the heater control *)

Module ThermalProperties.
Import MachineInt Thermal ThermalExamples ThermalSpec.

Section WithBoard.
Context {board : Board}.

(** Writing a level to a pin of an 8-bit port and reading it back. *)
Lemma written_bit (port i : Z) (level : bool) :
  0 <= i < 8 ->
  Z.testbit (if level then Z.lor port (uint8 (Z.shiftl 1 (uint8 i)))
             else Z.ldiff port (uint8 (Z.shiftl 1 (uint8 i))))
            (uint8 i) = level.
Proof.
  intros Hi.
  assert (Hu : uint8 i = i)
    by (unfold uint8, wrap_unsigned; apply Z.mod_small; lia).
  rewrite Hu. rewrite Z.shiftl_1_l.
  assert (Hp : uint8 (2 ^ i) = 2 ^ i).
  { unfold uint8, wrap_unsigned. apply Z.mod_small. split.
    - apply Z.pow_nonneg. lia.
    - apply Z.pow_lt_mono_r; lia. }
  rewrite Hp. destruct level.
  - rewrite Z.lor_spec, Z.pow2_bits_true by lia. apply orb_true_r.
  - rewrite Z.ldiff_spec, Z.pow2_bits_true by lia. apply andb_false_r.
Qed.

(** C9, as the code has it.  On an interrupt that reaches the PWM code,
    each heater output is driven high exactly when the PWM counter is at
    most the heater's duty value and that duty value is above 0, and low
    otherwise; the counter then advances modulo 256.  An interrupt that
    does not reach the PWM code leaves outputs and counter alone. *)
Theorem soft_pwm_outputs (ADC : Z) (s : state) :
  0 <= DIO4_PIN < 8 -> 0 <= DIO3_PIN < 8 ->
  (pwm_tick s = true ->
   heater_0_output (isr ADC s)
   = (pwm_counter (isr_statics s) <=? soft_pwm_amount s)
     && (0 <? soft_pwm_amount s) /\
   heater_bed_output (isr ADC s)
   = (pwm_counter (isr_statics s) <=? bed_pwm s) && (0 <? bed_pwm s) /\
   pwm_counter (isr_statics (isr ADC s))
   = (pwm_counter (isr_statics s) + 1) mod 256) /\
  (pwm_tick s = false ->
   heater_0_output (isr ADC s) = heater_0_output s /\
   heater_bed_output (isr ADC s) = heater_bed_output s /\
   pwm_counter (isr_statics (isr ADC s)) = pwm_counter (isr_statics s)).
Proof.
  intros H4 H3. unfold pwm_tick, isr.
  assert (Hadc :
    skip_counter (isr_statics (isr_adc ADC s)) = skip_counter (isr_statics s)
    /\ pwm_counter (isr_statics (isr_adc ADC s))
       = pwm_counter (isr_statics s)
    /\ soft_pwm_amount (isr_adc ADC s) = soft_pwm_amount s
    /\ is_bed_heating (isr_adc ADC s) = is_bed_heating s
    /\ soft_pwm_amount_bed (isr_adc ADC s) = soft_pwm_amount_bed s
    /\ DIO4_WPORT (isr_adc ADC s) = DIO4_WPORT s
    /\ DIO3_WPORT (isr_adc ADC s) = DIO3_WPORT s).
  { unfold isr_adc. destruct (adc_sensor_state (isr_statics s));
      cbn; repeat split; reflexivity. }
  destruct Hadc as (Hskip & Hpwm & Hduty & Hbed & Hbed' & Hp4 & Hp3).
  cbn [isr_statics set_isr_statics skip_counter]. rewrite Hskip.
  split; intros Htick; rewrite Htick; cbn [negb].
  - unfold isr_pwm, heater_0_output, heater_bed_output, bed_pwm,
      extruder_pwm, set_pin, HEATER_0_PIN, HEATER_BED_PIN.
    cbn. rewrite ?Hpwm, ?Hduty, ?Hbed, ?Hbed', ?Hp4, ?Hp3.
    rewrite !written_bit by assumption.
    repeat split; reflexivity.
  - unfold heater_0_output, heater_bed_output. cbn.
    rewrite ?Hpwm, ?Hp4, ?Hp3. repeat split; reflexivity.
Qed.

(** Case analysis on every test in the goal. *)
Ltac split_ifs :=
  repeat match goal with
         | |- context [if ?c then _ else _] => destruct c
         end.

(** What [disable_all_heaters] establishes and what it leaves alone. *)
Lemma disable_all_heaters_off (s : state) :
  0 <= DIO4_PIN < 8 -> 0 <= DIO3_PIN < 8 ->
  heater_0_output (disable_all_heaters s) = false /\
  heater_bed_output (disable_all_heaters s) = false /\
  soft_pwm_amount (disable_all_heaters s) = 0 /\
  bed_pwm (disable_all_heaters s) = 0 /\
  target_temperature (disable_all_heaters s) = 0 /\
  target_temperature_bed (disable_all_heaters s) = 0.
Proof.
  intros H4 H3.
  unfold disable_all_heaters, WRITE_HEATER_0, WRITE_HEATER_BED, set_pin,
    HEATER_0_PIN, HEATER_BED_PIN, heater_0_output, heater_bed_output,
    bed_pwm.
  cbn [Z.eqb Pos.eqb has_bed_thermal_management].
  cbn [DIO4_WPORT DIO3_WPORT set_DIO4_WPORT set_DIO3_WPORT soft_pwm_amount
       is_bed_heating set_is_bed_heating set_soft_pwm_amount
       target_temperature target_temperature_bed
       set_target_temperature_bed].
  rewrite (written_bit _ DIO4_PIN false) by assumption.
  rewrite (written_bit _ DIO3_PIN false) by assumption.
  repeat split.
  unfold setTargetHotend, start_watching_heater. split_ifs; reflexivity.
Qed.

Lemma disable_all_heaters_keeps (s : state) :
  Running (disable_all_heaters s) = Running s /\
  killed_hotend (disable_all_heaters s) = killed_hotend s /\
  killed_bed (disable_all_heaters s) = killed_bed s /\
  interrupts_enabled (disable_all_heaters s) = interrupts_enabled s /\
  watchdog_resets (disable_all_heaters s) = watchdog_resets s /\
  temp_errors (disable_all_heaters s) = temp_errors s /\
  thermal_runaway_state_machine (disable_all_heaters s) = thermal_runaway_state_machine s /\
  thermal_runaway_timer (disable_all_heaters s) = thermal_runaway_timer s /\
  thermal_runaway_bed_state_machine (disable_all_heaters s) = thermal_runaway_bed_state_machine s
  /\ thermal_runaway_bed_timer (disable_all_heaters s) = thermal_runaway_bed_timer s /\
  tr_target_temperature_hotend (disable_all_heaters s) = tr_target_temperature_hotend s /\
  tr_target_temperature_bed (disable_all_heaters s) = tr_target_temperature_bed s.
Proof.
  unfold disable_all_heaters, setTargetHotend, setTargetBed,
    start_watching_heater, start_watching_bed, WRITE_HEATER_0,
    WRITE_HEATER_BED, set_pin, HEATER_0_PIN, HEATER_BED_PIN.
  cbn [Z.eqb Pos.eqb has_bed_thermal_management].
  cbv zeta. split_ifs; cbn; repeat split.
Qed.

(** The final loop of [kill()] never leaves [InLoop]; each turn
    executes [wdr] and nothing else. *)
Lemma kill_loop_turns (n : nat) (s : state) :
  kill_loop n s = (InLoop, Nat.iter n wdr s).
Proof.
  unfold kill_loop. induction n as [|n IH]; [reflexivity|].
  rewrite !Nat.iter_succ, IH. reflexivity.
Qed.

Lemma wdr_turns (n : nat) (s : state) :
  watchdog_resets (Nat.iter n wdr s) = (watchdog_resets s + n)%nat /\
  Running (Nat.iter n wdr s) = Running s /\
  DIO4_WPORT (Nat.iter n wdr s) = DIO4_WPORT s /\
  DIO3_WPORT (Nat.iter n wdr s) = DIO3_WPORT s /\
  soft_pwm_amount (Nat.iter n wdr s) = soft_pwm_amount s /\
  soft_pwm_amount_bed (Nat.iter n wdr s) = soft_pwm_amount_bed s /\
  is_bed_heating (Nat.iter n wdr s) = is_bed_heating s /\
  interrupts_enabled (Nat.iter n wdr s) = interrupts_enabled s.
Proof.
  induction n as [|n IH].
  - cbn. repeat split; lia.
  - rewrite Nat.iter_succ.
    set (x := Nat.iter n wdr s) in *. clearbody x.
    destruct IH as (Hw & Hr & H4 & H3 & Hp & Hpb & Hb & Hi).
    unfold wdr. cbn. rewrite Hw. repeat split; try assumption. lia.
Qed.

Lemma disable_keeps_Running (s : state) :
  Running (disable_all_heaters s) = Running s.
Proof. apply (disable_all_heaters_keeps s). Qed.

Lemma disable_keeps_interrupts (s : state) :
  interrupts_enabled (disable_all_heaters s) = interrupts_enabled s.
Proof. apply (disable_all_heaters_keeps s). Qed.

Lemma disable_keeps_temp_errors (s : state) :
  temp_errors (disable_all_heaters s) = temp_errors s.
Proof. apply (disable_all_heaters_keeps s). Qed.

Lemma Running_cli (s : state) : Running (cli s) = Running s.
Proof. reflexivity. Qed.

Lemma interrupts_cli (s : state) : interrupts_enabled (cli s) = false.
Proof. reflexivity. Qed.

Lemma Running_serial (l : list serial_item) (s : state) :
  Running (serial l s) = Running s.
Proof. reflexivity. Qed.

(** The state in which [kill()] enters its final loop. *)
Lemma kill_enter_locked (x : state) :
  0 <= DIO4_PIN < 8 -> 0 <= DIO3_PIN < 8 ->
  heater_0_output (kill_enter x) = false /\
  heater_bed_output (kill_enter x) = false /\
  soft_pwm_amount (kill_enter x) = 0 /\
  bed_pwm (kill_enter x) = 0 /\
  target_temperature (kill_enter x) = 0 /\
  target_temperature_bed (kill_enter x) = 0 /\
  interrupts_enabled (kill_enter x) = false /\
  Running (kill_enter x) = Running x.
Proof.
  intros H4 H3. unfold kill_enter.
  match goal with
  | |- heater_0_output (disable_all_heaters ?y) = _ /\ _ =>
      destruct (disable_all_heaters_off y H4 H3)
        as (Ho0 & Hob & Hp & Hpb & Ht & Htb)
  end.
  split; [exact Ho0|]. split; [exact Hob|]. split; [exact Hp|].
  split; [exact Hpb|]. split; [exact Ht|]. split; [exact Htb|].
  split.
  - rewrite disable_keeps_interrupts. apply interrupts_cli.
  - rewrite disable_keeps_Running, Running_cli, disable_keeps_Running.
    apply Running_serial.
Qed.

(** A first error of a heater ends in [kill()]. *)
Lemma _temp_error_first (m : Manager) (msg : message) (s : state) :
  killed m s = false ->
  exists x,
    _temp_error m msg s = Locked (kill_enter x) /\
    Running x = false /\
    temp_errors x = temp_errors s ++ [(m, msg)] /\
    tr_view x = tr_view s.
Proof.
  intros Hk. unfold _temp_error, kill.
  match goal with
  | |- context [killed m ?y] =>
      assert (Hk' : killed m y = false)
        by (destruct m; cbn in *; split_ifs; cbn; exact Hk);
      rewrite Hk'; cbn [negb];
      exists (set_killed m true (set_Running false y))
  end.
  split; [reflexivity|].
  destruct m; cbn; split_ifs; cbn; repeat split; reflexivity.
Qed.

(** C1, as the code has it.  On the first fatal thermal error of a
    heater (its [killed] flag is still clear) the call does not return:
    the running flag is cleared, both heater outputs are low, both duty
    values and both targets are 0, interrupts are disabled, and the
    machine is in the final loop of [kill()].  It never leaves that
    loop, and every turn of the loop resets the watchdog timer: after
    [n] turns the watchdog has been reset [n] more times, with the
    heaters still off. *)
Theorem fatal_thermal_error_locks (m : Manager) (msg : message) (s : state) :
  0 <= DIO4_PIN < 8 -> 0 <= DIO3_PIN < 8 ->
  killed m s = false ->
  exists s0,
    _temp_error m msg s = Locked s0 /\
    Running s0 = false /\
    heater_0_output s0 = false /\
    heater_bed_output s0 = false /\
    soft_pwm_amount s0 = 0 /\
    bed_pwm s0 = 0 /\
    target_temperature s0 = 0 /\
    target_temperature_bed s0 = 0 /\
    interrupts_enabled s0 = false /\
    forall n : nat,
    exists sn,
      kill_loop n s0 = (InLoop, sn) /\
      watchdog_resets sn = (watchdog_resets s0 + n)%nat /\
      Running sn = false /\
      heater_0_output sn = false /\
      heater_bed_output sn = false /\
      soft_pwm_amount sn = 0 /\
      bed_pwm sn = 0 /\
      interrupts_enabled sn = false.
Proof.
  intros H4 H3 Hk.
  destruct (_temp_error_first m msg s Hk) as (x & -> & Hx & _).
  exists (kill_enter x).
  destruct (kill_enter_locked x H4 H3)
    as (Ho0 & Hob & Hp & Hpb & Ht & Htb & Hint & Hrun).
  rewrite Hx in Hrun.
  split; [reflexivity|].
  repeat (split; [assumption|]).
  intros n. exists (Nat.iter n wdr (kill_enter x)).
  split; [apply kill_loop_turns|].
  destruct (wdr_turns n (kill_enter x))
    as (Hw & Hr & Hd4 & Hd3 & Hsp & Hspb & Hbh & Hi).
  unfold heater_0_output, heater_bed_output, bed_pwm in *.
  rewrite Hw, Hr, Hd4, Hd3, Hsp, Hspb, Hbh, Hi.
  repeat split; assumption.
Qed.

(** *** Minimum and maximum temperature errors *)

Lemma disable_all_heaters_targets (s : state) :
  target_temperature (disable_all_heaters s) = 0 /\
  target_temperature_bed (disable_all_heaters s) = 0.
Proof.
  unfold disable_all_heaters, WRITE_HEATER_0, WRITE_HEATER_BED, set_pin,
    HEATER_0_PIN, HEATER_BED_PIN.
  cbn [Z.eqb Pos.eqb has_bed_thermal_management].
  cbn [target_temperature target_temperature_bed set_DIO4_WPORT
       set_DIO3_WPORT set_is_bed_heating set_soft_pwm_amount
       set_target_temperature_bed].
  split; [|reflexivity].
  unfold setTargetHotend, start_watching_heater. split_ifs; reflexivity.
Qed.

Lemma temp_errors_cli (s : state) : temp_errors (cli s) = temp_errors s.
Proof. reflexivity. Qed.

Lemma temp_errors_serial (l : list serial_item) (s : state) :
  temp_errors (serial l s) = temp_errors s.
Proof. reflexivity. Qed.

Lemma temp_errors_set_killed (m : Manager) (v : bool) (s : state) :
  temp_errors (set_killed m v s) = temp_errors s.
Proof. destruct m; reflexivity. Qed.

Lemma temp_errors_set_Running (v : bool) (s : state) :
  temp_errors (set_Running v s) = temp_errors s.
Proof. reflexivity. Qed.

Lemma kill_enter_temp_errors (x : state) :
  temp_errors (kill_enter x) = temp_errors x.
Proof.
  unfold kill_enter.
  rewrite disable_keeps_temp_errors, temp_errors_cli,
    disable_keeps_temp_errors.
  apply temp_errors_serial.
Qed.

(** What a call of [_temp_error] records, and what holds if it
    returns. *)
Lemma _temp_error_effects (m : Manager) (msg : message) (s : state) :
  temp_errors (final_state (_temp_error m msg s))
  = temp_errors s ++ [(m, msg)] /\
  (forall s', _temp_error m msg s = Returns tt s' ->
              target_temperature s' = 0 /\ target_temperature_bed s' = 0).
Proof.
  unfold _temp_error.
  match goal with
  | |- context [killed m ?y0] => remember y0 as y eqn:Ey
  end.
  assert (Hy : temp_errors y = temp_errors s ++ [(m, msg)])
    by (subst y; split_ifs; reflexivity).
  clear Ey.
  destruct (negb (killed m y)).
  - unfold kill. cbn [final_state].
    rewrite kill_enter_temp_errors, temp_errors_set_killed,
      temp_errors_set_Running.
    split; [exact Hy|]. intros s' Hs'. discriminate Hs'.
  - cbn [final_state]. rewrite disable_keeps_temp_errors.
    split; [exact Hy|]. intros s' Hs'. injection Hs' as <-.
    apply disable_all_heaters_targets.
Qed.

Lemma checked_start (s0 : state) : checked s0 (Returns tt s0).
Proof. left. exists s0. repeat split. Qed.

(** One more guarded check [if (c & (target > 0)) error();]. *)
Lemma checked_step (s0 : state) (r : outcome unit) (m : Manager)
      (c : state -> bool) (e : message) :
  e = MSG_T_MAXTEMP \/ e = MSG_T_MINTEMP ->
  checked s0 r ->
  checked s0 (obind r (fun _ s1 =>
                         when (c s1 && (0 <? target_of m s1))
                              (_temp_error m e) s1)).
Proof.
  intros He [(s' & -> & Herr & Ht & Htb)|(m0 & e0 & He0 & Hpos & Herr & Hret)].
  - cbn [obind]. unfold when.
    destruct (c s' && (0 <? target_of m s')) eqn:Hc.
    + right. exists m, e. split; [exact He|].
      apply andb_true_iff in Hc. destruct Hc as [_ Hc].
      apply Z.ltb_lt in Hc.
      destruct (_temp_error_effects m e s') as [Hrec Hzero].
      split; [destruct m; cbn [target_of] in *; lia|].
      split; [rewrite Hrec, Herr; reflexivity|exact Hzero].
    + left. exists s'. repeat split; assumption.
  - right. exists m0, e0. split; [exact He0|]. split; [exact Hpos|].
    destruct r as [[] s'|s']; cbn [obind].
    + destruct (Hret s' eq_refl) as [Hz Hzb].
      assert (Hoff : (0 <? target_of m s') = false)
        by (destruct m; cbn [target_of]; rewrite ?Hz, ?Hzb; reflexivity).
      unfold when. rewrite Hoff, andb_false_r.
      split; [exact Herr|exact Hret].
    + split; [exact Herr|exact Hret].
Qed.

Lemma check_hotend_raw_checked (raw : Z) (s0 : state) :
  checked s0 (check_hotend_raw raw s0).
Proof.
  unfold check_hotend_raw, max_temp_error, min_temp_error.
  destruct (HEATER_0_RAW_LO_TEMP <? HEATER_0_RAW_HI_TEMP).
  - apply (checked_step s0 _ Hotend
             (fun _ => (raw <=? HOTEND_MIN_ADC) && negb is_preheating));
      [right; reflexivity|].
    apply (checked_step s0 (Returns tt s0) Hotend
             (fun _ => HOTEND_MAX_ADC <=? raw));
      [left; reflexivity|apply checked_start].
  - apply (checked_step s0 _ Hotend
             (fun _ => (HOTEND_MIN_ADC <=? raw) && negb is_preheating));
      [right; reflexivity|].
    apply (checked_step s0 (Returns tt s0) Hotend
             (fun _ => raw <=? HOTEND_MAX_ADC));
      [left; reflexivity|apply checked_start].
Qed.

Lemma check_bed_raw_checked (raw : Z) (s0 : state) (r : outcome unit) :
  checked s0 r ->
  checked s0 (obind r (fun _ s2 => check_bed_raw raw s2)).
Proof.
  intros Hr.
  unfold check_bed_raw, max_temp_error, min_temp_error.
  destruct (HEATER_BED_RAW_LO_TEMP <? HEATER_BED_RAW_HI_TEMP).
  - pose proof (checked_step s0 _ Bed (fun _ => raw <=? BED_MIN_ADC)
                  MSG_T_MINTEMP (or_intror eq_refl)
                  (checked_step s0 r Bed (fun _ => BED_MAX_ADC <=? raw)
                     MSG_T_MAXTEMP (or_introl eq_refl) Hr)) as Hc.
    destruct r as [[] s'|s']; exact Hc.
  - pose proof (checked_step s0 _ Bed (fun _ => BED_MIN_ADC <=? raw)
                  MSG_T_MINTEMP (or_intror eq_refl)
                  (checked_step s0 r Bed (fun _ => raw <=? BED_MAX_ADC)
                     MSG_T_MAXTEMP (or_introl eq_refl) Hr)) as Hc.
    destruct r as [[] s'|s']; exact Hc.
Qed.

(** Every error [updateTemperaturesFromRawValues] raises is a minimum
    or maximum temperature error of a heater with a target above 0. *)
Lemma update_raises_min_max (s : state) :
  exists raised,
    temp_errors (final_state (updateTemperaturesFromRawValues s))
    = temp_errors s ++ raised /\
    (forall m e, In (m, e) raised ->
                 (e = MSG_T_MAXTEMP \/ e = MSG_T_MINTEMP) /\
                 0 < target_of m s).
Proof.
  unfold updateTemperaturesFromRawValues.
  destruct (ready_ (irq s)).
  - set (s1 := set_irq _ s).
    cbn [when ENABLE_ERROR_3 ENABLE_ERROR_5].
    pose proof (check_bed_raw_checked (raw_adc_bed (irq s)) s1 _
                  (check_hotend_raw_checked (raw_adc_hotend (irq s)) s1))
      as Hc.
    destruct (check_hotend_raw (raw_adc_hotend (irq s)) s1)
      as [[] s2|s2] eqn:Hhot; cbn [obind] in Hc |- *.
    + destruct (check_bed_raw (raw_adc_bed (irq s)) s2)
        as [[] s3|s3] eqn:Hbed; cbn [obind final_state] in Hc |- *.
      * match goal with
        | |- exists raised, temp_errors ?x = _ /\ _ =>
            assert (Hx : temp_errors x = temp_errors s3)
              by (unfold wdr; split_ifs; reflexivity);
            rewrite Hx
        end.
        destruct Hc as [(s' & Hs' & Herr & _)
                       |(m & e & He & Hpos & Herr & _)].
        -- injection Hs' as <-. exists []. rewrite Herr.
           split; [subst s1; cbn; rewrite app_nil_r; reflexivity|].
           intros m e [].
        -- exists [(m, e)]. split; [exact Herr|].
           intros m' e' [Heq|[]]. injection Heq as <- <-.
           split; [exact He|exact Hpos].
      * destruct Hc as [(s' & Hs' & _)|(m & e & He & Hpos & Herr & _)];
          [discriminate Hs'|].
        exists [(m, e)]. split; [exact Herr|].
        intros m' e' [Heq|[]]. injection Heq as <- <-.
        split; [exact He|exact Hpos].
    + destruct Hc as [(s' & Hs' & _)|(m & e & He & Hpos & Herr & _)];
        [discriminate Hs'|].
      exists [(m, e)]. split; [exact Herr|].
      intros m' e' [Heq|[]]. injection Heq as <- <-.
      split; [exact He|exact Hpos].
  - exists []. cbn [final_state]. rewrite app_nil_r.
    split; [reflexivity|]. intros m e [].
Qed.


(** *** Thermal runaway *)

Lemma watch_view_obind {A B : Type} (s0 : state) (r : outcome A)
      (k : A -> state -> outcome B) :
  watch_view (final_state r) = watch_view s0 ->
  (forall a s1, watch_view (final_state (k a s1)) = watch_view s1) ->
  watch_view (final_state (obind r k)) = watch_view s0.
Proof.
  intros Hr Hk. destruct r as [a s1|s1]; cbn [obind final_state] in *.
  - rewrite Hk. exact Hr.
  - exact Hr.
Qed.

Lemma tr_view_disable (s : state) :
  tr_view (disable_all_heaters s) = tr_view s.
Proof.
  unfold tr_view.
  destruct (disable_all_heaters_keeps s)
    as (_ & _ & _ & _ & _ & _ & -> & -> & -> & -> & -> & ->).
  reflexivity.
Qed.

Lemma tr_view_cli (s : state) : tr_view (cli s) = tr_view s.
Proof. reflexivity. Qed.

Lemma tr_view_serial (l : list serial_item) (s : state) :
  tr_view (serial l s) = tr_view s.
Proof. reflexivity. Qed.

Lemma tr_view_kill_enter (x : state) : tr_view (kill_enter x) = tr_view x.
Proof.
  unfold kill_enter.
  rewrite tr_view_disable, tr_view_cli, tr_view_disable.
  apply tr_view_serial.
Qed.

Lemma tr_view_set_killed (m : Manager) (v : bool) (s : state) :
  tr_view (set_killed m v s) = tr_view s.
Proof. destruct m; reflexivity. Qed.

Lemma tr_view_set_Running (v : bool) (s : state) :
  tr_view (set_Running v s) = tr_view s.
Proof. reflexivity. Qed.

Lemma tr_view__temp_error (m : Manager) (msg : message) (s : state) :
  tr_view (final_state (_temp_error m msg s)) = tr_view s.
Proof.
  unfold _temp_error.
  match goal with
  | |- context [killed m ?y0] => remember y0 as y eqn:Ey
  end.
  assert (Hy : tr_view y = tr_view s) by (subst y; split_ifs; reflexivity).
  clear Ey.
  destruct (negb (killed m y)); unfold kill; cbn [final_state].
  - rewrite tr_view_kill_enter, tr_view_set_killed, tr_view_set_Running.
    exact Hy.
  - rewrite tr_view_disable. exact Hy.
Qed.

Lemma tr_view_when (c : bool) (m : Manager) (msg : message) (s : state) :
  tr_view (final_state (when c (_temp_error m msg) s)) = tr_view s.
Proof.
  unfold when. destruct c; [apply tr_view__temp_error|reflexivity].
Qed.

Lemma tr_view_obind {A B : Type} (s0 : state) (r : outcome A)
      (k : A -> state -> outcome B) :
  tr_view (final_state r) = tr_view s0 ->
  (forall a s1, tr_view (final_state (k a s1)) = tr_view s1) ->
  tr_view (final_state (obind r k)) = tr_view s0.
Proof.
  intros Hr Hk. destruct r as [a s1|s1]; cbn [obind final_state] in *.
  - rewrite Hk. exact Hr.
  - exact Hr.
Qed.

Lemma tr_view_check_hotend (raw : Z) (s : state) :
  tr_view (final_state (check_hotend_raw raw s)) = tr_view s.
Proof.
  unfold check_hotend_raw, max_temp_error, min_temp_error.
  destruct (HEATER_0_RAW_LO_TEMP <? HEATER_0_RAW_HI_TEMP);
    (apply tr_view_obind; [apply tr_view_when|]);
    intros a s1; apply tr_view_when.
Qed.

Lemma tr_view_check_bed (raw : Z) (s : state) :
  tr_view (final_state (check_bed_raw raw s)) = tr_view s.
Proof.
  unfold check_bed_raw, max_temp_error, min_temp_error.
  destruct (HEATER_BED_RAW_LO_TEMP <? HEATER_BED_RAW_HI_TEMP);
    (apply tr_view_obind; [apply tr_view_when|]);
    intros a s1; apply tr_view_when.
Qed.

Lemma tr_view_update (s : state) :
  tr_view (final_state (updateTemperaturesFromRawValues s)) = tr_view s.
Proof.
  unfold updateTemperaturesFromRawValues.
  destruct (ready_ (irq s)); [|reflexivity].
  cbn [when ENABLE_ERROR_3 ENABLE_ERROR_5].
  apply tr_view_obind.
  - rewrite tr_view_check_hotend. reflexivity.
  - intros a s2. apply tr_view_obind; [apply tr_view_check_bed|].
    intros b s3. cbn [final_state]. unfold wdr. split_ifs; reflexivity.
Qed.

(** The heater manager past the temperature update: it neither touches
    the watch on thermal runaway nor raises an error. *)
Lemma manage_heater_tail_view (s1 : state) :
  watch_view (drive_bed (drive_hotend
                (final_state
                   (obind (watch_hotend (millis s1) s1)
                          (fun _ s3 => watch_bed (millis s1) s3)))))
  = watch_view s1.
Proof.
  unfold watch_hotend, watch_bed.
  cbn [ENABLE_ERROR_1A ENABLE_ERROR_1B andb].
  assert (Hh : forall s, watch_view (start_watching_heater s) = watch_view s)
    by (intros s; unfold start_watching_heater; split_ifs; reflexivity).
  assert (Hb : forall s, watch_view (start_watching_bed s) = watch_view s)
    by (intros s; unfold start_watching_bed; split_ifs; reflexivity).
  assert (Hdh : forall s, watch_view (drive_hotend s) = watch_view s).
  { intros s. unfold drive_hotend, WRITE_HEATER_0, set_pin, HEATER_0_PIN.
    cbn [Z.eqb Pos.eqb]. split_ifs; reflexivity. }
  assert (Hdb : forall s, watch_view (drive_bed s) = watch_view s).
  { intros s. unfold drive_bed, WRITE_HEATER_BED, set_pin, HEATER_BED_PIN.
    cbn [Z.eqb Pos.eqb has_bed_thermal_management].
    split_ifs; reflexivity. }
  rewrite Hdb, Hdh.
  destruct (negb (watch_heater_next_ms s1 =? 0)
            && ELAPSED (millis s1) (watch_heater_next_ms s1));
    cbn [obind].
  - match goal with
    | |- context [if ?c then _ else _] => destruct c
    end; cbn [final_state]; rewrite ?Hb, Hh; reflexivity.
  - match goal with
    | |- context [if ?c then _ else _] => destruct c
    end; cbn [final_state]; rewrite ?Hb; reflexivity.
Qed.

Lemma Running_kill_enter (x : state) :
  Running (kill_enter x) = Running x.
Proof.
  unfold kill_enter.
  rewrite disable_keeps_Running, Running_cli, disable_keeps_Running.
  apply Running_serial.
Qed.

Lemma tr_state_of_view (m : Manager) (s s' : state) :
  tr_view s' = tr_view s ->
  tr_state m s' = tr_state m s /\ tr_timer m s' = tr_timer m s
  /\ tr_target_temperature m s' = tr_target_temperature m s.
Proof.
  unfold tr_view. intros Hv. injection Hv as H1 H2 H3 H4 H5 H6.
  destruct m; cbn; repeat split; assumption.
Qed.

Lemma manage_heater_view (s : state) :
  tr_view (final_state (manage_heater s)) = tr_view s /\
  temp_errors (final_state (manage_heater s))
  = temp_errors (final_state (updateTemperaturesFromRawValues s)).
Proof.
  pose proof (tr_view_update s) as Hu.
  unfold manage_heater.
  destruct (updateTemperaturesFromRawValues s) as [updated s1|s1];
    cbn [obind final_state] in *; [|split; [exact Hu|reflexivity]].
  destruct updated; cbn [negb final_state];
    [|split; [exact Hu|reflexivity]].
  cbn [when ENABLE_ERROR_2A ENABLE_ERROR_2B obind].
  pose proof (manage_heater_tail_view s1) as Ht.
  destruct (watch_hotend (millis s1) s1) as [[] s3|s3] eqn:Hwh;
    cbn [obind final_state] in *.
  - destruct (watch_bed (millis s1) s3) as [[] s4|s4] eqn:Hwb;
      cbn [obind final_state] in *.
    + pose proof (f_equal fst Ht) as Hv. pose proof (f_equal snd Ht) as He.
      unfold watch_view in Hv, He. cbn [fst snd] in Hv, He.
      split; [|exact He]. rewrite Hv. exact Hu.
    + unfold watch_bed in Hwb.
      cbn [ENABLE_ERROR_1B andb] in Hwb.
      destruct (negb (watch_bed_next_ms s3 =? 0)
                && ELAPSED (millis s1) (watch_bed_next_ms s3));
        discriminate Hwb.
  - unfold watch_hotend in Hwh.
    cbn [ENABLE_ERROR_1A andb] in Hwh.
    destruct (negb (watch_heater_next_ms s1 =? 0)
              && ELAPSED (millis s1) (watch_heater_next_ms s1));
      discriminate Hwh.
Qed.

(** The state machine of [thermal_runaway_protection], called for a
    heater with a target above 0: a changed target puts it into
    FirstHeating, where it stays while the temperature is below the
    target; from FirstHeating with the temperature at the target it
    goes on to Stable and arms the timer; in Stable, once the
    temperature is below the target minus the hysteresis and the timer
    is no longer pending, it goes to Runaway and raises a thermal error
    that locks the machine.  Both of its calls in [manage_heater] are
    compiled out, so [manage_heater] leaves the state machines, timers
    and remembered targets of both heaters as they were and adds no
    thermal-runaway error. *)
Lemma thermal_runaway_machine (m : Manager) (current target : temp_t)
        (period_seconds hysteresis_degc : Z) (s : state) :
  0 < target ->
  (tr_target_temperature m s <> target -> current < target ->
   exists s',
     thermal_runaway_protection m current target period_seconds
                                hysteresis_degc s = Returns tt s' /\
     tr_state m s' = TRFirstHeating /\
     tr_target_temperature m s' = target) /\
  (tr_state m s = TRFirstHeating -> tr_target_temperature m s = target ->
   target <= current ->
   temp_sub target (temp_of_degrees hysteresis_degc) <= current ->
   exists s',
     thermal_runaway_protection m current target period_seconds
                                hysteresis_degc s = Returns tt s' /\
     tr_state m s' = TRStable /\
     tr_timer m s' = uint32 (millis s + uint32 (period_seconds * 1000))) /\
  (tr_state m s = TRStable -> tr_target_temperature m s = target ->
   current < temp_sub target (temp_of_degrees hysteresis_degc) ->
   PENDING (millis s) (tr_timer m s) = false ->
   killed m s = false ->
   exists s0,
     thermal_runaway_protection m current target period_seconds
                                hysteresis_degc s = Locked s0 /\
     tr_state m s0 = TRRunaway /\
     temp_errors s0 = temp_errors s ++ [(m, MSG_T_THERMAL_RUNAWAY)] /\
     Running s0 = false) /\
  (ENABLE_ERROR_2A = false /\ ENABLE_ERROR_2B = false /\
   forall s1 : state,
     tr_view (final_state (manage_heater s1)) = tr_view s1 /\
     forall m' : Manager,
       ~ In (m', MSG_T_THERMAL_RUNAWAY) (temp_errors s1) ->
       ~ In (m', MSG_T_THERMAL_RUNAWAY)
            (temp_errors (final_state (manage_heater s1)))).
Proof.
  intros Htarget.
  assert (Hset_state : forall v x, tr_state m (set_tr_state m v x) = v)
    by (intros; destruct m; reflexivity).
  assert (Hset_target :
    forall v x, tr_target_temperature m (set_tr_state m v x)
                = tr_target_temperature m x)
    by (intros; destruct m; reflexivity).
  split; [|split; [|split; [|split; [reflexivity|split; [reflexivity|]]]]].
  - intros Hnew Hbelow. unfold thermal_runaway_protection.
    apply Z.eqb_neq in Hnew. rewrite Hnew. cbn [negb].
    apply Z.ltb_lt in Htarget. rewrite Htarget.
    rewrite Hset_state. unfold tr_case_FirstHeating.
    assert (Ht : tr_target_temperature
                   m (set_tr_state m TRFirstHeating
                        (set_tr_target_temperature m target s)) = target)
      by (destruct m; reflexivity).
    rewrite Ht. apply Z.ltb_lt in Hbelow. rewrite Hbelow.
    eexists. split; [reflexivity|]. split; [apply Hset_state|exact Ht].
  - intros Hst Hsame Hreached Hwithin. unfold thermal_runaway_protection.
    rewrite Hsame, Z.eqb_refl. cbn [negb]. rewrite Hst.
    unfold tr_case_FirstHeating. rewrite Hsame.
    apply Z.ltb_ge in Hreached. rewrite Hreached.
    unfold tr_case_Stable. rewrite Hset_target, Hsame.
    apply Z.leb_le in Hwithin. rewrite Hwithin.
    eexists. split; [reflexivity|].
    destruct m; split; reflexivity.
  - intros Hst Hsame Hbelow Hexpired Hk. unfold thermal_runaway_protection.
    rewrite Hsame, Z.eqb_refl. cbn [negb]. rewrite Hst.
    unfold tr_case_Stable. rewrite Hsame.
    apply Z.leb_gt in Hbelow. rewrite Hbelow, Hexpired.
    unfold tr_case_Runaway. rewrite Hset_state.
    assert (Hk' : killed m (set_tr_state m TRRunaway s) = false)
      by (destruct m; exact Hk).
    destruct (_temp_error_first m MSG_T_THERMAL_RUNAWAY _ Hk')
      as (x & -> & Hrun & Herr & Hview).
    exists (kill_enter x). split; [reflexivity|].
    destruct (tr_state_of_view m x (kill_enter x) (tr_view_kill_enter x))
      as (Hs1 & _).
    destruct (tr_state_of_view m _ x Hview) as (Hs2 & _).
    split; [rewrite Hs1, Hs2; apply Hset_state|].
    split.
    + rewrite kill_enter_temp_errors, Herr. destruct m; reflexivity.
    + rewrite Running_kill_enter. exact Hrun.
  - intros s1. destruct (manage_heater_view s1) as [Hv He].
    split; [exact Hv|]. intros m' Hfresh Hin. rewrite He in Hin.
    destruct (update_raises_min_max s1) as (raised & Hrec & Hraised).
    rewrite Hrec in Hin. apply in_app_or in Hin.
    destruct Hin as [Hin|Hin]; [exact (Hfresh Hin)|].
    destruct (Hraised _ _ Hin) as [[Hmsg|Hmsg] _]; discriminate Hmsg.
Qed.

End WithBoard.

(** C1, where the code departs from it.  After a maximum-temperature
    error on the hotend the machine is in the final loop of [kill()],
    and one turn of that loop has reset the watchdog timer once. *)
Lemma kill_loop_resets_watchdog :
  exists s0,
    _temp_error (board := example_board) Hotend MSG_T_MAXTEMP init
    = Locked s0 /\
    fst (kill_loop 1 s0) = InLoop /\
    watchdog_resets (snd (kill_loop 1 s0)) = S (watchdog_resets s0) /\
    watchdog_resets (snd (kill_loop 1 s0)) <> watchdog_resets s0.
Proof.
  eexists. split; [vm_compute; reflexivity|].
  vm_compute. repeat split; try reflexivity. discriminate.
Qed.

Lemma fatal_thermal_error_locks_witness :
  killed Hotend init = false /\
  exists s0,
    _temp_error (board := example_board) Hotend MSG_T_MAXTEMP init
    = Locked s0 /\
    Running s0 = false /\
    heater_0_output (board := example_board) s0 = false /\
    exists s3, kill_loop 3 s0 = (InLoop, s3)
               /\ watchdog_resets s3 = (watchdog_resets s0 + 3)%nat.
Proof.
  assert (Hk : killed Hotend init = false) by reflexivity.
  split; [exact Hk|].
  destruct (fatal_thermal_error_locks
              (board := example_board) Hotend MSG_T_MAXTEMP init)
    as (s0 & Hlock & Hrun & Hout & _ & _ & _ & _ & _ & _ & Hloop).
  - cbn. lia.
  - cbn. lia.
  - exact Hk.
  - exists s0. split; [exact Hlock|]. split; [exact Hrun|].
    split; [exact Hout|].
    destruct (Hloop 3%nat) as (s3 & Hturn & Hw & _).
    exists s3. split; [exact Hturn|exact Hw].
Defined.

(** C2, where the code departs from it.  The heater manager never runs
    the thermal-runaway state machine: on every board and in every
    state [manage_heater] leaves the state machines, timers and
    remembered targets of both heaters as they were.  On a machine
    powered up at room temperature whose hotend is set to 200 degrees,
    [manage_heater] returns with the state machine still Inactive;
    after the hotend has reached the target it returns with the state
    machine still Inactive; and when the hotend is back at room
    temperature, far below the target minus the hysteresis, 100 s
    later, it returns with the state machine still Inactive, no error
    recorded and the machine running.  [thermal_runaway_protection]
    itself, called with the temperatures, targets and time of these
    three calls, goes to FirstHeating, then to Stable, then to Runaway,
    where it records the thermal-runaway error and locks the
    machine. *)
Theorem heater_manager_skips_runaway_protection :
  (forall (board : Board) (s : state),
      tr_view (final_state (manage_heater (board := board) s)) = tr_view s)
  /\
  thermal_runaway_state_machine ThermalRunExamples.heating_state
  = TRInactive /\
  exists s1 s2 s3 : state,
    manage_heater (board := example_board) ThermalRunExamples.heating_state
    = Returns true s1 /\
    target_temperature s1 = 3200 /\
    current_temperature s1 < target_temperature s1 /\
    thermal_runaway_state_machine s1 = TRInactive /\
    manage_heater (board := example_board)
      (ThermalRuns.ticks (board := example_board)
                         ThermalRunExamples.hot_readings s1)
    = Returns true s2 /\
    target_temperature s2 = 3200 /\
    target_temperature s2 <= current_temperature s2 /\
    thermal_runaway_state_machine s2 = TRInactive /\
    manage_heater (board := example_board)
      (set_millis 100000
         (ThermalRuns.ticks (board := example_board)
                            ThermalRunExamples.room_readings s2))
    = Returns true s3 /\
    target_temperature s3 = 3200 /\
    current_temperature s3
    < temp_sub (Board := example_board) (target_temperature s3)
               (temp_of_degrees (Board := example_board)
                  (THERMAL_PROTECTION_HYSTERESIS (Board := example_board)))
    /\
    millis s3 = 100000 /\
    thermal_runaway_state_machine s3 = TRInactive /\
    temp_errors s3 = [] /\
    Running s3 = true /\
    exists a1 a2 a3 : state,
      thermal_runaway_protection
        (board := example_board) Hotend (current_temperature s1)
        (target_temperature s1)
        (THERMAL_PROTECTION_PERIOD (Board := example_board))
        (THERMAL_PROTECTION_HYSTERESIS (Board := example_board)) s1
      = Returns tt a1 /\
      thermal_runaway_state_machine a1 = TRFirstHeating /\
      thermal_runaway_protection
        (board := example_board) Hotend (current_temperature s2)
        (target_temperature s2)
        (THERMAL_PROTECTION_PERIOD (Board := example_board))
        (THERMAL_PROTECTION_HYSTERESIS (Board := example_board)) a1
      = Returns tt a2 /\
      thermal_runaway_state_machine a2 = TRStable /\
      thermal_runaway_timer a2 = 40000 /\
      thermal_runaway_protection
        (board := example_board) Hotend (current_temperature s3)
        (target_temperature s3)
        (THERMAL_PROTECTION_PERIOD (Board := example_board))
        (THERMAL_PROTECTION_HYSTERESIS (Board := example_board))
        (set_millis (millis s3) a2)
      = Locked a3 /\
      thermal_runaway_state_machine a3 = TRRunaway /\
      temp_errors a3 = [(Hotend, MSG_T_THERMAL_RUNAWAY)] /\
      Running a3 = false.
Proof.
  split; [intros board s; exact (proj1 (manage_heater_view s))|].
  split; [vm_compute; reflexivity|].
  eexists. eexists. eexists.
  split; [vm_compute; reflexivity|].
  split; [reflexivity|]. split; [reflexivity|]. split; [reflexivity|].
  split; [vm_compute; reflexivity|].
  split; [reflexivity|].
  split; [vm_compute; discriminate|]. split; [reflexivity|].
  split; [vm_compute; reflexivity|].
  split; [reflexivity|]. split; [reflexivity|]. split; [reflexivity|].
  split; [reflexivity|]. split; [reflexivity|]. split; [reflexivity|].
  eexists. eexists. eexists.
  split; [vm_compute; reflexivity|]. split; [reflexivity|].
  split; [vm_compute; reflexivity|]. split; [reflexivity|].
  split; [reflexivity|].
  split; [vm_compute; reflexivity|].
  repeat split; reflexivity.
Qed.

Lemma thermal_runaway_machine_witness :
  exists s0,
    thermal_runaway_protection (board := example_board) Hotend 2880 3200
                               40 4 stuck_state = Locked s0 /\
    tr_state Hotend s0 = TRRunaway /\
    Running s0 = false.
Proof.
  destruct (thermal_runaway_machine (board := example_board) Hotend 2880
                                    3200 40 4 stuck_state)
    as (_ & _ & Hrunaway & _).
  - lia.
  - destruct Hrunaway as (s0 & Hlock & Hstate & _ & Hrun).
    + reflexivity.
    + reflexivity.
    + vm_compute. reflexivity.
    + reflexivity.
    + reflexivity.
    + exists s0. split; [exact Hlock|]. split; [exact Hstate|exact Hrun].
Defined.

(** A hotend reading beyond the maximum bound raises the maximum
    temperature error and locks the machine when the hotend has a
    target; the same reading with target 0 raises nothing. *)
Lemma max_temp_error_example :
  temp_errors (final_state (updateTemperaturesFromRawValues
                              (board := example_board) overheated_state))
  = [(Hotend, MSG_T_MAXTEMP)] /\
  is_locked (updateTemperaturesFromRawValues
               (board := example_board) overheated_state) = true /\
  temp_errors (final_state (updateTemperaturesFromRawValues
                              (board := example_board)
                              (set_target_temperature 0 overheated_state)))
  = [] /\
  is_locked (updateTemperaturesFromRawValues
               (board := example_board)
               (set_target_temperature 0 overheated_state)) = false.
Proof. vm_compute. repeat split; reflexivity. Qed.


(** C9, where the code departs from it.  With duty 0 and the PWM
    counter at 0 the counter is at most the duty, yet the interrupt
    drives the hotend output, which was high, low. *)
Lemma zero_duty_output_is_low :
  pwm_tick idle_high_state = true /\
  pwm_counter (isr_statics idle_high_state) <= soft_pwm_amount idle_high_state
  /\ heater_0_output (board := example_board) idle_high_state = true
  /\ heater_0_output (board := example_board)
                     (isr (board := example_board) 0 idle_high_state)
     = false.
Proof. vm_compute. repeat split; try reflexivity. discriminate. Qed.

Lemma soft_pwm_outputs_witness :
  pwm_tick idle_high_state = true /\
  heater_0_output (board := example_board)
                  (isr (board := example_board) 0 idle_high_state)
  = (0 <=? 0) && (0 <? 0).
Proof.
  assert (Htick : pwm_tick idle_high_state = true) by reflexivity.
  split; [exact Htick|].
  destruct (soft_pwm_outputs (board := example_board) 0 idle_high_state)
    as [Hon _].
  - cbn. lia.
  - cbn. lia.
  - destruct (Hon Htick) as [Hout _]. exact Hout.
Defined.

End ThermalProperties.

(** * Further properties of the planner *)

Module PlannerExtras.
Import MachineInt Planner PlannerExamples PlannerSetup PlannerViews.
Import PlannerProperties.

Section RingCounts.
Context {cfg : PlannerConfig}.

(** X1.  On a ring whose capacity is a power of two (at most 256) and
    whose indices are in range, [movesplanned] is the distance from
    tail to head modulo the capacity and lies between 0 and the
    capacity less one; the ring holds no block exactly when it is 0,
    and the ring is full exactly when it is the capacity less one: one
    slot always stays unused. *)
Theorem ring_occupancy (p : state) (k : Z) :
  BLOCK_BUFFER_SIZE = 2 ^ k -> 0 <= k <= 8 ->
  0 <= block_buffer_head p < BLOCK_BUFFER_SIZE ->
  0 <= block_buffer_tail p < BLOCK_BUFFER_SIZE ->
  movesplanned p
  = (block_buffer_head p - block_buffer_tail p) mod BLOCK_BUFFER_SIZE /\
  0 <= movesplanned p <= BLOCK_BUFFER_SIZE - 1 /\
  (blocks_queued p = false <-> movesplanned p = 0) /\
  (is_full p = true <-> movesplanned p = BLOCK_BUFFER_SIZE - 1).
Proof.
  intros Hsize Hk Hh Ht.
  pose proof (ring_size_bounds k Hsize Hk) as Hb.
  destruct (ring_count p k Hsize Hk Hh Ht) as (Hm & Hq).
  pose proof (Z.mod_pos_bound
                (block_buffer_head p - block_buffer_tail p)
                BLOCK_BUFFER_SIZE (proj1 Hb)) as Hr.
  split; [exact Hm|]. split; [lia|]. split; [exact Hq|].
  unfold is_full. rewrite Z.eqb_eq, Hm.
  rewrite (BLOCK_MOD_mod k) by (assumption || lia). split.
  - intros Heq.
    destruct (Z.eq_dec (block_buffer_head p + 1) BLOCK_BUFFER_SIZE)
      as [E|E].
    + rewrite E, Z.mod_same in Heq by lia.
      rewrite Heq. rewrite Z.mod_small by lia. lia.
    + rewrite Z.mod_small in Heq by lia.
      rewrite <- (Z.mod_add _ 1) by lia.
      rewrite Z.mod_small by lia. lia.
  - intros Hfull.
    destruct (Z.le_gt_cases (block_buffer_tail p) (block_buffer_head p)).
    + rewrite Z.mod_small in Hfull by lia.
      assert (block_buffer_head p + 1 = BLOCK_BUFFER_SIZE) as -> by lia.
      rewrite Z.mod_same by lia. lia.
    + rewrite <- (Z.mod_add _ 1) in Hfull by lia.
      rewrite Z.mod_small in Hfull by lia.
      rewrite Z.mod_small by lia. lia.
Qed.

(** X2.  On a ring whose capacity is a power of two of at most 128,
    for an index in range, [next_block_index] and [prev_block_index]
    are the successor and the predecessor modulo the capacity, they
    stay in range, and each undoes the other. *)
Theorem block_index_round_trip (i k : Z) :
  BLOCK_BUFFER_SIZE = 2 ^ k -> 0 <= k <= 7 ->
  0 <= i < BLOCK_BUFFER_SIZE ->
  next_block_index i = (i + 1) mod BLOCK_BUFFER_SIZE /\
  prev_block_index i = (i - 1) mod BLOCK_BUFFER_SIZE /\
  0 <= next_block_index i < BLOCK_BUFFER_SIZE /\
  0 <= prev_block_index i < BLOCK_BUFFER_SIZE /\
  prev_block_index (next_block_index i) = i /\
  next_block_index (prev_block_index i) = i.
Proof.
  intros Hsize Hk Hi.
  assert (Hb : 0 < BLOCK_BUFFER_SIZE).
  { rewrite Hsize. apply Z.pow_pos_nonneg; lia. }
  pose proof (Z.mod_pos_bound (i + 1) BLOCK_BUFFER_SIZE Hb) as Hnr.
  pose proof (Z.mod_pos_bound (i - 1) BLOCK_BUFFER_SIZE Hb) as Hpr.
  destruct (block_index_mod i k Hsize Hk Hi) as (Hn & Hp).
  rewrite Hn, Hp.
  split; [reflexivity|]. split; [reflexivity|].
  split; [exact Hnr|]. split; [exact Hpr|]. split.
  - rewrite (proj2 (block_index_mod _ k Hsize Hk Hnr)).
    rewrite Zminus_mod_idemp_l.
    replace (i + 1 - 1) with i by lia. apply Z.mod_small. lia.
  - rewrite (proj1 (block_index_mod _ k Hsize Hk Hpr)).
    rewrite Zplus_mod_idemp_l.
    replace (i - 1 + 1) with i by lia. apply Z.mod_small. lia.
Qed.

(** X3.  On a ring whose capacity is a power of two (at most 256) and
    whose indices are in range, [discard_current_block] on a ring
    that holds a move lowers [movesplanned] by exactly one, leaves the
    tail index in range, and changes neither the head index nor any
    slot. *)
Theorem discard_current_block_counts (p : state) (k : Z) :
  BLOCK_BUFFER_SIZE = 2 ^ k -> 0 <= k <= 8 ->
  0 <= block_buffer_head p < BLOCK_BUFFER_SIZE ->
  0 <= block_buffer_tail p < BLOCK_BUFFER_SIZE ->
  0 < movesplanned p ->
  movesplanned (discard_current_block p) = movesplanned p - 1 /\
  0 <= block_buffer_tail (discard_current_block p) < BLOCK_BUFFER_SIZE /\
  block_buffer_head (discard_current_block p) = block_buffer_head p /\
  block_buffer (discard_current_block p) = block_buffer p.
Proof.
  intros Hsize Hk Hh Ht Hpos.
  pose proof (ring_size_bounds k Hsize Hk) as Hb.
  destruct (ring_count p k Hsize Hk Hh Ht) as (Hm & Hq).
  unfold discard_current_block.
  assert (Hbq : blocks_queued p = true).
  { apply not_false_is_true. intros E. apply Hq in E. lia. }
  rewrite Hbq.
  rewrite (uint8_BLOCK_MOD k) by assumption.
  pose proof (Z.mod_pos_bound (block_buffer_tail p + 1) BLOCK_BUFFER_SIZE
                              (proj1 Hb)) as Hr.
  unfold with_tail. cbn [block_buffer_tail block_buffer_head block_buffer].
  split; [|split; [exact Hr|split; reflexivity]].
  destruct (ring_count
              (PlannerState (block_buffer p) (block_buffer_head p)
                            ((block_buffer_tail p + 1) mod BLOCK_BUFFER_SIZE)
                            (position p) (previous_speed p)
                            (previous_nominal_speed p)
                            (previous_safe_speed p))
              k Hsize Hk Hh Hr) as (Hm' & _).
  cbn [block_buffer_head block_buffer_tail] in Hm'.
  rewrite Hm', Hm in *.
  rewrite Zminus_mod_idemp_r.
  replace (block_buffer_head p - (block_buffer_tail p + 1))
    with ((block_buffer_head p - block_buffer_tail p) - 1) by lia.
  rewrite <- Zminus_mod_idemp_l.
  apply Z.mod_small.
  pose proof (Z.mod_pos_bound (block_buffer_head p - block_buffer_tail p)
                              BLOCK_BUFFER_SIZE (proj1 Hb)).
  lia.
Qed.

End RingCounts.

Section Replanning.
Context {cfg : PlannerConfig}.

Ltac step_ok H x Hx :=
  apply rbind_Ok in H; destruct H as [x [Hx H]]; apply cast_Ok in Hx.

Lemma Ok_inj {A : Type} (a b : A) : @Ok A a = Ok b -> a = b.
Proof. intros H. injection H as ->. reflexivity. Qed.

Lemma block_at_store_spec (p : state) (c i : Z) (b : block_t) :
  (block_at (store_block c b p) i = b /\ block_at p i = block_at p c)
  \/ block_at (store_block c b p) i = block_at p i.
Proof.
  unfold block_at, store_block, with_block_buffer. cbn [block_buffer].
  destruct (decide (Z.to_nat i = Z.to_nat c)) as [E|E].
  - destruct (decide (Z.to_nat c < length (block_buffer p))%nat) as [L|L].
    + left. rewrite E, list_lookup_insert_eq by assumption. split; reflexivity.
    + right. rewrite list_insert_ge by lia. reflexivity.
  - right.
    rewrite list_lookup_insert_ne
      by (intros F; apply E; symmetry; exact F).
    reflexivity.
Qed.

Lemma block_at_store_self (p : state) (c : Z) (b : block_t) :
  block_at (store_block c b p) c = b
  \/ block_at (store_block c b p) c = block_zero.
Proof.
  unfold block_at, store_block, with_block_buffer. cbn [block_buffer].
  destruct (decide (Z.to_nat c < length (block_buffer p))%nat) as [L|L].
  - left. rewrite list_lookup_insert_eq by assumption. reflexivity.
  - right. rewrite list_insert_ge by lia.
    rewrite lookup_ge_None_2 by lia. reflexivity.
Qed.

Lemma TEST_CBI_other (v b n : Z) :
  0 <= b -> n <> b -> TEST (CBI v b) n = TEST v n.
Proof.
  intros Hb Hn. unfold TEST, CBI, _BV. rewrite Z.ldiff_spec.
  destruct (Z.neg_nonneg_cases n) as [Hneg|Hpos].
  - rewrite !Z.testbit_neg_r by assumption. reflexivity.
  - rewrite Z.shiftl_spec by assumption.
    destruct (Z.lt_trichotomy n b) as [L|[L|L]]; [|lia|].
    + rewrite (Z.testbit_neg_r 1) by lia. apply andb_true_r.
    + replace (Z.testbit 1 (n - b)) with false; [apply andb_true_r|].
      destruct (n - b) eqn:E; try lia. reflexivity.
Qed.

Lemma TEST_CBI_same (v b : Z) : 0 <= b -> TEST (CBI v b) b = false.
Proof.
  intros Hb. unfold TEST, CBI, _BV. rewrite Z.ldiff_spec.
  rewrite Z.shiftl_spec, Z.sub_diag by assumption. apply andb_false_r.
Qed.

Lemma replanned_refl (b : block_t) : replanned b b.
Proof. repeat split. Qed.

Lemma replanned_trans (b1 b2 b3 : block_t) :
  replanned b1 b2 -> replanned b2 b3 -> replanned b1 b3.
Proof.
  intros (G1 & F1 & S1) (G2 & F2 & S2). split; [|split].
  - congruence.
  - intros n Hn. rewrite F2, F1 by assumption. reflexivity.
  - intros Hbusy. rewrite S2, S1; try assumption; [reflexivity|].
    rewrite F1 by discriminate. exact Hbusy.
Qed.

Lemma plan_kept_refl (p : state) : plan_kept p p.
Proof. repeat split. Qed.

Lemma plan_kept_trans (p1 p2 p3 : state) :
  plan_kept p1 p2 -> plan_kept p2 p3 -> plan_kept p1 p3.
Proof.
  intros (A1 & B1 & C1 & D1 & E1 & F1 & L1 & R1)
         (A2 & B2 & C2 & D2 & E2 & F2 & L2 & R2).
  repeat split; try congruence.
  all: destruct (replanned_trans _ _ _ (R1 i) (R2 i)) as (G & F & S);
    assumption.
Qed.

Lemma plan_kept_store (p : state) (c : Z) (b' : block_t) :
  replanned (block_at p c) b' -> plan_kept p (store_block c b' p).
Proof.
  intros Hr. unfold plan_kept.
  unfold store_block at 1 2 3 4 5 6 7, with_block_buffer.
  cbn [block_buffer_head block_buffer_tail position previous_speed
       previous_nominal_speed previous_safe_speed block_buffer].
  rewrite length_insert.
  repeat (split; [reflexivity|]).
  intros i. destruct (block_at_store_spec p c i b') as [[-> ->]| ->].
  - exact Hr.
  - apply replanned_refl.
Qed.

Lemma replanned_entry_flag (b : block_t) (e : float) :
  replanned b (with_flag (SBI (flag (with_entry_speed e b))
                              BLOCK_BIT_RECALCULATE)
                         (with_entry_speed e b)).
Proof.
  split; [reflexivity|]. split.
  - intros n Hn. cbn [with_flag with_entry_speed flag].
    apply TEST_SBI_other; [discriminate|assumption].
  - intros _. reflexivity.
Qed.

Lemma reverse_pass_loop_S (fuel : nat) (endnr blocknr : Z) (p : state) :
  reverse_pass_loop (S fuel) endnr blocknr p
  = let current := uint8 (prev_block_index blocknr) in
    if TEST (flag (block_at p current)) BLOCK_BIT_START_FROM_FULL_HALT
    then Ok p
    else if negb (current =? endnr)
         then reverse_pass_loop
                fuel endnr current
                (reverse_pass_kernel p (Some current) (Some blocknr))
         else Ok (reverse_pass_kernel p (Some current) (Some blocknr)).
Proof. reflexivity. Qed.

Lemma forward_pass_loop_S (fuel : nat) (b : Z) (block1 block2 : option Z)
      (p : state) :
  forward_pass_loop (S fuel) b block1 block2 p
  = if negb (b =? block_buffer_head p)
    then forward_pass_loop fuel (uint8 (next_block_index b)) block2 (Some b)
                           (forward_pass_kernel p block1 block2)
    else Ok (p, block1, block2).
Proof. reflexivity. Qed.

Lemma recalculate_trapezoids_loop_S (fuel : nat) (block_index : Z)
      (next : option Z) (p : state) :
  recalculate_trapezoids_loop (S fuel) block_index next p
  = if negb (block_index =? block_buffer_head p) then
      rbind
        match next with
        | Some c =>
            if TEST (flag (block_at p c)) BLOCK_BIT_RECALCULATE
               || TEST (flag (block_at p block_index)) BLOCK_BIT_RECALCULATE
            then
              rbind (calculate_trapezoid_for_block
                       (block_at p c) (entry_speed (block_at p c))
                       (entry_speed (block_at p block_index)))
                    (fun cur1 =>
                       Ok (store_block c
                             (with_flag
                                (CBI (flag cur1) BLOCK_BIT_RECALCULATE)
                                cur1) p))
            else Ok p
        | None => Ok p
        end
        (fun p' =>
           recalculate_trapezoids_loop
             fuel (uint8 (next_block_index block_index))
             (Some block_index) p')
    else Ok (p, next).
Proof. reflexivity. Qed.

Lemma reverse_pass_kernel_kept (p : state) (current next : option Z) :
  plan_kept p (reverse_pass_kernel p current next).
Proof.
  unfold reverse_pass_kernel.
  destruct current as [c|], next as [n|]; try apply plan_kept_refl.
  destruct (F32.neb _ _); [|apply plan_kept_refl].
  apply plan_kept_store, replanned_entry_flag.
Qed.

Lemma forward_pass_kernel_kept (p : state) (previous current : option Z) :
  plan_kept p (forward_pass_kernel p previous current).
Proof.
  unfold forward_pass_kernel.
  destruct previous as [pr|], current as [c|]; try apply plan_kept_refl.
  destruct (negb _); [|apply plan_kept_refl].
  destruct (F32.ltb _ _); [|apply plan_kept_refl].
  destruct (F32.neb _ _); [|apply plan_kept_refl].
  apply plan_kept_store, replanned_entry_flag.
Qed.

Lemma reverse_pass_loop_kept (fuel : nat) :
  forall (endnr blocknr : Z) (p p' : state),
    reverse_pass_loop fuel endnr blocknr p = Ok p' -> plan_kept p p'.
Proof.
  induction fuel as [|fuel IH]; intros endnr blocknr p p' H; [discriminate H|].
  rewrite reverse_pass_loop_S in H. cbv zeta in H.
  destruct (TEST _ BLOCK_BIT_START_FROM_FULL_HALT).
  - injection H as <-. apply plan_kept_refl.
  - destruct (negb _).
    + eapply plan_kept_trans; [apply reverse_pass_kernel_kept|].
      eapply IH. exact H.
    + apply Ok_inj in H. subst p'. apply reverse_pass_kernel_kept.
Qed.

Lemma reverse_pass_kept (p p' : state) :
  reverse_pass p = Ok p' -> plan_kept p p'.
Proof.
  unfold reverse_pass. destruct (3 <? movesplanned p).
  - apply reverse_pass_loop_kept.
  - intros H. injection H as <-. apply plan_kept_refl.
Qed.

Lemma forward_pass_loop_kept (fuel : nat) :
  forall (b : Z) (b1 b2 : option Z) (p p' : state) (r1 r2 : option Z),
    forward_pass_loop fuel b b1 b2 p = Ok (p', r1, r2) -> plan_kept p p'.
Proof.
  induction fuel as [|fuel IH]; intros b b1 b2 p p' r1 r2 H; [discriminate H|].
  rewrite forward_pass_loop_S in H.
  destruct (negb _).
  - eapply plan_kept_trans; [apply forward_pass_kernel_kept|].
    eapply IH. exact H.
  - injection H as <- <- <-. apply plan_kept_refl.
Qed.

Lemma forward_pass_kept (p p' : state) :
  forward_pass p = Ok p' -> plan_kept p p'.
Proof.
  unfold forward_pass. intros H.
  apply rbind_Ok in H. destruct H as [[[p1 b1] b2] [Hl H]].
  apply Ok_inj in H. subst p'.
  eapply plan_kept_trans; [eapply forward_pass_loop_kept; exact Hl|].
  apply forward_pass_kernel_kept.
Qed.

Lemma commit_trapezoid_replanned (b b' : block_t) (t : trapezoid) :
  commit_trapezoid b t = Ok b' ->
  replanned b b' /\ flag b' = flag b /\ entry_speed b' = entry_speed b.
Proof.
  unfold commit_trapezoid. destruct (TEST (flag b) BLOCK_BIT_BUSY) eqn:Hbusy;
    cbn [negb].
  - intros H. injection H as <-. repeat split.
  - intros H. apply rbind_Ok in H. destruct H as [rate [_ H]].
    injection H as <-. split; [|split; reflexivity].
    split; [reflexivity|]. split; [reflexivity|].
    intros Hb. congruence.
Qed.

Lemma calculate_trapezoid_replanned (b b' : block_t) (e x : float) :
  calculate_trapezoid_for_block b e x = Ok b' ->
  replanned b b' /\ flag b' = flag b /\ entry_speed b' = entry_speed b.
Proof.
  unfold calculate_trapezoid_for_block. intros H.
  apply rbind_Ok in H. destruct H as [t [_ H]].
  exact (commit_trapezoid_replanned _ _ _ H).
Qed.

Lemma replanned_cleared (b b' : block_t) :
  replanned b b' ->
  replanned b (with_flag (CBI (flag b') BLOCK_BIT_RECALCULATE) b').
Proof.
  intros (G & F & S). split; [exact G|]. split.
  - intros n Hn. cbn [with_flag flag].
    rewrite TEST_CBI_other by (discriminate || assumption). auto.
  - intros Hb. rewrite <- (S Hb). reflexivity.
Qed.

(** One block recalculated and its flag cleared. *)
Lemma recalculated_store (p p' : state) (c : Z) (e x : float) (b1 : block_t) :
  calculate_trapezoid_for_block (block_at p c) e x = Ok b1 ->
  p' = store_block c (with_flag (CBI (flag b1) BLOCK_BIT_RECALCULATE) b1) p ->
  plan_kept p p' /\
  TEST (flag (block_at p' c)) BLOCK_BIT_RECALCULATE = false /\
  (forall i, TEST (flag (block_at p i)) BLOCK_BIT_RECALCULATE = false ->
             TEST (flag (block_at p' i)) BLOCK_BIT_RECALCULATE = false).
Proof.
  intros Hc ->. destruct (calculate_trapezoid_replanned _ _ _ _ Hc)
    as (Hr & Hf & _).
  split; [apply plan_kept_store, replanned_cleared, Hr|]. split.
  - destruct (block_at_store_self
                p c (with_flag (CBI (flag b1) BLOCK_BIT_RECALCULATE) b1))
      as [-> | ->]; [|reflexivity].
    cbn [with_flag flag]. apply TEST_CBI_same. discriminate.
  - intros i Hi.
    destruct (block_at_store_spec
                p c i (with_flag (CBI (flag b1) BLOCK_BIT_RECALCULATE) b1))
      as [[-> _]| ->]; [|exact Hi].
    cbn [with_flag flag]. apply TEST_CBI_same. discriminate.
Qed.

(** One iteration of the loop of [recalculate_trapezoids]. *)
Lemma recalculate_trapezoids_loop_step (fuel : nat) (bi : Z)
      (next : option Z) (p p' : state) (nx : option Z) :
  recalculate_trapezoids_loop (S fuel) bi next p = Ok (p', nx) ->
  bi <> block_buffer_head p ->
  exists p1,
    recalculate_trapezoids_loop fuel (uint8 (next_block_index bi))
                                (Some bi) p1 = Ok (p', nx) /\
    plan_kept p p1 /\
    (forall c, next = Some c -> recalc_flag p1 c = false) /\
    (forall i, recalc_flag p i = false -> recalc_flag p1 i = false).
Proof.
  intros H Hne.
  rewrite recalculate_trapezoids_loop_S in H.
  apply Z.eqb_neq in Hne. rewrite Hne in H. cbn [negb] in H.
  apply rbind_Ok in H. destruct H as [p1 [Hstep H]].
  exists p1. split; [exact H|].
  destruct next as [c|].
  - destruct (TEST (flag (block_at p c)) BLOCK_BIT_RECALCULATE
              || TEST (flag (block_at p bi)) BLOCK_BIT_RECALCULATE) eqn:Hf.
    + apply rbind_Ok in Hstep. destruct Hstep as [b1 [Hc Hstep]].
      apply Ok_inj in Hstep. symmetry in Hstep. rename Hstep into Hp1.
      destruct (recalculated_store _ _ _ _ _ _ Hc Hp1) as (Hk & Hclr & Hmono).
      split; [exact Hk|]. split; [|exact Hmono].
      intros c' Hc'. injection Hc' as <-. exact Hclr.
    + injection Hstep as <-. split; [apply plan_kept_refl|].
      split; [|auto].
      intros c' Hc'. injection Hc' as <-.
      apply orb_false_iff in Hf. apply Hf.
  - injection Hstep as <-. split; [apply plan_kept_refl|].
    split; [discriminate|auto].
Qed.

Lemma recalculate_trapezoids_loop_kept (fuel : nat) :
  forall (bi : Z) (next : option Z) (p p' : state) (nx : option Z),
    recalculate_trapezoids_loop fuel bi next p = Ok (p', nx) ->
    plan_kept p p' /\
    (forall i, recalc_flag p i = false -> recalc_flag p' i = false).
Proof.
  induction fuel as [|fuel IH]; intros bi next p p' nx H; [discriminate H|].
  destruct (Z.eq_dec bi (block_buffer_head p)) as [E|E].
  - rewrite recalculate_trapezoids_loop_S in H.
    apply Z.eqb_eq in E. rewrite E in H. cbn [negb] in H.
    injection H as <- <-. split; [apply plan_kept_refl|auto].
  - destruct (recalculate_trapezoids_loop_step _ _ _ _ _ _ H E)
      as (p1 & Hl & Hk & _ & Hm).
    destruct (IH _ _ _ _ _ Hl) as (Hk' & Hm').
    split; [eapply plan_kept_trans; eassumption|auto].
Qed.

End Replanning.

Section RingWalk.
Context {cfg : PlannerConfig}.

Lemma ring_distance (h b S : Z) :
  0 <= h < S -> 0 <= b < S ->
  (h - b) mod S = if b <=? h then h - b else h - b + S.
Proof.
  intros Hh Hb. destruct (Z.leb_spec b h).
  - apply Z.mod_small. lia.
  - transitivity ((h - b + S + (-1) * S) mod S); [f_equal; lia|].
    rewrite Z.mod_add by lia. apply Z.mod_small. lia.
Qed.

Lemma ring_succ (x S : Z) :
  0 <= x < S -> (x + 1) mod S = if x + 1 =? S then 0 else x + 1.
Proof.
  intros Hx. destruct (Z.eqb_spec (x + 1) S) as [E|E].
  - rewrite E. apply Z.mod_same. lia.
  - apply Z.mod_small. lia.
Qed.

Lemma ring_pred (x S : Z) :
  0 <= x < S -> (x - 1) mod S = if x =? 0 then S - 1 else x - 1.
Proof.
  intros Hx. destruct (Z.eqb_spec x 0) as [E|E].
  - rewrite E. transitivity ((S - 1 + (-1) * S) mod S); [f_equal; lia|].
    rewrite Z.mod_add by lia. apply Z.mod_small. lia.
  - apply Z.mod_small. lia.
Qed.

Lemma ring_bounds7 (k : Z) :
  BLOCK_BUFFER_SIZE = 2 ^ k -> 0 <= k <= 7 -> 0 < BLOCK_BUFFER_SIZE <= 128.
Proof.
  intros Hsize Hk. rewrite Hsize. split; [apply Z.pow_pos_nonneg; lia|].
  change 128 with (2 ^ 7). apply Z.pow_le_mono_r; lia.
Qed.

Lemma uint8_next_block_index (k i : Z) :
  BLOCK_BUFFER_SIZE = 2 ^ k -> 0 <= k <= 7 -> 0 <= i < BLOCK_BUFFER_SIZE ->
  uint8 (next_block_index i) = (i + 1) mod BLOCK_BUFFER_SIZE
  /\ next_block_index i = (i + 1) mod BLOCK_BUFFER_SIZE.
Proof.
  intros Hsize Hk Hi.
  destruct (block_index_mod i k Hsize Hk Hi) as (Hn & _).
  pose proof (ring_bounds7 k Hsize Hk) as Hb.
  pose proof (Z.mod_pos_bound (i + 1) BLOCK_BUFFER_SIZE (proj1 Hb)) as Hr.
  split; [|exact Hn]. rewrite Hn.
  unfold uint8, wrap_unsigned. apply Z.mod_small. lia.
Qed.

Lemma recalculate_trapezoids_loop_clears (fuel : nat) :
  forall (k bi : Z) (nx : option Z) (p p' : state) (nx' : option Z),
    BLOCK_BUFFER_SIZE = 2 ^ k -> 0 <= k <= 7 ->
    0 <= bi < BLOCK_BUFFER_SIZE ->
    0 <= block_buffer_head p < BLOCK_BUFFER_SIZE ->
    recalculate_trapezoids_loop fuel bi nx p = Ok (p', nx') ->
    (0 < (block_buffer_head p - bi) mod BLOCK_BUFFER_SIZE ->
     nx' = Some ((block_buffer_head p - 1) mod BLOCK_BUFFER_SIZE)) /\
    ((block_buffer_head p - bi) mod BLOCK_BUFFER_SIZE = 0 -> nx' = nx) /\
    (forall j,
        0 <= j < (block_buffer_head p - bi) mod BLOCK_BUFFER_SIZE - 1 ->
        recalc_flag p' ((bi + j) mod BLOCK_BUFFER_SIZE) = false) /\
    (forall c, nx = Some c ->
               0 < (block_buffer_head p - bi) mod BLOCK_BUFFER_SIZE ->
               recalc_flag p' c = false).
Proof.
  induction fuel as [|fuel IH];
    intros k bi nx p p' nx' Hsize Hk Hbi Hh H; [discriminate H|].
  pose proof (ring_bounds7 k Hsize Hk) as Hb.
  destruct (Z.eq_dec bi (block_buffer_head p)) as [E|E].
  - rewrite recalculate_trapezoids_loop_S in H.
    rewrite E, Z.eqb_refl in H. cbn [negb] in H.
    apply Ok_inj in H. injection H as <- <-.
    rewrite E, Z.sub_diag, Z.mod_0_l by lia.
    repeat split; intros; lia || reflexivity.
  - destruct (recalculate_trapezoids_loop_step _ _ _ _ _ _ H E)
      as (p1 & Hl & Hk1 & Hnx & Hm).
    destruct (uint8_next_block_index k bi Hsize Hk Hbi) as [Hu _].
    rewrite Hu in Hl.
    assert (Hh1 : block_buffer_head p1 = block_buffer_head p) by apply Hk1.
    pose proof (Z.mod_pos_bound (bi + 1) BLOCK_BUFFER_SIZE (proj1 Hb)) as Hr.
    assert (Hh1' : 0 <= block_buffer_head p1 < BLOCK_BUFFER_SIZE)
      by (rewrite Hh1; exact Hh).
    destruct (IH k _ _ _ _ _ Hsize Hk Hr Hh1' Hl) as (I1 & I2 & I3 & I4).
    destruct (recalculate_trapezoids_loop_kept _ _ _ _ _ _ Hl) as (_ & Hm').
    rewrite Hh1 in I1, I2, I3, I4.
    assert (Hd : (block_buffer_head p - (bi + 1) mod BLOCK_BUFFER_SIZE)
                 mod BLOCK_BUFFER_SIZE
                 = (block_buffer_head p - bi) mod BLOCK_BUFFER_SIZE - 1).
    { rewrite (ring_distance _ _ _ Hh Hr), (ring_distance _ _ _ Hh Hbi).
      rewrite (ring_succ _ _ Hbi).
      destruct (Z.eqb_spec (bi + 1) BLOCK_BUFFER_SIZE);
        destruct (Z.leb_spec bi (block_buffer_head p));
        repeat match goal with
               | |- context [?a <=? ?b] => destruct (Z.leb_spec a b)
               end; lia. }
    rewrite Hd in I1, I2, I3, I4.
    assert (Hpos : 0 < (block_buffer_head p - bi) mod BLOCK_BUFFER_SIZE).
    { rewrite (ring_distance _ _ _ Hh Hbi).
      destruct (Z.leb_spec bi (block_buffer_head p)); lia. }
    split; [|split; [|split]].
    + intros _.
      destruct (Z.eq_dec ((block_buffer_head p - bi) mod BLOCK_BUFFER_SIZE) 1)
        as [D|D].
      * rewrite I2 by lia. f_equal.
        rewrite (ring_distance _ _ _ Hh Hbi) in D.
        rewrite (ring_pred _ _ Hh).
        destruct (Z.leb_spec bi (block_buffer_head p));
          destruct (Z.eqb_spec (block_buffer_head p) 0); lia.
      * apply I1. lia.
    + intros D. lia.
    + intros j Hj. destruct (Z.eq_dec j 0) as [-> | Hj0].
      * rewrite Z.add_0_r, Z.mod_small by lia.
        apply (I4 bi); [reflexivity|lia].
      * replace ((bi + j) mod BLOCK_BUFFER_SIZE)
          with (((bi + 1) mod BLOCK_BUFFER_SIZE + (j - 1))
                  mod BLOCK_BUFFER_SIZE).
        -- apply I3. lia.
        -- rewrite Zplus_mod_idemp_l. f_equal. lia.
    + intros c Hc _. apply Hm', (Hnx c Hc).
Qed.

End RingWalk.

Section Replanned.
Context {cfg : PlannerConfig}.

Lemma ring_bounds8 (k : Z) : 0 <= k <= 7 -> 0 <= k <= 8.
Proof. lia. Qed.

Lemma recalculate_trapezoids_unfold (p p' : state) :
  recalculate_trapezoids p = Ok p' ->
  exists p1 nx,
    recalculate_trapezoids_loop ring_fuel (block_buffer_tail p) None p
    = Ok (p1, nx) /\
    match nx with
    | Some n =>
        exists b1,
          calculate_trapezoid_for_block
            (block_at p1 n) (entry_speed (block_at p1 n)) F32.zero = Ok b1 /\
          p' = store_block n
                 (with_flag (CBI (flag b1) BLOCK_BIT_RECALCULATE) b1) p1
    | None => p' = p1
    end.
Proof.
  unfold recalculate_trapezoids. intros H.
  apply rbind_Ok in H. destruct H as [[p1 nx] [Hl H]].
  exists p1, nx. split; [exact Hl|].
  destruct nx as [n|].
  - apply rbind_Ok in H. destruct H as [b1 [Hc H]].
    apply Ok_inj in H. exists b1. split; [exact Hc|]. symmetry. exact H.
  - apply Ok_inj in H. symmetry. exact H.
Qed.

Lemma recalculate_trapezoids_kept (p p' : state) :
  recalculate_trapezoids p = Ok p' -> plan_kept p p'.
Proof.
  intros H. destruct (recalculate_trapezoids_unfold _ _ H)
    as (p1 & nx & Hl & Hfin).
  destruct (recalculate_trapezoids_loop_kept _ _ _ _ _ _ Hl) as (Hk & _).
  destruct nx as [n|].
  - destruct Hfin as (b1 & Hc & Hp').
    destruct (recalculated_store _ _ _ _ _ _ Hc Hp') as (Hk' & _).
    eapply plan_kept_trans; eassumption.
  - subst p'. exact Hk.
Qed.

Lemma recalculate_kept (p p' : state) :
  recalculate p = Ok p' -> plan_kept p p'.
Proof.
  unfold recalculate. intros H.
  apply rbind_Ok in H. destruct H as [p1 [H1 H]].
  apply rbind_Ok in H. destruct H as [p2 [H2 H]].
  eapply plan_kept_trans; [exact (reverse_pass_kept _ _ H1)|].
  eapply plan_kept_trans; [exact (forward_pass_kept _ _ H2)|].
  exact (recalculate_trapezoids_kept _ _ H).
Qed.

(** X5.  Replanning ([recalculate]: reverse pass, forward pass and
    trapezoid recalculation), when it returns, changes neither the head
    nor the tail index, nor the planner position, nor the previous
    speeds, nor the number of slots.  In every slot it keeps what the
    block builder wrote (steps, step count, direction bits, nominal
    speed and rate, maximal entry speed, length, acceleration, fan
    speeds, segment time) and every flag bit other than RECALCULATE,
    and it leaves the rates and step indices of a block that is BUSY
    as they were. *)
Theorem recalculate_keeps_plan (p p' : state) :
  recalculate p = Ok p' ->
  block_buffer_head p' = block_buffer_head p /\
  block_buffer_tail p' = block_buffer_tail p /\
  position p' = position p /\
  previous_speed p' = previous_speed p /\
  previous_nominal_speed p' = previous_nominal_speed p /\
  previous_safe_speed p' = previous_safe_speed p /\
  length (block_buffer p') = length (block_buffer p) /\
  forall i : Z,
    geometry (block_at p' i) = geometry (block_at p i) /\
    (forall n : Z, n <> BLOCK_BIT_RECALCULATE ->
                   TEST (flag (block_at p' i)) n
                   = TEST (flag (block_at p i)) n) /\
    (TEST (flag (block_at p i)) BLOCK_BIT_BUSY = true ->
     stepper_profile (block_at p' i) = stepper_profile (block_at p i)).
Proof.
  intros H. change (plan_kept p p'). unfold recalculate in H.
  apply rbind_Ok in H. destruct H as [p1 [H1 H]].
  apply rbind_Ok in H. destruct H as [p2 [H2 H]].
  pose proof (reverse_pass_kept _ _ H1) as K1.
  pose proof (forward_pass_kept _ _ H2) as K2.
  pose proof (recalculate_trapezoids_kept _ _ H) as K3.
  exact (plan_kept_trans _ _ _ K1 (plan_kept_trans _ _ _ K2 K3)).
Qed.

Lemma recalculate_trapezoids_clears_flags (p p' : state) (k : Z) :
  BLOCK_BUFFER_SIZE = 2 ^ k -> 0 <= k <= 7 ->
  0 <= block_buffer_head p < BLOCK_BUFFER_SIZE ->
  0 <= block_buffer_tail p < BLOCK_BUFFER_SIZE ->
  recalculate_trapezoids p = Ok p' ->
  forall j : Z,
    0 <= j < movesplanned p ->
    recalc_flag p' ((block_buffer_tail p + j) mod BLOCK_BUFFER_SIZE) = false.
Proof.
  intros Hsize Hk Hh Ht H j Hj.
  pose proof (ring_bounds7 k Hsize Hk) as Hb.
  destruct (ring_count p k Hsize (ring_bounds8 k Hk) Hh Ht) as (Hm & _).
  rewrite Hm in Hj.
  destruct (recalculate_trapezoids_unfold _ _ H) as (p1 & nx & Hl & Hfin).
  destruct (recalculate_trapezoids_loop_clears
              _ k _ _ _ _ _ Hsize Hk Ht Hh Hl) as (I1 & _ & I3 & _).
  assert (Hpos : 0 < (block_buffer_head p - block_buffer_tail p)
                     mod BLOCK_BUFFER_SIZE)
    by exact (Z.le_lt_trans _ _ _ (proj1 Hj) (proj2 Hj)).
  rewrite (I1 Hpos) in Hfin.
  destruct Hfin as (b1 & Hc & Hp').
  destruct (recalculated_store _ _ _ _ _ _ Hc Hp') as (_ & Hclr & Hmono).
  destruct (Z.eq_dec j ((block_buffer_head p - block_buffer_tail p)
                          mod BLOCK_BUFFER_SIZE - 1)) as [E|E].
  - replace ((block_buffer_tail p + j) mod BLOCK_BUFFER_SIZE)
      with ((block_buffer_head p - 1) mod BLOCK_BUFFER_SIZE);
      [exact Hclr|].
    pose proof (ring_distance _ _ _ Hh Ht) as Hd.
    destruct (Z.leb_spec (block_buffer_tail p) (block_buffer_head p)).
    + f_equal. lia.
    + replace (block_buffer_tail p + j)
        with (block_buffer_head p - 1 + 1 * BLOCK_BUFFER_SIZE) by lia.
      rewrite Z.mod_add by lia. reflexivity.
  - apply Hmono, I3. lia.
Qed.

(** After replanning no queued block waits for recalculation. *)
Lemma recalculate_clears (p p' : state) (k : Z) :
  BLOCK_BUFFER_SIZE = 2 ^ k -> 0 <= k <= 7 ->
  0 <= block_buffer_head p < BLOCK_BUFFER_SIZE ->
  0 <= block_buffer_tail p < BLOCK_BUFFER_SIZE ->
  recalculate p = Ok p' ->
  forall j : Z,
    0 <= j < movesplanned p ->
    TEST (flag (block_at p' ((block_buffer_tail p + j)
                               mod BLOCK_BUFFER_SIZE)))
         BLOCK_BIT_RECALCULATE = false.
Proof.
  intros Hsize Hk Hh Ht H j Hj. unfold recalculate in H.
  apply rbind_Ok in H. destruct H as [p1 [H1 H]].
  apply rbind_Ok in H. destruct H as [p2 [H2 H]].
  pose proof (plan_kept_trans _ _ _ (reverse_pass_kept _ _ H1)
                              (forward_pass_kept _ _ H2))
    as (Kh & Kt & _).
  assert (Hmv : movesplanned p2 = movesplanned p)
    by (unfold movesplanned; rewrite Kh, Kt; reflexivity).
  rewrite <- Kt.
  apply (recalculate_trapezoids_clears_flags p2 p' k);
    try assumption; rewrite ?Kh, ?Kt, ?Hmv; assumption.
Qed.

(** Once replanned, the stepper gets the tail block. *)
Lemma replanned_available (p p' : state) (k : Z) :
  BLOCK_BUFFER_SIZE = 2 ^ k -> 0 <= k <= 7 ->
  0 <= block_buffer_head p < BLOCK_BUFFER_SIZE ->
  0 <= block_buffer_tail p < BLOCK_BUFFER_SIZE ->
  block_buffer_head p <> block_buffer_tail p ->
  recalculate p = Ok p' ->
  get_current_block p'
  = (Some (block_buffer_tail p),
     store_block (block_buffer_tail p)
                 (with_flag (SBI (flag (block_at p' (block_buffer_tail p)))
                                 BLOCK_BIT_BUSY)
                            (block_at p' (block_buffer_tail p))) p').
Proof.
  intros Hsize Hk Hh Ht Hne H.
  pose proof (ring_bounds7 k Hsize Hk) as Hb.
  destruct (recalculate_kept _ _ H) as (Kh & Kt & _).
  pose proof (recalculate_clears p p' k Hsize Hk Hh Ht H) as Hclr.
  destruct (ring_count p k Hsize (ring_bounds8 k Hk) Hh Ht) as (Hm & Hq).
  assert (Hmv : movesplanned p' = movesplanned p)
    by (unfold movesplanned; rewrite Kh, Kt; reflexivity).
  assert (Hpos : 0 < movesplanned p).
  { rewrite Hm, (ring_distance _ _ _ Hh Ht).
    destruct (Z.leb_spec (block_buffer_tail p) (block_buffer_head p)); lia. }
  assert (H0 : TEST (flag (block_at p' (block_buffer_tail p)))
                    BLOCK_BIT_RECALCULATE = false).
  { specialize (Hclr 0 ltac:(lia)).
    rewrite Z.add_0_r, Z.mod_small in Hclr by lia. exact Hclr. }
  unfold get_current_block, blocks_queued.
  rewrite Kh, Kt, Hmv.
  apply Z.eqb_neq in Hne. rewrite Hne. cbn [negb].
  rewrite H0. cbn [orb].
  destruct (1 <? movesplanned p) eqn:H1; [|reflexivity].
  apply Z.ltb_lt in H1.
  destruct (uint8_next_block_index k _ Hsize Hk Ht) as [_ Hn].
  rewrite Hn.
  specialize (Hclr 1 ltac:(lia)). rewrite Hclr. reflexivity.
Qed.

Lemma SBI_twice (v b : Z) : SBI (SBI v b) b = SBI v b.
Proof. unfold SBI. rewrite <- Z.lor_assoc, Z.lor_diag. reflexivity. Qed.

Lemma store_block_out_of_range (p : state) (i : Z) (b : block_t) :
  (length (block_buffer p) <= Z.to_nat i)%nat -> store_block i b p = p.
Proof.
  intros Hi. unfold store_block, with_block_buffer.
  rewrite list_insert_ge by exact Hi. destruct p. reflexivity.
Qed.

(** The block claimed by [get_current_block] is claimed again, with
    no further change. *)
Lemma claimed_again (p : state) :
  let t := block_buffer_tail p in
  let blk := block_at p t in
  let claimed :=
    store_block t (with_flag (SBI (flag blk) BLOCK_BIT_BUSY) blk) p in
  blocks_queued p = true ->
  TEST (flag blk) BLOCK_BIT_RECALCULATE = false ->
  (1 < movesplanned p ->
   TEST (flag (block_at p (next_block_index t))) BLOCK_BIT_RECALCULATE
   = false) ->
  get_current_block claimed = (Some t, claimed).
Proof.
  intros t blk claimed Hq H0 H1.
  destruct (decide (Z.to_nat t < length (block_buffer p))%nat) as [L|L].
  - assert (Hblk : block_at claimed t
                   = with_flag (SBI (flag blk) BLOCK_BIT_BUSY) blk).
    { apply block_at_store. exact L. }
    assert (Hflag : TEST (flag (block_at claimed t)) BLOCK_BIT_RECALCULATE
                    = false).
    { rewrite Hblk. cbn [with_flag flag].
      rewrite TEST_SBI_other by discriminate. exact H0. }
    unfold get_current_block.
    change (blocks_queued claimed) with (blocks_queued p).
    change (movesplanned claimed) with (movesplanned p).
    change (block_buffer_tail claimed) with t.
    rewrite Hq, Hflag. cbn [orb].
    assert (Hres : store_block t
                     (with_flag (SBI (flag (block_at claimed t))
                                     BLOCK_BIT_BUSY)
                                (block_at claimed t)) claimed
                   = claimed).
    { rewrite Hblk. cbn [with_flag flag]. rewrite SBI_twice.
      unfold claimed, store_block, with_block_buffer.
      cbn [block_buffer block_buffer_head block_buffer_tail position
           previous_speed previous_nominal_speed previous_safe_speed].
      rewrite list_insert_insert_eq. reflexivity. }
    rewrite Hres.
    destruct (1 <? movesplanned p) eqn:Hm; [|reflexivity].
    apply Z.ltb_lt in Hm. specialize (H1 Hm).
    destruct (block_at_store_spec
                p t (next_block_index t)
                (with_flag (SBI (flag blk) BLOCK_BIT_BUSY) blk))
      as [[E _]|E]; fold claimed in E; rewrite E.
    + cbn [with_flag flag]. rewrite TEST_SBI_other by discriminate.
      rewrite H0. reflexivity.
    + rewrite H1. reflexivity.
  - assert (Hc : claimed = p)
      by (apply store_block_out_of_range; lia).
    rewrite Hc. unfold get_current_block. fold t. fold blk.
    rewrite Hq, H0. cbn [orb].
    fold claimed. rewrite Hc.
    destruct (1 <? movesplanned p) eqn:Hm; [|reflexivity].
    apply Z.ltb_lt in Hm. rewrite (H1 Hm). reflexivity.
Qed.

(** X4.  Asking for the current block a second time, with nothing
    done in between, returns the same answer as the first time and
    leaves the state as the first call left it: the block handed out
    stays BUSY and is handed out again; a refusal is repeated. *)
Theorem get_current_block_twice (p : state) :
  get_current_block (snd (get_current_block p)) = get_current_block p.
Proof.
  destruct (get_current_block p) as [r p1] eqn:G. cbn [snd].
  assert (Hnone : p1 = p -> get_current_block p1 = (r, p1)).
  { intros ->. exact G. }
  unfold get_current_block in G.
  destruct (blocks_queued p) eqn:Hq;
    [|apply Hnone; congruence].
  destruct (TEST (flag (block_at p (block_buffer_tail p)))
                 BLOCK_BIT_RECALCULATE) eqn:H0.
  { cbn [orb] in G. destruct (1 <? movesplanned p);
      apply Hnone; congruence. }
  cbn [orb] in G.
  destruct (1 <? movesplanned p) eqn:Hm.
  - destruct (TEST (flag (block_at p (next_block_index (block_buffer_tail p))))
                   BLOCK_BIT_RECALCULATE) eqn:H1;
      [apply Hnone; congruence|].
    injection G as <- <-. apply claimed_again; auto.
  - injection G as <- <-. apply claimed_again; auto.
    intros Hlt. apply Z.ltb_lt in Hlt. congruence.
Qed.

(** X6.  When replanning returns, on a ring whose capacity is a power
    of two (at most 128) and whose indices are in range, no queued
    block (the [movesplanned] slots from the tail on) has its
    RECALCULATE flag set. *)
Theorem recalculate_clears_flags (p p' : state) (k : Z) :
  BLOCK_BUFFER_SIZE = 2 ^ k -> 0 <= k <= 7 ->
  0 <= block_buffer_head p < BLOCK_BUFFER_SIZE ->
  0 <= block_buffer_tail p < BLOCK_BUFFER_SIZE ->
  recalculate p = Ok p' ->
  forall j : Z,
    0 <= j < movesplanned p ->
    TEST (flag (block_at p' ((block_buffer_tail p + j)
                               mod BLOCK_BUFFER_SIZE)))
         BLOCK_BIT_RECALCULATE = false.
Proof.
  intros Hsize Hk Hh Ht H j Hj. unfold recalculate in H.
  apply rbind_Ok in H. destruct H as [p1 [H1 H]].
  apply rbind_Ok in H. destruct H as [p2 [H2 H]].
  pose proof (plan_kept_trans _ _ _ (reverse_pass_kept _ _ H1)
                              (forward_pass_kept _ _ H2))
    as (Kh & Kt & _).
  assert (Hmv : movesplanned p2 = movesplanned p)
    by (unfold movesplanned; rewrite Kh, Kt; reflexivity).
  rewrite <- Kt.
  apply (recalculate_trapezoids_clears_flags p2 p' k);
    try assumption; rewrite ?Kh, ?Kt, ?Hmv; assumption.
Qed.

End Replanned.

Section BlockBuilder.
Context {cfg : PlannerConfig}.

Ltac step_ok H x Hx :=
  apply rbind_Ok in H; destruct H as [x [Hx H]]; apply cast_Ok in Hx.

Lemma junction_full_halt (s : settings) (p : state) (q : Z)
      (n sf : float) (c : xyze float) :
  snd (junction s p q n sf c) = true -> fst (junction s p q n sf c) = sf.
Proof.
  unfold junction.
  destruct (_ && _); [|reflexivity].
  destruct (fold_left _ _ _) as [v_factor limited].
  destruct (_ && _); [reflexivity|].
  cbn [snd]. discriminate.
Qed.

(** What [build_block] keeps of the block it is given and which flags
    it sets. *)
Lemma build_block_shape (env : machine) (s : settings) (p : state)
      (block : block_t) (m : move) (fr_mm_s : float) (extruder : Z)
      (bl : built) :
  build_block env s p block m fr_mm_s extruder = Ok bl ->
  steps (the_block bl) = steps block /\
  step_event_count (the_block bl) = step_event_count block /\
  direction_bits (the_block bl) = direction_bits block /\
  exists full_halt nominal_length : bool,
    flag (the_block bl)
    = Z.lor (if full_halt
             then SBI (flag block) BLOCK_BIT_START_FROM_FULL_HALT
             else flag block)
            (if nominal_length
             then Z.lor BLOCK_FLAG_RECALCULATE BLOCK_FLAG_NOMINAL_LENGTH
             else BLOCK_FLAG_RECALCULATE) /\
    (full_halt = true -> max_entry_speed (the_block bl) = safe_speed bl) /\
    full_halt
    = snd (junction s p (movesplanned p) (nominal_speed (the_block bl))
                    (safe_speed bl) (current_speed bl)).
Proof.
  intros Hb. unfold build_block in Hb.
  apply rbind_Ok in Hb. destruct Hb as [inverse_mm_s [Hslow Hb]].
  step_ok Hb nominal_rate0 Hrate.
  apply rbind_Ok in Hb. destruct Hb as [[[cs ns] nr] [Hscale Hb]].
  apply rbind_Ok in Hb. destruct Hb as [accel [Haccel Hb]].
  match type of Hb with
  | context [junction ?s ?p ?q ?n ?sf ?c] =>
      destruct (junction s p q n sf c) as [vmax full_halt] eqn:Hj
  end.
  match type of Hb with
  | context [F32.leb ?a ?b] => destruct (F32.leb a b) eqn:Hnom
  end.
  all: injection Hb as <-;
    cbn [the_block steps step_event_count direction_bits flag
         max_entry_speed safe_speed current_speed nominal_speed];
    repeat (split; [reflexivity|]).
  - exists full_halt, true. rewrite Hj. cbn [snd].
    split; [reflexivity|]. split; [|reflexivity].
    intros ->.
    match type of Hj with
    | junction ?s ?p ?q ?n ?sf ?c = _ =>
        pose proof (junction_full_halt s p q n sf c) as Hfh
    end.
    rewrite Hj in Hfh. cbn [fst snd] in Hfh. apply Hfh. reflexivity.
  - exists full_halt, false. rewrite Hj. cbn [snd].
    split; [reflexivity|]. split; [|reflexivity].
    intros ->.
    match type of Hj with
    | junction ?s ?p ?q ?n ?sf ?c = _ =>
        pose proof (junction_full_halt s p q n sf c) as Hfh
    end.
    rewrite Hj in Hfh. cbn [fst snd] in Hfh. apply Hfh. reflexivity.
Qed.

(** What a successful [enqueue] did. *)
Lemma enqueue_queued (env : machine) (s : settings) (p : state)
      (a b c e fr_mm_s : float) (extruder : Z) (bl : built) (p' : state) :
  enqueue env s p a b c e fr_mm_s extruder = Ok (Queued bl p') ->
  exists (m : move) (p1 : state),
    move_steps env s p a b c e extruder = Ok (m, p1) /\
    block_buffer_tail p <> uint8 (next_block_index (block_buffer_head p)) /\
    MIN_STEPS_PER_SEGMENT
    <= step_event_count (start_block (block_at p (block_buffer_head p)) m) /\
    build_block env s p1 (start_block (block_at p (block_buffer_head p)) m)
                m fr_mm_s extruder = Ok bl /\
    p' = PlannerState
           (<[Z.to_nat (block_buffer_head p) := the_block bl]>
              (block_buffer p))
           (uint8 (next_block_index (block_buffer_head p)))
           (block_buffer_tail p) (target m) (current_speed bl)
           (nominal_speed (the_block bl)) (safe_speed bl).
Proof.
  intros He. unfold enqueue in He.
  apply rbind_Ok in He. destruct He as [[m p1] [Hm He]].
  destruct (move_steps_frame _ _ _ _ _ _ _ _ _ _ Hm)
    as (Hbuf & Hhead & Htail & _).
  exists m, p1. split; [exact Hm|].
  rewrite Hhead, Htail in He.
  destruct (Z.eqb_spec (block_buffer_tail p)
                       (uint8 (next_block_index (block_buffer_head p))))
    as [E|E]; [discriminate He|].
  split; [exact E|].
  assert (Hblk : block_at p1 (block_buffer_head p)
                 = block_at p (block_buffer_head p))
    by (unfold block_at; rewrite Hbuf; reflexivity).
  rewrite Hblk, Hbuf in He.
  destruct (Z.ltb_spec
              (step_event_count
                 (start_block (block_at p (block_buffer_head p)) m))
              MIN_STEPS_PER_SEGMENT) as [L|L]; [discriminate He|].
  split; [exact L|].
  apply rbind_Ok in He. destruct He as [bl' [Hb He]].
  apply Ok_inj in He. injection He as <- <-.
  split; [exact Hb|reflexivity].
Qed.

End BlockBuilder.

Section QueuedMoves.
Context {cfg : PlannerConfig}.

(** X8.  When [_buffer_line] queues a move on a ring whose capacity is
    a power of two (at most 128) and whose indices are in range, the
    head index advances by one modulo the capacity, the tail index
    stays, [movesplanned] grows by exactly one, the planner position
    becomes the target position of the move in steps, the previous
    speeds become those of the new block, and the slot at the old head
    holds what the block builder computed. *)
Theorem queued_move_bookkeeping (env : machine) (s : settings) (p : state)
        (a b c e fr_mm_s : float) (extruder : Z) (bl : built)
        (p1 p' : state) (k : Z) :
  BLOCK_BUFFER_SIZE = 2 ^ k -> 0 <= k <= 7 ->
  0 <= block_buffer_head p < BLOCK_BUFFER_SIZE ->
  0 <= block_buffer_tail p < BLOCK_BUFFER_SIZE ->
  enqueue env s p a b c e fr_mm_s extruder = Ok (Queued bl p1) ->
  _buffer_line env s p a b c e fr_mm_s extruder = Ok p' ->
  block_buffer_head p' = (block_buffer_head p + 1) mod BLOCK_BUFFER_SIZE /\
  block_buffer_tail p' = block_buffer_tail p /\
  movesplanned p' = movesplanned p + 1 /\
  (exists (m : move) (p0 : state),
      move_steps env s p a b c e extruder = Ok (m, p0) /\
      position p' = target m) /\
  previous_speed p' = current_speed bl /\
  previous_nominal_speed p' = nominal_speed (the_block bl) /\
  previous_safe_speed p' = safe_speed bl /\
  ((Z.to_nat (block_buffer_head p) < length (block_buffer p))%nat ->
   geometry (block_at p' (block_buffer_head p)) = geometry (the_block bl)).
Proof.
  intros Hsize Hk Hh Ht He Hl.
  pose proof (ring_bounds7 k Hsize Hk) as Hb.
  unfold _buffer_line in Hl. rewrite He in Hl. cbn [rbind] in Hl.
  destruct (recalculate_kept _ _ Hl)
    as (Kh & Kt & Kp & Ks & Kn & Kf & _ & Kb).
  destruct (enqueue_queued _ _ _ _ _ _ _ _ _ _ _ He)
    as (m & p0 & Hm & Hfree & _ & _ & Hp1).
  destruct (uint8_next_block_index k _ Hsize Hk Hh) as [Hu _].
  rewrite Hu in Hp1, Hfree.
  pose proof (Z.mod_pos_bound (block_buffer_head p + 1) BLOCK_BUFFER_SIZE
                              (proj1 Hb)) as Hr.
  assert (Hh1 : block_buffer_head p1
                = (block_buffer_head p + 1) mod BLOCK_BUFFER_SIZE)
    by (rewrite Hp1; reflexivity).
  assert (Ht1 : block_buffer_tail p1 = block_buffer_tail p)
    by (rewrite Hp1; reflexivity).
  split; [congruence|]. split; [congruence|]. split.
  - destruct (ring_count p k Hsize (ring_bounds8 k Hk) Hh Ht)
      as (Hmv & _).
    destruct (ring_count p' k Hsize (ring_bounds8 k Hk))
      as (Hmv' & _); [rewrite Kh, Hh1; exact Hr|rewrite Kt, Ht1; exact Ht|].
    rewrite Hmv', Hmv, Kh, Kt, Hh1, Ht1.
    rewrite (ring_distance _ _ _ Hr Ht), (ring_distance _ _ _ Hh Ht).
    rewrite (ring_succ _ _ Hh) in Hfree |- *.
    destruct (Z.eqb_spec (block_buffer_head p + 1) BLOCK_BUFFER_SIZE);
      repeat match goal with
             | |- context [?x <=? ?y] => destruct (Z.leb_spec x y)
             end; lia.
  - split; [exists m, p0; split; [exact Hm|rewrite Kp, Hp1; reflexivity]|].
    split; [rewrite Ks, Hp1; reflexivity|].
    split; [rewrite Kn, Hp1; reflexivity|].
    split; [rewrite Kf, Hp1; reflexivity|].
    intros Hin. destruct (Kb (block_buffer_head p)) as (G & _).
    rewrite G. f_equal. rewrite Hp1. unfold block_at. cbn [block_buffer].
    rewrite list_lookup_insert_eq by exact Hin. reflexivity.
Qed.

(** X7.  After [_buffer_line] has queued a move and returned (ring
    capacity a power of two, at most 128, indices in range), no queued
    block has its RECALCULATE flag set, and [get_current_block] hands
    out the block at the tail. *)
Theorem queued_move_is_available (env : machine) (s : settings) (p : state)
        (a b c e fr_mm_s : float) (extruder : Z) (bl : built)
        (p1 p' : state) (k : Z) :
  BLOCK_BUFFER_SIZE = 2 ^ k -> 0 <= k <= 7 ->
  0 <= block_buffer_head p < BLOCK_BUFFER_SIZE ->
  0 <= block_buffer_tail p < BLOCK_BUFFER_SIZE ->
  enqueue env s p a b c e fr_mm_s extruder = Ok (Queued bl p1) ->
  _buffer_line env s p a b c e fr_mm_s extruder = Ok p' ->
  fst (get_current_block p') = Some (block_buffer_tail p) /\
  forall j : Z,
    0 <= j < movesplanned p' ->
    TEST (flag (block_at p' ((block_buffer_tail p + j)
                               mod BLOCK_BUFFER_SIZE)))
         BLOCK_BIT_RECALCULATE = false.
Proof.
  intros Hsize Hk Hh Ht He Hl.
  pose proof (ring_bounds7 k Hsize Hk) as Hb.
  unfold _buffer_line in Hl. rewrite He in Hl. cbn [rbind] in Hl.
  destruct (enqueue_queued _ _ _ _ _ _ _ _ _ _ _ He)
    as (m & p0 & Hm & Hfree & _ & _ & Hp1).
  destruct (uint8_next_block_index k _ Hsize Hk Hh) as [Hu _].
  rewrite Hu in Hp1, Hfree.
  pose proof (Z.mod_pos_bound (block_buffer_head p + 1) BLOCK_BUFFER_SIZE
                              (proj1 Hb)) as Hr.
  assert (Hh1 : block_buffer_head p1
                = (block_buffer_head p + 1) mod BLOCK_BUFFER_SIZE)
    by (rewrite Hp1; reflexivity).
  assert (Ht1 : block_buffer_tail p1 = block_buffer_tail p)
    by (rewrite Hp1; reflexivity).
  destruct (recalculate_kept _ _ Hl) as (Kh & Kt & _).
  split.
  - rewrite (replanned_available p1 p' k); try assumption.
    + rewrite Ht1. reflexivity.
    + rewrite Hh1. exact Hr.
    + rewrite Ht1. exact Ht.
    + rewrite Hh1, Ht1. intros E. apply Hfree. symmetry. exact E.
  - intros j Hj. rewrite <- Ht1.
    apply (recalculate_clears p1 p' k); try assumption.
    + rewrite Hh1. exact Hr.
    + rewrite Ht1. exact Ht.
    + unfold movesplanned in Hj |- *. rewrite Kh, Kt in Hj. exact Hj.
Qed.

Lemma max4_bounds (a b c d : Z) :
  a <= max4 a b c d /\ b <= max4 a b c d /\ c <= max4 a b c d
  /\ d <= max4 a b c d.
Proof. unfold max4. lia. Qed.

(** X9.  A block queued by the block builder has a step event count
    that is the largest of its four per-axis step counts and at least
    [MIN_STEPS_PER_SEGMENT]; it is flagged RECALCULATE and is neither
    BUSY nor part of an arc. *)
Theorem queued_block_shape (env : machine) (s : settings) (p : state)
        (a b c e fr_mm_s : float) (extruder : Z) (bl : built) (p' : state) :
  enqueue env s p a b c e fr_mm_s extruder = Ok (Queued bl p') ->
  let blk := the_block bl in
  step_event_count blk
  = max4 (at_X (steps blk)) (at_Y (steps blk)) (at_Z (steps blk))
         (at_E (steps blk)) /\
  MIN_STEPS_PER_SEGMENT <= step_event_count blk /\
  at_X (steps blk) <= step_event_count blk /\
  at_Y (steps blk) <= step_event_count blk /\
  at_Z (steps blk) <= step_event_count blk /\
  at_E (steps blk) <= step_event_count blk /\
  TEST (flag blk) BLOCK_BIT_RECALCULATE = true /\
  TEST (flag blk) BLOCK_BIT_BUSY = false /\
  TEST (flag blk) BLOCK_BIT_ARC = false.
Proof.
  intros He blk.
  destruct (enqueue_queued _ _ _ _ _ _ _ _ _ _ _ He)
    as (m & p0 & Hm & _ & Hmin & Hb & _).
  destruct (build_block_shape _ _ _ _ _ _ _ _ Hb)
    as (Hst & Hsec & _ & fh & nl & Hfl & _).
  unfold blk. rewrite Hst, Hsec, Hfl.
  cbn [start_block steps step_event_count flag at_X at_Y at_Z at_E] in *.
  split; [reflexivity|]. split; [exact Hmin|].
  pose proof (max4_bounds (uint24 (uabs (da m))) (uint24 (uabs (db m)))
                          (uint24 (uabs (dc m))) (esteps m))
    as (B1 & B2 & B3 & B4).
  repeat (split; [assumption|]).
  destruct fh, nl; repeat split; reflexivity.
Qed.

(** The junction a queued block was built with: the planner state
    the junction speed was computed from has the queue length and the
    previous nominal speed the caller saw, and a junction that asks for
    a full halt is recorded in the block. *)
Lemma enqueue_junction (env : machine) (s : settings)
      (p : state) (a b c e fr_mm_s : float) (extruder : Z) (bl : built)
      (p' : state) :
  enqueue env s p a b c e fr_mm_s extruder = Ok (Queued bl p') ->
  exists p0 : state,
    movesplanned p0 = movesplanned p /\
    previous_nominal_speed p0 = previous_nominal_speed p /\
    (snd (junction s p0 (movesplanned p0) (nominal_speed (the_block bl))
                   (safe_speed bl) (current_speed bl)) = true ->
     TEST (flag (the_block bl)) BLOCK_BIT_START_FROM_FULL_HALT = true /\
     max_entry_speed (the_block bl) = safe_speed bl).
Proof.
  intros He.
  destruct (enqueue_queued _ _ _ _ _ _ _ _ _ _ _ He)
    as (m & p0 & Hm & _ & _ & Hb & _).
  destruct (move_steps_frame _ _ _ _ _ _ _ _ _ _ Hm)
    as (_ & Hhead & Htail & _ & Hpn & _).
  destruct (build_block_shape _ _ _ _ _ _ _ _ Hb)
    as (_ & _ & _ & fh & nl & Hfl & Hmax & Hfh).
  exists p0. split; [apply movesplanned_frame; assumption|].
  split; [exact Hpn|].
  intros Hj. rewrite Hj in Hfh. subst fh.
  split; [|apply Hmax; reflexivity].
  rewrite Hfl. cbn [start_block flag]. destruct nl; reflexivity.
Qed.

(** X10.  A move queued when at most one other move is queued, or when
    the previous nominal speed is not above 0.0001 mm/s, is flagged
    START_FROM_FULL_HALT and its maximal entry speed is the safe
    speed. *)
Theorem lone_move_starts_from_halt (env : machine) (s : settings)
        (p : state) (a b c e fr_mm_s : float) (extruder : Z) (bl : built)
        (p' : state) :
  enqueue env s p a b c e fr_mm_s extruder = Ok (Queued bl p') ->
  movesplanned p <= 1
  \/ F32.gtb (previous_nominal_speed p) (F32.of_ratio 1 10000) = false ->
  TEST (flag (the_block bl)) BLOCK_BIT_START_FROM_FULL_HALT = true /\
  max_entry_speed (the_block bl) = safe_speed bl.
Proof.
  intros He Hrest.
  destruct (enqueue_junction _ _ _ _ _ _ _ _ _ _ _ He)
    as (p0 & Hmv & Hpn & Hhalt).
  apply Hhalt. unfold junction. rewrite Hmv, Hpn.
  destruct Hrest as [Hone|Hslow].
  - apply Z.ltb_ge in Hone. rewrite Hone. reflexivity.
  - rewrite Hslow, andb_false_r. reflexivity.
Qed.

End QueuedMoves.

Section Limits.
Context {cfg : PlannerConfig}.

Ltac step_ok H x Hx :=
  apply rbind_Ok in H; destruct H as [x [Hx H]]; apply cast_Ok in Hx.

(** X11.  Where the trapezoid generator does keep the step order.  For
    a block that is not BUSY and whose step count fits its 24-bit
    field: if the plateau computed in 32-bit arithmetic is negative, or
    if the acceleration and deceleration step estimates are not
    negative and their sum is below 2^31, the committed block satisfies
    [0 <= accelerate_until <= decelerate_after <= step_event_count];
    with a negative plateau the two indices coincide. *)
Theorem trapezoid_step_order (block b' : block_t)
        (entry_speed next_entry_speed : float) (t : trapezoid) (a d : Z) :
  0 <= step_event_count block < 2 ^ 24 ->
  TEST (flag block) BLOCK_BIT_BUSY = false ->
  trapezoid_steps block entry_speed next_entry_speed = Ok t ->
  calculate_trapezoid_for_block block entry_speed next_entry_speed = Ok b' ->
  F32.ceilZ (estimate_acceleration_distance
               (F32.of_Z (t_initial_rate t))
               (F32.of_Z (nominal_rate block))
               (F32.of_Z (t_accel t))) = Some a ->
  F32.floorZ (estimate_acceleration_distance
                (F32.of_Z (nominal_rate block))
                (F32.of_Z (t_final_rate t))
                (F32.of_Z (int32 (- t_accel t)))) = Some d ->
  int32 (int32 (step_event_count block - a) - d) < 0
  \/ (0 <= a /\ 0 <= d /\ a + d < 2 ^ 31) ->
  0 <= accelerate_until b' <= decelerate_after b' /\
  decelerate_after b' <= step_event_count b' /\
  step_event_count b' = step_event_count block /\
  (int32 (int32 (step_event_count block - a) - d) < 0 ->
   decelerate_after b' = accelerate_until b').
Proof.
  intros Hsec Hbusy Ht Hc Ha Hd Hcase.
  unfold calculate_trapezoid_for_block in Hc. rewrite Ht in Hc.
  cbn [rbind] in Hc.
  destruct (commit_trapezoid_fields _ _ _ Hbusy Hc) as (_ & _ & Hau & Hda).
  assert (Hs : step_event_count b' = step_event_count block).
  { destruct (commit_trapezoid_replanned _ _ _ Hc) as ((G & _) & _).
    unfold geometry in G. congruence. }
  rewrite Hau, Hda, Hs. clear Hc Hau Hda Hs.
  unfold trapezoid_steps in Ht.
  step_ok Ht ce Hce. step_ok Ht cx Hcx.
  step_ok Ht a' Ha'. apply in_range_Some in Ha'. destruct Ha' as [Ha' Ha_r].
  step_ok Ht d' Hd'. apply in_range_Some in Hd'. destruct Hd' as [Hd' Hd_r].
  destruct (int32 (int32 (step_event_count block - a') - d') <? 0)
    eqn:Hplateau.
  - step_ok Ht ci Hci. apply in_range_Some in Hci.
    destruct Hci as [Hci Hci_r].
    injection Ht as <-.
    cbn [t_initial_rate t_final_rate t_accel t_accelerate_steps
         t_plateau_steps] in *.
    rewrite NOLESS_max.
    rewrite (uint32_small (Z.max ci 0)) by lia.
    rewrite (uint32_small (step_event_count block)) by lia.
    rewrite (int32_small (Z.min _ _)) by lia.
    rewrite Z.add_0_r.
    rewrite (int32_small (Z.min _ _)) by lia.
    rewrite (uint24_small (Z.min _ _)) by lia.
    repeat split; try lia.
  - injection Ht as <-.
    cbn [t_initial_rate t_final_rate t_accel t_accelerate_steps
         t_plateau_steps] in *.
    rewrite Ha' in Ha. injection Ha as ->.
    rewrite Hd' in Hd. injection Hd as ->.
    apply Z.ltb_ge in Hplateau.
    destruct Hcase as [Hneg|(Ha0 & Hd0 & Hsum)]; [lia|].
    rewrite (int32_small (step_event_count block - a)) in * by lia.
    rewrite (int32_small (step_event_count block - a - d)) in * by lia.
    rewrite (int32_small (a + _)) by lia.
    rewrite (uint24_small a) by lia.
    rewrite (uint24_small (a + _)) by lia.
    repeat split; lia.
Qed.

Lemma uint32_le (x : Z) : 0 <= x -> 0 <= uint32 x <= x.
Proof.
  intros Hx. unfold uint32, wrap_unsigned.
  pose proof (Z.mod_pos_bound x (2 ^ 32) ltac:(lia)).
  pose proof (Z.mod_le x (2 ^ 32) Hx ltac:(lia)). lia.
Qed.

(** One [LIMIT_ACCEL_LONG]: never more than before, and within the
    axis limit when neither product wraps. *)
Lemma LIMIT_ACCEL_LONG_bound (s : settings) (block : block_t)
      (axis : AxisEnum) (accel : Z) :
  0 <= accel ->
  0 <= axis_get (steps block) axis <= step_event_count block ->
  0 <= axis_get (max_acceleration_steps_per_s2 s) axis ->
  0 <= LIMIT_ACCEL_LONG s block axis accel <= accel /\
  (axis_get (max_acceleration_steps_per_s2 s) axis * step_event_count block
   < 2 ^ 32 ->
   accel * axis_get (steps block) axis < 2 ^ 32 ->
   LIMIT_ACCEL_LONG s block axis accel * axis_get (steps block) axis
   <= axis_get (max_acceleration_steps_per_s2 s) axis
      * step_event_count block).
Proof.
  intros Ha Hst Hmax. unfold LIMIT_ACCEL_LONG.
  set (st := axis_get (steps block) axis) in *.
  set (mx := axis_get (max_acceleration_steps_per_s2 s) axis) in *.
  set (sec := step_event_count block) in *.
  destruct (Z.eqb_spec st 0) as [E0|E0]; cbn [negb andb].
  { split; [lia|]. intros _ _. rewrite E0. nia. }
  destruct (Z.ltb_spec mx accel) as [Hlt|Hge].
  2: { split; [lia|]. intros _ _. nia. }
  pose proof (uint32_le (mx * sec) ltac:(nia)) as Hc.
  pose proof (uint32_le (accel * st) ltac:(nia)) as Hp.
  destruct (Z.ltb_spec (uint32 (mx * sec)) (uint32 (accel * st))) as [L|L].
  - split.
    + split; [apply Z.div_pos; lia|].
      apply Z.lt_le_incl, Z.div_lt_upper_bound; [lia|]. nia.
    + intros Hw1 Hw2. rewrite (uint32_small (mx * sec)) by nia.
      pose proof (Z.mul_div_le (mx * sec) st ltac:(lia)). nia.
  - split; [lia|]. intros Hw1 Hw2.
    rewrite (uint32_small (mx * sec)) in L by nia.
    rewrite (uint32_small (accel * st)) in L by nia. lia.
Qed.

(** X12.  The integer branch of the per-axis acceleration limiting
    ([LIMIT_ACCEL_LONG] applied to X, Y, Z and E in turn) never raises
    the acceleration, and when no product wraps around in 32 bits the
    result [accel] satisfies, for every axis,
    [accel * steps[axis] <= max_acceleration_steps_per_s2[axis] *
    step_event_count]: no axis is asked for more than its limit. *)
Theorem long_limit_respects_axes (s : settings) (block : block_t)
        (accel0 : Z) :
  0 <= accel0 ->
  (forall axis,
      0 <= axis_get (steps block) axis <= step_event_count block /\
      0 <= axis_get (max_acceleration_steps_per_s2 s) axis /\
      axis_get (max_acceleration_steps_per_s2 s) axis
      * step_event_count block < 2 ^ 32 /\
      accel0 * axis_get (steps block) axis < 2 ^ 32) ->
  let accel :=
    fold_left (fun accel axis => LIMIT_ACCEL_LONG s block axis accel)
              LOOP_XYZE accel0 in
  0 <= accel <= accel0 /\
  forall axis,
    accel * axis_get (steps block) axis
    <= axis_get (max_acceleration_steps_per_s2 s) axis
       * step_event_count block.
Proof.
  intros H0 Hax. cbn [fold_left LOOP_XYZE].
  destruct (Hax X_AXIS) as (SX & MX & WX & PX).
  destruct (Hax Y_AXIS) as (SY & MY & WY & PY).
  destruct (Hax Z_AXIS) as (SZ & MZ & WZ & PZ).
  destruct (Hax E_AXIS) as (SE & ME & WE & PE).
  set (a1 := LIMIT_ACCEL_LONG s block X_AXIS accel0).
  destruct (LIMIT_ACCEL_LONG_bound s block X_AXIS accel0 H0 SX MX)
    as (B1 & L1). fold a1 in B1, L1. specialize (L1 WX PX).
  set (a2 := LIMIT_ACCEL_LONG s block Y_AXIS a1).
  destruct (LIMIT_ACCEL_LONG_bound s block Y_AXIS a1 (proj1 B1) SY MY)
    as (B2 & L2). fold a2 in B2, L2.
  specialize (L2 WY ltac:(nia)).
  set (a3 := LIMIT_ACCEL_LONG s block Z_AXIS a2).
  destruct (LIMIT_ACCEL_LONG_bound s block Z_AXIS a2 (proj1 B2) SZ MZ)
    as (B3 & L3). fold a3 in B3, L3.
  specialize (L3 WZ ltac:(nia)).
  set (a4 := LIMIT_ACCEL_LONG s block E_AXIS a3).
  destruct (LIMIT_ACCEL_LONG_bound s block E_AXIS a3 (proj1 B3) SE ME)
    as (B4 & L4). fold a4 in B4, L4.
  specialize (L4 WE ltac:(nia)).
  split; [lia|].
  intros [| | |]; nia.
Qed.

End Limits.

Section Setup.
Context {cfg : PlannerConfig}.

Ltac step_ok H x Hx :=
  apply rbind_Ok in H; destruct H as [x [Hx H]]; apply cast_Ok in Hx.

Lemma to_integer_range (lo hi : Z) (x : F32.float) (z : Z) :
  F32.to_integer lo hi x = Some z -> lo <= z <= hi.
Proof.
  unfold F32.to_integer. destruct (F32.truncZ x) as [y|]; [|discriminate].
  destruct ((lo <=? y) && (y <=? hi)) eqn:Hr; [|discriminate].
  intros Hz. injection Hz as ->.
  apply andb_true_iff in Hr. destruct Hr as [Hlo Hhi].
  apply Z.leb_le in Hlo. apply Z.leb_le in Hhi. lia.
Qed.

(** X13.  After [reset_acceleration_rates], [cutoff_long] lies between
    1 and 2^32 - 1, every [max_acceleration_steps_per_s2] fits 32 bits,
    and the product of any of them with a step count of at most
    [cutoff_long] fits 32 bits; the steps per mm, the feedrate limits
    and the jerk limits are unchanged. *)
Theorem cutoff_long_prevents_overflow (mm : xyze Z) (s s' : settings) :
  reset_acceleration_rates mm s = Ok s' ->
  1 <= cutoff_long s' <= 4294967295 /\
  (forall axis (n : Z),
      0 <= axis_get (max_acceleration_steps_per_s2 s') axis < 2 ^ 32 /\
      (0 <= n <= cutoff_long s' ->
       0 <= axis_get (max_acceleration_steps_per_s2 s') axis * n
       <= 4294967295)) /\
  axis_steps_per_mm s' = axis_steps_per_mm s /\
  max_feedrate_mm_s s' = max_feedrate_mm_s s /\
  max_jerk s' = max_jerk s.
Proof.
  unfold reset_acceleration_rates. intros H.
  apply rbind_Ok in H. destruct H as [[rates highest] [Hf H]].
  apply Ok_inj in H. subst s'.
  cbn [cutoff_long max_acceleration_steps_per_s2 axis_steps_per_mm
       max_feedrate_mm_s max_jerk].
  cbn [fold_left LOOP_XYZE] in Hf.
  apply rbind_Ok in Hf. destruct Hf as [[rs3 h3] [Hf H4]].
  step_ok H4 r4 Hr4. apply Ok_inj in H4. injection H4 as <- <-.
  apply rbind_Ok in Hf. destruct Hf as [[rs2 h2] [Hf H3]].
  step_ok H3 r3 Hr3. apply Ok_inj in H3. injection H3 as <- <-.
  apply rbind_Ok in Hf. destruct Hf as [[rs1 h1] [Hf H2]].
  step_ok H2 r2 Hr2. apply Ok_inj in H2. injection H2 as <- <-.
  cbn [rbind] in Hf.
  step_ok Hf r1 Hr1. apply Ok_inj in Hf. injection Hf as <- <-.
  apply to_integer_range in Hr1, Hr2, Hr3, Hr4.
  rewrite !NOLESS_max.
  set (h := Z.max (Z.max (Z.max (Z.max 1 r1) r2) r3) r4).
  assert (Hh : 1 <= h < 2 ^ 32) by (unfold h; lia).
  assert (Hq : Z.quot 4294967295 h = 4294967295 / h)
    by (apply Z.quot_div_nonneg; lia).
  rewrite Hq.
  assert (Hc : 1 <= 4294967295 / h <= 4294967295).
  { split.
    - apply Z.div_le_lower_bound; lia.
    - apply Z.div_le_upper_bound; nia. }
  rewrite uint32_small by lia.
  split; [exact Hc|]. split; [|repeat split].
  intros axis n.
  pose proof (Z.mul_div_le 4294967295 h ltac:(lia)) as Hmd.
  assert (Hb : forall r, 0 <= r <= h ->
                         0 <= r < 2 ^ 32 /\
                         (0 <= n <= 4294967295 / h ->
                          0 <= r * n <= 4294967295)).
  { intros r Hr. split; [lia|]. intros Hn. nia. }
  destruct axis; cbn [axis_get axis_set at_X at_Y at_Z at_E];
    apply Hb; unfold h; lia.
Qed.

Lemma zero_not_above_threshold :
  F32.gtb F32.zero (F32.of_ratio 1 10000) = false.
Proof. vm_compute. reflexivity. Qed.

(** X14.  [_set_position_mm] keeps the ring and its indices, stores
    positions that fit 24 bits, and zeroes the previous speeds, so that
    the next move queued starts from a full halt, its maximal entry
    speed being the safe speed. *)
Theorem set_position_resets_junction (env : machine) (s : settings)
        (p p1 : state) (x y z e0 a b c e fr_mm_s : float) (extruder : Z)
        (bl : built) (p' : state) :
  _set_position_mm s p x y z e0 = Ok p1 ->
  enqueue env s p1 a b c e fr_mm_s extruder = Ok (Queued bl p') ->
  block_buffer p1 = block_buffer p /\
  block_buffer_head p1 = block_buffer_head p /\
  block_buffer_tail p1 = block_buffer_tail p /\
  previous_nominal_speed p1 = F32.zero /\
  previous_speed p1 = zero_xyze_float /\
  (forall axis, 0 <= axis_get (position p1) axis < 2 ^ 24) /\
  TEST (flag (the_block bl)) BLOCK_BIT_START_FROM_FULL_HALT = true /\
  max_entry_speed (the_block bl) = safe_speed bl.
Proof.
  intros Hs He. unfold _set_position_mm in Hs.
  step_ok Hs na Hna. step_ok Hs nb Hnb. step_ok Hs nc Hnc.
  step_ok Hs ne Hne. apply Ok_inj in Hs. subst p1.
  cbn [block_buffer block_buffer_head block_buffer_tail
       previous_nominal_speed previous_speed position].
  repeat (split; [reflexivity|]).
  split.
  - intros axis. destruct axis; cbn [axis_get at_X at_Y at_Z at_E];
      unfold uint24, wrap_unsigned; apply Z.mod_pos_bound; lia.
  - destruct (enqueue_junction _ _ _ _ _ _ _ _ _ _ _ He)
      as (p0 & Hmv & Hpn & Hhalt).
    apply Hhalt. unfold junction. rewrite Hpn.
    cbn [previous_nominal_speed].
    rewrite zero_not_above_threshold, andb_false_r. reflexivity.
Qed.

End Setup.

Import PlannerRuns.

Lemma ring_occupancy_witness :
  movesplanned (cfg := example_config) one_block_queue = 1.
Proof.
  destruct (ring_occupancy (cfg := example_config) one_block_queue 4)
    as (Hm & _); [reflexivity|lia|cbn; lia|cbn; lia|].
  rewrite Hm. reflexivity.
Defined.

Lemma block_index_round_trip_witness :
  next_block_index (cfg := example_config) 15 = 0 /\
  prev_block_index (cfg := example_config)
                   (next_block_index (cfg := example_config) 15) = 15.
Proof.
  destruct (block_index_round_trip (cfg := example_config) 15 4)
    as (Hn & _ & _ & _ & Hr & _); [reflexivity|lia|cbn; lia|].
  split; [rewrite Hn; reflexivity|exact Hr].
Defined.

Lemma discard_current_block_counts_witness :
  movesplanned (cfg := example_config)
               (discard_current_block (cfg := example_config)
                                      one_block_queue)
  = movesplanned (cfg := example_config) one_block_queue - 1.
Proof.
  destruct (discard_current_block_counts
              (cfg := example_config) one_block_queue 4)
    as (Hm & _);
    [reflexivity|lia|cbn; lia|cbn; lia|vm_compute; reflexivity|].
  exact Hm.
Defined.

Lemma recalculate_keeps_plan_witness :
  recalculate (cfg := example_config) one_move_enqueued
  = Ok one_move_planned /\
  position one_move_planned = position one_move_enqueued /\
  length (block_buffer one_move_planned) = 16%nat.
Proof.
  assert (Hr : recalculate (cfg := example_config) one_move_enqueued
               = Ok one_move_planned) by (vm_compute; reflexivity).
  destruct (recalculate_keeps_plan (cfg := example_config) _ _ Hr)
    as (_ & _ & Hp & _ & _ & _ & Hl & _).
  split; [exact Hr|]. split; [exact Hp|]. rewrite Hl. reflexivity.
Defined.

Lemma recalculate_clears_flags_witness :
  recalculate (cfg := example_config) one_move_enqueued
  = Ok one_move_planned /\
  TEST (flag (block_at one_move_enqueued 0)) BLOCK_BIT_RECALCULATE = true /\
  TEST (flag (block_at one_move_planned 0)) BLOCK_BIT_RECALCULATE = false.
Proof.
  assert (Hr : recalculate (cfg := example_config) one_move_enqueued
               = Ok one_move_planned) by (vm_compute; reflexivity).
  split; [exact Hr|]. split; [vm_compute; reflexivity|].
  apply (recalculate_clears_flags (cfg := example_config)
           one_move_enqueued one_move_planned 4 eq_refl
           ltac:(lia) ltac:(cbn; lia) ltac:(cbn; lia) Hr 0).
  vm_compute. split; [discriminate|reflexivity].
Defined.

Lemma queued_move_is_available_witness :
  enqueue (cfg := example_config) (example_machine false false)
          example_settings (init (cfg := example_config))
          (F32.of_Z 10) F32.zero F32.zero F32.zero (F32.of_Z 60) 0
  = Ok (Queued one_move_built one_move_enqueued) /\
  fst (get_current_block (cfg := example_config) one_move_planned)
  = Some 0.
Proof.
  assert (He : enqueue (cfg := example_config) (example_machine false false)
                       example_settings (init (cfg := example_config))
                       (F32.of_Z 10) F32.zero F32.zero F32.zero
                       (F32.of_Z 60) 0
               = Ok (Queued one_move_built one_move_enqueued))
    by (vm_compute; reflexivity).
  split; [exact He|].
  destruct (queued_move_is_available
              (cfg := example_config) (example_machine false false)
              example_settings (init (cfg := example_config))
              (F32.of_Z 10) F32.zero F32.zero F32.zero (F32.of_Z 60) 0
              one_move_built one_move_enqueued one_move_planned 4)
    as (Hcur & _);
    [reflexivity|lia|cbn; lia|cbn; lia|exact He
     |vm_compute; reflexivity|exact Hcur].
Defined.

Lemma queued_move_bookkeeping_witness :
  block_buffer_head one_move_planned = 1 /\
  movesplanned (cfg := example_config) one_move_planned
  = movesplanned (cfg := example_config) (init (cfg := example_config))
    + 1 /\
  previous_safe_speed one_move_planned = safe_speed one_move_built.
Proof.
  assert (He : enqueue (cfg := example_config) (example_machine false false)
                       example_settings (init (cfg := example_config))
                       (F32.of_Z 10) F32.zero F32.zero F32.zero
                       (F32.of_Z 60) 0
               = Ok (Queued one_move_built one_move_enqueued))
    by (vm_compute; reflexivity).
  destruct (queued_move_bookkeeping
              (cfg := example_config) (example_machine false false)
              example_settings (init (cfg := example_config))
              (F32.of_Z 10) F32.zero F32.zero F32.zero (F32.of_Z 60) 0
              one_move_built one_move_enqueued one_move_planned 4)
    as (Hh & _ & Hm & _ & _ & _ & Hs & _);
    [reflexivity|lia|cbn; lia|cbn; lia|exact He
     |vm_compute; reflexivity|].
  split; [rewrite Hh; reflexivity|]. split; [exact Hm|exact Hs].
Defined.

Lemma queued_block_shape_witness :
  step_event_count (the_block one_move_built) = 800 /\
  MIN_STEPS_PER_SEGMENT (PlannerConfig := example_config)
  <= step_event_count (the_block one_move_built) /\
  TEST (flag (the_block one_move_built)) BLOCK_BIT_RECALCULATE = true.
Proof.
  destruct (queued_block_shape
              (cfg := example_config) (example_machine false false)
              example_settings (init (cfg := example_config))
              (F32.of_Z 10) F32.zero F32.zero F32.zero (F32.of_Z 60) 0
              one_move_built one_move_enqueued)
    as (_ & Hmin & _ & _ & _ & _ & Hre & _).
  - vm_compute. reflexivity.
  - split; [reflexivity|]. split; [exact Hmin|exact Hre].
Defined.

Lemma lone_move_starts_from_halt_witness :
  TEST (flag (the_block one_move_built)) BLOCK_BIT_START_FROM_FULL_HALT
  = true /\
  max_entry_speed (the_block one_move_built) = safe_speed one_move_built.
Proof.
  apply (lone_move_starts_from_halt
           (cfg := example_config) (example_machine false false)
           example_settings (init (cfg := example_config))
           (F32.of_Z 10) F32.zero F32.zero F32.zero (F32.of_Z 60) 0
           one_move_built one_move_enqueued).
  - vm_compute. reflexivity.
  - left. vm_compute. discriminate.
Defined.

Lemma trapezoid_step_order_witness :
  calculate_trapezoid_for_block (cfg := example_config) short_block
                                F32.zero F32.zero
  = Ok short_block_planned /\
  0 <= accelerate_until short_block_planned
  <= decelerate_after short_block_planned /\
  decelerate_after short_block_planned
  <= step_event_count short_block_planned.
Proof.
  assert (Hc : calculate_trapezoid_for_block
                 (cfg := example_config) short_block F32.zero F32.zero
               = Ok short_block_planned) by (vm_compute; reflexivity).
  split; [exact Hc|].
  assert (Ht : trapezoid_steps short_block F32.zero F32.zero
               = Ok (Trapezoid 120 120 80000 50 0))
    by (vm_compute; reflexivity).
  destruct (trapezoid_step_order
              (cfg := example_config) short_block short_block_planned
              F32.zero F32.zero (Trapezoid 120 120 80000 50 0) 144 143)
    as (H1 & H2 & _).
  - cbn. lia.
  - reflexivity.
  - exact Ht.
  - exact Hc.
  - vm_compute. reflexivity.
  - vm_compute. reflexivity.
  - left. vm_compute. reflexivity.
  - split; [exact H1|exact H2].
Defined.

Lemma long_limit_respects_axes_witness :
  let accel :=
    fold_left (fun accel axis =>
                 LIMIT_ACCEL_LONG example_settings short_block axis accel)
              LOOP_XYZE 200000 in
  0 <= accel <= 200000 /\
  accel * axis_get (steps short_block) X_AXIS
  <= axis_get (max_acceleration_steps_per_s2 example_settings) X_AXIS
     * step_event_count short_block.
Proof.
  destruct (long_limit_respects_axes example_settings short_block 200000)
    as (Hle & Hax).
  - lia.
  - intros [| | |]; vm_compute; repeat split; discriminate.
  - split; [exact Hle|exact (Hax X_AXIS)].
Defined.

Lemma cutoff_long_prevents_overflow_witness :
  reset_acceleration_rates example_max_acceleration example_settings
  = Ok example_settings_reset /\
  cutoff_long example_settings_reset = 4294 /\
  0 <= axis_get (max_acceleration_steps_per_s2 example_settings_reset)
                E_AXIS * 4294
  <= 4294967295.
Proof.
  assert (Hr : reset_acceleration_rates example_max_acceleration
                                        example_settings
               = Ok example_settings_reset) by (vm_compute; reflexivity).
  destruct (cutoff_long_prevents_overflow _ _ _ Hr) as (_ & Hax & _).
  split; [exact Hr|]. split; [reflexivity|].
  apply (proj2 (Hax E_AXIS 4294)). vm_compute.
  split; discriminate.
Defined.

Lemma set_position_resets_junction_witness :
  previous_nominal_speed one_move_planned <> F32.zero /\
  previous_nominal_speed positioned = F32.zero /\
  movesplanned (cfg := example_config) positioned = 1 /\
  TEST (flag (the_block next_move_built)) BLOCK_BIT_START_FROM_FULL_HALT
  = true.
Proof.
  destruct (set_position_resets_junction
              (cfg := example_config) (example_machine false false)
              example_settings one_move_planned positioned
              (F32.of_Z 1) (F32.of_Z 2) (F32.of_Z 3) F32.zero
              (F32.of_Z 10) F32.zero F32.zero F32.zero (F32.of_Z 60) 0
              next_move_built next_move_enqueued)
    as (_ & _ & _ & Hn & _ & _ & Hf & _).
  - vm_compute. reflexivity.
  - vm_compute. reflexivity.
  - split; [vm_compute; discriminate|]. split; [exact Hn|].
    split; [vm_compute; reflexivity|exact Hf].
Defined.

End PlannerExtras.

(** * Further properties of the heater control *)

Module ThermalExtras.
Import MachineInt Thermal ThermalExamples ThermalSpec ThermalViews ThermalRuns.
Import ThermalProperties.

Section Outcomes.
Context {board : Board}.
Hypothesis H4 : 0 <= DIO4_PIN < 8.
Hypothesis H3 : 0 <= DIO3_PIN < 8.

Ltac split_ifs :=
  repeat match goal with
         | |- context [if ?c then _ else _] => destruct c
         end.

Lemma undisturbed_refl (s : state) : undisturbed s s.
Proof. repeat split. Qed.

Lemma undisturbed_trans (s1 s2 s3 : state) :
  undisturbed s1 s2 -> undisturbed s2 s3 -> undisturbed s1 s3.
Proof.
  unfold undisturbed. intros (A1 & B1 & C1 & D1 & E1 & F1)
                             (A2 & B2 & C2 & D2 & E2 & F2).
  repeat split; congruence.
Qed.

Lemma locked_down_from (s1 s2 s0 : state) :
  undisturbed s1 s2 -> locked_down s2 s0 -> locked_down s1 s0.
Proof.
  unfold undisturbed, locked_down.
  intros (_ & _ & _ & _ & _ & F1) (A & B & C & D & E & F & G & H & I).
  repeat split; congruence.
Qed.

Lemma undisturbed_disable (s : state) :
  undisturbed s (disable_all_heaters s).
Proof.
  destruct (disable_all_heaters_keeps s)
    as (A & B & C & D & E & _).
  unfold undisturbed. repeat split; try assumption.
  unfold disable_all_heaters, setTargetHotend, setTargetBed,
    start_watching_heater, start_watching_bed, WRITE_HEATER_0,
    WRITE_HEATER_BED, set_pin, HEATER_0_PIN, HEATER_BED_PIN.
  cbn [Z.eqb Pos.eqb has_bed_thermal_management].
  cbv zeta. split_ifs; reflexivity.
Qed.

Lemma watchdog_disable (s : state) :
  watchdog_resets (disable_all_heaters s) = watchdog_resets s.
Proof. apply (disable_all_heaters_keeps s). Qed.

Lemma watchdog_cli (s : state) : watchdog_resets (cli s) = watchdog_resets s.
Proof. reflexivity. Qed.

Lemma watchdog_serial (l : list serial_item) (s : state) :
  watchdog_resets (serial l s) = watchdog_resets s.
Proof. reflexivity. Qed.

Lemma watchdog_kill_enter (x : state) :
  watchdog_resets (kill_enter x) = watchdog_resets x.
Proof.
  unfold kill_enter.
  rewrite watchdog_disable, watchdog_cli, watchdog_disable.
  apply watchdog_serial.
Qed.

(** [_temp_error] returns with the flags and the watchdog as they
    were, or it locks the machine down. *)
Lemma _temp_error_outcome (m : Manager) (msg : message) (s : state) :
  outcome_is (undisturbed s) (locked_down s) (_temp_error m msg s).
Proof.
  destruct (killed m s) eqn:Hk.
  - unfold _temp_error.
    match goal with
    | |- context [killed m ?y] =>
        assert (Hy : undisturbed s y /\ killed m y = true)
          by (split; [|destruct m; cbn in *; split_ifs; cbn; exact Hk];
              unfold undisturbed; split_ifs; cbn; repeat split);
          destruct Hy as [Hu Hk'];
          rewrite Hk'; cbn [negb outcome_is];
          exact (undisturbed_trans _ _ _ Hu (undisturbed_disable y))
    end.
  - unfold _temp_error, kill.
    match goal with
    | |- context [killed m ?y] =>
        assert (Hy : killed m y = false
                     /\ watchdog_resets y = watchdog_resets s)
          by (split; destruct m; cbn in *; split_ifs; cbn;
              (exact Hk || reflexivity));
          destruct Hy as [Hk' Hw];
          rewrite Hk'; cbn [negb outcome_is];
          destruct (kill_enter_locked
                      (set_killed m true (set_Running false y)) H4 H3)
            as (A & B & C & D & E & F & G & H);
          unfold locked_down; repeat split; try assumption;
          [rewrite H; destruct m; reflexivity
          |rewrite watchdog_kill_enter; rewrite <- Hw;
           destruct m; reflexivity]
    end.
Qed.

(** Sequencing. *)
Lemma outcome_is_obind {A B : Type} (s : state) (R1 : state -> Prop)
      (R L : state -> Prop) (r : outcome A) (k : A -> state -> outcome B) :
  outcome_is R1 L r ->
  (forall a s1, R1 s1 -> outcome_is R L (k a s1)) ->
  outcome_is R L (obind r k).
Proof.
  intros Hr Hk. destruct r as [a s1|s0]; cbn [obind outcome_is] in *.
  - apply Hk. exact Hr.
  - exact Hr.
Qed.

Lemma outcome_is_weaken {A : Type} (R R' L L' : state -> Prop)
      (r : outcome A) :
  (forall s, R s -> R' s) -> (forall s, L s -> L' s) ->
  outcome_is R L r -> outcome_is R' L' r.
Proof. intros HR HL. destruct r; cbn [outcome_is]; auto. Qed.

Lemma when_outcome (c : bool) (f : state -> outcome unit) (s : state) :
  outcome_is (undisturbed s) (locked_down s) (f s) ->
  outcome_is (undisturbed s) (locked_down s) (when c f s).
Proof.
  intros Hf. unfold when. destruct c; [exact Hf|].
  cbn [outcome_is]. apply undisturbed_refl.
Qed.

(** Two guarded errors in a row. *)
Lemma two_checks_outcome (c1 : bool) (c2 : state -> bool)
      (m : Manager) (s : state) :
  outcome_is (undisturbed s) (locked_down s)
    (obind (when c1 (max_temp_error m) s)
           (fun _ s1 => when (c2 s1) (min_temp_error m) s1)).
Proof.
  apply (outcome_is_obind s (undisturbed s)).
  - apply when_outcome, _temp_error_outcome.
  - intros _ s1 H1.
    apply (outcome_is_weaken (undisturbed s1) _ (locked_down s1) _).
    + intros x. apply undisturbed_trans. exact H1.
    + intros x. apply locked_down_from. exact H1.
    + apply when_outcome, _temp_error_outcome.
Qed.

Lemma check_hotend_raw_outcome (raw : Z) (s : state) :
  outcome_is (undisturbed s) (locked_down s) (check_hotend_raw raw s).
Proof.
  unfold check_hotend_raw.
  destruct (HEATER_0_RAW_LO_TEMP <? HEATER_0_RAW_HI_TEMP).
  - apply (two_checks_outcome
             _ (fun s1 => (raw <=? HOTEND_MIN_ADC) && negb is_preheating
                          && (0 <? target_temperature s1))).
  - apply (two_checks_outcome
             _ (fun s1 => (HOTEND_MIN_ADC <=? raw) && negb is_preheating
                          && (0 <? target_temperature s1))).
Qed.

Lemma check_bed_raw_outcome (raw : Z) (s : state) :
  outcome_is (undisturbed s) (locked_down s) (check_bed_raw raw s).
Proof.
  unfold check_bed_raw.
  destruct (HEATER_BED_RAW_LO_TEMP <? HEATER_BED_RAW_HI_TEMP).
  - apply (two_checks_outcome
             _ (fun s1 => (raw <=? BED_MIN_ADC)
                          && (0 <? target_temperature_bed s1))).
  - apply (two_checks_outcome
             _ (fun s1 => (BED_MIN_ADC <=? raw)
                          && (0 <? target_temperature_bed s1))).
Qed.

Lemma undisturbed_setters (s : state) :
  undisturbed s (start_watching_heater s) /\
  undisturbed s (start_watching_bed s) /\
  undisturbed s (drive_hotend s) /\
  undisturbed s (drive_bed s).
Proof.
  unfold undisturbed, start_watching_heater, start_watching_bed,
    drive_hotend, drive_bed, WRITE_HEATER_0, WRITE_HEATER_BED, set_pin,
    HEATER_0_PIN, HEATER_BED_PIN.
  cbn [Z.eqb Pos.eqb has_bed_thermal_management].
  repeat split; split_ifs; reflexivity.
Qed.

Lemma watch_hotend_outcome (ms : Z) (s : state) :
  outcome_is (undisturbed s) (locked_down s) (watch_hotend ms s).
Proof.
  unfold watch_hotend. cbn [ENABLE_ERROR_1A andb].
  destruct (_ && _); cbn [outcome_is];
    [exact (proj1 (undisturbed_setters s))|apply undisturbed_refl].
Qed.

Lemma watch_bed_outcome (ms : Z) (s : state) :
  outcome_is (undisturbed s) (locked_down s) (watch_bed ms s).
Proof.
  unfold watch_bed. cbn [ENABLE_ERROR_1B andb].
  destruct (_ && _); cbn [outcome_is];
    [exact (proj1 (proj2 (undisturbed_setters s)))|apply undisturbed_refl].
Qed.

(** Chaining two steps that each keep [undisturbed]. *)
Lemma outcome_is_then {A B : Type} (s : state) (r : outcome A)
      (k : A -> state -> outcome B) :
  outcome_is (undisturbed s) (locked_down s) r ->
  (forall a s1, outcome_is (undisturbed s1) (locked_down s1) (k a s1)) ->
  outcome_is (undisturbed s) (locked_down s) (obind r k).
Proof.
  intros Hr Hk. apply (outcome_is_obind s (undisturbed s)); [exact Hr|].
  intros a s1 H1.
  apply (outcome_is_weaken (undisturbed s1) _ (locked_down s1) _).
  - intros x. apply undisturbed_trans. exact H1.
  - intros x. apply locked_down_from. exact H1.
  - apply Hk.
Qed.

(** The part of [manage_heater] after the temperatures are updated. *)
Lemma manage_heater_rest_outcome (s1 : state) :
  outcome_is (undisturbed s1) (locked_down s1)
    (obind (when ENABLE_ERROR_2A
              (thermal_runaway_protection
                 Hotend (current_temperature s1) (target_temperature s1)
                 THERMAL_PROTECTION_PERIOD THERMAL_PROTECTION_HYSTERESIS)
              s1)
       (fun _ s2 =>
     obind (watch_hotend (millis s1) s2) (fun _ s3 =>
     obind (watch_bed (millis s1) s3) (fun _ s4 =>
     obind (when ENABLE_ERROR_2B
              (thermal_runaway_protection
                 Bed (current_temperature_bed s4) (target_temperature_bed s4)
                 THERMAL_PROTECTION_BED_PERIOD
                 THERMAL_PROTECTION_BED_HYSTERESIS) s4)
       (fun _ s5 => Returns true (drive_bed (drive_hotend s5))))))).
Proof.
  cbn [when ENABLE_ERROR_2A ENABLE_ERROR_2B obind].
  apply outcome_is_then; [apply watch_hotend_outcome|]. intros _ s3.
  apply outcome_is_then; [apply watch_bed_outcome|]. intros _ s4.
  cbn [outcome_is].
  destruct (undisturbed_setters s4) as (_ & _ & Hh & _).
  destruct (undisturbed_setters (drive_hotend s4)) as (_ & _ & _ & Hb).
  exact (undisturbed_trans _ _ _ Hh Hb).
Qed.

End Outcomes.

Section HeaterManager.
Context {board : Board}.
Hypothesis H4 : 0 <= DIO4_PIN < 8.
Hypothesis H3 : 0 <= DIO3_PIN < 8.

Ltac split_ifs :=
  repeat match goal with
         | |- context [if ?c then _ else _] => destruct c
         end.

(** The hand-over of a reading, before the checks. *)
Lemma taken_reading (s : state) :
  let s1 := set_irq (Interrupt false (raw_adc_hotend (irq s))
                               (raw_adc_bed (irq s))) s in
  Running s1 = Running s /\ killed_hotend s1 = killed_hotend s /\
  killed_bed s1 = killed_bed s /\ ready_ (irq s1) = false /\
  interrupts_enabled s1 = interrupts_enabled s /\
  watchdog_resets s1 = watchdog_resets s.
Proof. repeat split. Qed.

Lemma publish_facts (raw raw_bed : Z) (s3 : state) :
  Running (publish raw raw_bed s3) = Running s3 /\
  killed_hotend (publish raw raw_bed s3) = killed_hotend s3 /\
  killed_bed (publish raw raw_bed s3) = killed_bed s3 /\
  ready_ (irq (publish raw raw_bed s3)) = ready_ (irq s3) /\
  interrupts_enabled (publish raw raw_bed s3) = interrupts_enabled s3 /\
  watchdog_resets (publish raw raw_bed s3) = S (watchdog_resets s3) /\
  current_temperature (publish raw raw_bed s3)
  = Thermistor_adc_to_temperature (Thermistor_clamp_adc raw) /\
  current_temperature_bed (publish raw raw_bed s3)
  = Thermistor_adc_to_temperature (Thermistor_clamp_adc raw_bed) /\
  target_temperature (publish raw raw_bed s3) = target_temperature s3 /\
  target_temperature_bed (publish raw raw_bed s3)
  = target_temperature_bed s3.
Proof.
  unfold publish, wdr. cbv zeta. repeat split; split_ifs; reflexivity.
Qed.

Lemma update_unfold (s : state) :
  updateTemperaturesFromRawValues s
  = if ready_ (irq s) then
      obind (check_hotend_raw
               (raw_adc_hotend (irq s))
               (set_irq (Interrupt false (raw_adc_hotend (irq s))
                                   (raw_adc_bed (irq s))) s))
        (fun _ s2 =>
           obind (check_bed_raw (raw_adc_bed (irq s)) s2)
             (fun _ s3 =>
                Returns true
                        (publish (raw_adc_hotend (irq s))
                                 (raw_adc_bed (irq s)) s3)))
    else Returns false s.
Proof. reflexivity. Qed.

Lemma update_outcome (s : state) :
  match updateTemperaturesFromRawValues s with
  | Returns b s' =>
      b = ready_ (irq s) /\ (b = false -> s' = s) /\
      (b = true ->
       exists s3,
         s' = publish (raw_adc_hotend (irq s)) (raw_adc_bed (irq s)) s3 /\
         Running s3 = Running s /\ killed_hotend s3 = killed_hotend s /\
         killed_bed s3 = killed_bed s /\ ready_ (irq s3) = false /\
         interrupts_enabled s3 = interrupts_enabled s /\
         watchdog_resets s3 = watchdog_resets s)
  | Locked s0 => ready_ (irq s) = true /\ locked_down s s0
  end.
Proof.
  rewrite update_unfold. destruct (ready_ (irq s)) eqn:Hr.
  2: { split; [reflexivity|]. split; [reflexivity|]. discriminate. }
  set (s1 := set_irq _ s).
  destruct (taken_reading s) as (A & B & C & D & E & F).
  fold s1 in A, B, C, D, E, F.
  pose proof (check_hotend_raw_outcome H4 H3 (raw_adc_hotend (irq s)) s1)
    as Hh.
  destruct (check_hotend_raw (raw_adc_hotend (irq s)) s1) as [[] s2|s0];
    cbn [obind outcome_is] in *.
  2: { split; [reflexivity|].
       destruct Hh as (L1 & L2 & L3 & L4 & L5 & L6 & L7 & L8 & L9).
       unfold locked_down. repeat split; try assumption; congruence. }
  pose proof (check_bed_raw_outcome H4 H3 (raw_adc_bed (irq s)) s2) as Hb.
  destruct (check_bed_raw (raw_adc_bed (irq s)) s2) as [[] s3|s0];
    cbn [obind outcome_is] in *.
  2: { split; [reflexivity|].
       destruct Hh as (U1 & U2 & U3 & U4 & U5 & U6).
       destruct Hb as (L1 & L2 & L3 & L4 & L5 & L6 & L7 & L8 & L9).
       unfold locked_down. repeat split; try assumption; congruence. }
  split; [reflexivity|]. split; [discriminate|]. intros _.
  exists s3. split; [reflexivity|].
  destruct Hh as (U1 & U2 & U3 & U4 & U5 & U6).
  destruct Hb as (V1 & V2 & V3 & V4 & V5 & V6).
  repeat split; congruence.
Qed.

Lemma watch_hotend_returns (ms : Z) (s : state) :
  exists s', watch_hotend ms s = Returns tt s' /\ undisturbed s s' /\
             current_temperature s' = current_temperature s /\
             current_temperature_bed s' = current_temperature_bed s.
Proof.
  unfold watch_hotend. cbn [ENABLE_ERROR_1A andb].
  destruct (_ && _).
  - eexists. split; [reflexivity|].
    split; [exact (proj1 (undisturbed_setters s))|].
    unfold start_watching_heater. split; split_ifs; reflexivity.
  - exists s. split; [reflexivity|]. split; [apply undisturbed_refl|].
    split; reflexivity.
Qed.

Lemma watch_bed_returns (ms : Z) (s : state) :
  exists s', watch_bed ms s = Returns tt s' /\ undisturbed s s' /\
             current_temperature s' = current_temperature s /\
             current_temperature_bed s' = current_temperature_bed s.
Proof.
  unfold watch_bed. cbn [ENABLE_ERROR_1B andb].
  destruct (_ && _).
  - eexists. split; [reflexivity|].
    split; [exact (proj1 (proj2 (undisturbed_setters s)))|].
    unfold start_watching_bed. split; split_ifs; reflexivity.
  - exists s. split; [reflexivity|]. split; [apply undisturbed_refl|].
    split; reflexivity.
Qed.

Lemma manage_heater_unfold (s : state) :
  manage_heater s
  = obind (updateTemperaturesFromRawValues s) (fun updated s1 =>
      if negb updated then Returns false s1
      else
        obind (watch_hotend (millis s1) s1) (fun _ s3 =>
        obind (watch_bed (millis s1) s3) (fun _ s4 =>
          Returns true (drive_bed (drive_hotend s4))))).
Proof. reflexivity. Qed.

(** [manage_heater] returns whether a reading was handed over. *)
Lemma manage_heater_flag (s : state) (b : bool) (s' : state) :
  manage_heater s = Returns b s' -> b = ready_ (irq s).
Proof.
  rewrite manage_heater_unfold. intros H.
  pose proof (update_outcome s) as Hu.
  destruct (updateTemperaturesFromRawValues s) as [b0 s1|s0];
    cbn [obind] in H; [|discriminate H].
  destruct Hu as (Hb & _).
  destruct b0; cbn [negb] in H.
  - destruct (watch_hotend_returns (millis s1) s1) as (s4 & E4 & _).
    rewrite E4 in H. cbn [obind] in H.
    destruct (watch_bed_returns (millis s1) s4) as (s5 & E5 & _).
    rewrite E5 in H. cbn [obind] in H.
    injection H as <- _. exact Hb.
  - injection H as <- _. exact Hb.
Qed.

(** X15.  How a call of [manage_heater] ends (heater pins being bits
    of their ports).  It returns [true] exactly when a reading was
    handed over, and [false], with nothing changed, when none was; when
    it returns, the hand-over flag is clear, the run flag, the [killed]
    flags and the interrupt enable are as before, and the watchdog has
    been reset once if a reading was consumed and not at all
    otherwise.  When it does not return, a reading had been handed
    over and the machine is locked: not running, both heater outputs
    low, duties and targets 0, interrupts off, and the watchdog not
    reset by the call. *)
Theorem manage_heater_outcome (s : state) :
  match manage_heater s with
  | Returns b s' =>
      b = ready_ (irq s) /\
      (b = false -> s' = s) /\
      ready_ (irq s') = false /\
      Running s' = Running s /\
      killed_hotend s' = killed_hotend s /\
      killed_bed s' = killed_bed s /\
      interrupts_enabled s' = interrupts_enabled s /\
      watchdog_resets s'
      = (if b then S (watchdog_resets s) else watchdog_resets s)
  | Locked s0 =>
      ready_ (irq s) = true /\
      Running s0 = false /\
      heater_0_output s0 = false /\
      heater_bed_output s0 = false /\
      soft_pwm_amount s0 = 0 /\
      bed_pwm s0 = 0 /\
      target_temperature s0 = 0 /\
      target_temperature_bed s0 = 0 /\
      interrupts_enabled s0 = false /\
      watchdog_resets s0 = watchdog_resets s
  end.
Proof.
  rewrite manage_heater_unfold.
  pose proof (update_outcome s) as Hu.
  destruct (updateTemperaturesFromRawValues s) as [b s1|s0];
    cbn [obind]; [|exact Hu].
  destruct Hu as (Hb & Hsame & Hpub).
  destruct b; cbn [negb].
  2: { specialize (Hsame eq_refl). subst s1.
       repeat split; congruence. }
  destruct (Hpub eq_refl) as (s3 & Hs1 & A & B & C & D & E & F).
  destruct (publish_facts (raw_adc_hotend (irq s)) (raw_adc_bed (irq s)) s3)
    as (P1 & P2 & P3 & P4 & P5 & P6 & _).
  rewrite <- Hs1 in P1, P2, P3, P4, P5, P6.
  destruct (watch_hotend_returns (millis s1) s1) as (s4 & -> & Hw).
  cbn [obind].
  destruct (watch_bed_returns (millis s1) s4) as (s5 & -> & Hw').
  cbn [obind].
  destruct (undisturbed_setters s5) as (_ & _ & Hh & _).
  destruct (undisturbed_setters (drive_hotend s5)) as (_ & _ & _ & Hb').
  pose proof (undisturbed_trans _ _ _ (proj1 Hw)
                (undisturbed_trans _ _ _ (proj1 Hw')
                   (undisturbed_trans _ _ _ Hh Hb')))
    as (U1 & U2 & U3 & U4 & U5 & U6).
  split; [congruence|]. split; [discriminate|].
  repeat split; congruence.
Qed.

Lemma obind_Returns {A B : Type} (r : outcome A)
      (k : A -> state -> outcome B) (b : B) (s' : state) :
  obind r k = Returns b s' ->
  exists a s1, r = Returns a s1 /\ k a s1 = Returns b s'.
Proof.
  destruct r as [a s1|s0]; cbn [obind]; intros H; [|discriminate H].
  exists a, s1. split; [reflexivity|exact H].
Qed.

Lemma drive_hotend_facts (x : state) :
  target_temperature (drive_hotend x) = target_temperature x /\
  current_temperature (drive_hotend x) = current_temperature x /\
  target_temperature_bed (drive_hotend x) = target_temperature_bed x /\
  current_temperature_bed (drive_hotend x) = current_temperature_bed x /\
  (soft_pwm_amount (drive_hotend x) <> 0 ->
   target_temperature x <> 0 /\
   HOTEND_MIN_TEMP < current_temperature x < HOTEND_MAX_TEMP) /\
  (target_temperature x = 0 -> heater_0_output (drive_hotend x) = false).
Proof.
  unfold drive_hotend, WRITE_HEATER_0, set_pin, HEATER_0_PIN,
    heater_0_output.
  cbn [Z.eqb Pos.eqb is_preheating orb]. rewrite orb_false_r.
  destruct (Z.eqb_spec (target_temperature x) 0) as [Ht|Ht];
    [|destruct (Z.leb_spec (current_temperature x) HOTEND_MIN_TEMP);
      destruct (Z.leb_spec HOTEND_MAX_TEMP (current_temperature x));
      cbn [orb]];
    cbn [soft_pwm_amount target_temperature target_temperature_bed
         current_temperature current_temperature_bed DIO4_WPORT
         set_soft_pwm_amount set_DIO4_WPORT];
    rewrite ?(written_bit _ DIO4_PIN false) by assumption;
    repeat split; intros; try lia; congruence.
Qed.

Lemma drive_bed_facts (z : state) :
  soft_pwm_amount (drive_bed z) = soft_pwm_amount z /\
  DIO4_WPORT (drive_bed z) = DIO4_WPORT z /\
  target_temperature (drive_bed z) = target_temperature z /\
  current_temperature (drive_bed z) = current_temperature z /\
  target_temperature_bed (drive_bed z) = target_temperature_bed z /\
  current_temperature_bed (drive_bed z) = current_temperature_bed z /\
  (is_bed_heating (drive_bed z) = true ->
   BED_MIN_TEMP <= current_temperature_bed z <= BED_MAX_TEMP /\
   current_temperature_bed z < target_temperature_bed z) /\
  (target_temperature_bed z = 0
   \/ current_temperature_bed z < BED_MIN_TEMP
   \/ BED_MAX_TEMP < current_temperature_bed z ->
   heater_bed_output (drive_bed z) = false).
Proof.
  unfold drive_bed, WRITE_HEATER_BED, set_pin, HEATER_BED_PIN,
    heater_bed_output, WITHIN.
  cbn [Z.eqb Pos.eqb has_bed_thermal_management].
  destruct (Z.eqb_spec (target_temperature_bed z) 0) as [Hb|Hb];
    cbn [soft_pwm_amount target_temperature target_temperature_bed
         current_temperature current_temperature_bed is_bed_heating
         DIO4_WPORT DIO3_WPORT set_DIO3_WPORT set_is_bed_heating];
    destruct (Z.leb_spec BED_MIN_TEMP (current_temperature_bed z));
    destruct (Z.leb_spec (current_temperature_bed z) BED_MAX_TEMP);
    cbn [andb];
    cbn [soft_pwm_amount target_temperature target_temperature_bed
         current_temperature current_temperature_bed is_bed_heating
         DIO4_WPORT DIO3_WPORT set_DIO3_WPORT set_is_bed_heating];
    rewrite ?(written_bit _ DIO3_PIN false) by assumption;
    repeat split; intros; try lia; try congruence;
    try (match goal with
         | H : (_ <? _) = true |- _ => apply Z.ltb_lt in H
         end; lia).
Qed.

(** X16.  When [manage_heater] returns [true] (heater pins being bits
    of their ports): the hotend duty is non-zero only if a hotend
    target is set and the current temperature lies strictly between the
    hotend minimum and maximum; with no hotend target the hotend output
    is low; the bed is heating only if the bed temperature is within
    its limits and below its target; with no bed target, or with the
    bed temperature outside its limits, the bed output is low; and the
    current temperatures are the thermistor table values of the
    clamped raw readings that were handed over. *)
Theorem manage_heater_powers_safely (s s' : state) :
  manage_heater s = Returns true s' ->
  (soft_pwm_amount s' <> 0 ->
   target_temperature s' <> 0 /\
   HOTEND_MIN_TEMP < current_temperature s' < HOTEND_MAX_TEMP) /\
  (target_temperature s' = 0 -> heater_0_output s' = false) /\
  (is_bed_heating s' = true ->
   BED_MIN_TEMP <= current_temperature_bed s' <= BED_MAX_TEMP /\
   current_temperature_bed s' < target_temperature_bed s') /\
  (target_temperature_bed s' = 0
   \/ current_temperature_bed s' < BED_MIN_TEMP
   \/ BED_MAX_TEMP < current_temperature_bed s' ->
   heater_bed_output s' = false) /\
  current_temperature s'
  = Thermistor_adc_to_temperature
      (Thermistor_clamp_adc (raw_adc_hotend (irq s))) /\
  current_temperature_bed s'
  = Thermistor_adc_to_temperature
      (Thermistor_clamp_adc (raw_adc_bed (irq s))).
Proof.
  rewrite manage_heater_unfold. intros H.
  apply obind_Returns in H. destruct H as (b & s1 & Hu & H).
  pose proof (update_outcome s) as Ho. rewrite Hu in Ho.
  destruct Ho as (Hb & _ & Hpub).
  destruct b; cbn [negb] in H; [|discriminate H].
  destruct (Hpub eq_refl) as (s3 & Hs1 & _).
  destruct (publish_facts (raw_adc_hotend (irq s)) (raw_adc_bed (irq s)) s3)
    as (_ & _ & _ & _ & _ & _ & C1 & C2 & _).
  rewrite <- Hs1 in C1, C2.
  destruct (watch_hotend_returns (millis s1) s1) as (s4 & E4 & Hw).
  rewrite E4 in H. cbn [obind] in H.
  destruct (watch_bed_returns (millis s1) s4) as (s5 & E5 & Hw').
  rewrite E5 in H. cbn [obind] in H.
  injection H as <-.
  assert (T4 : current_temperature s5 = current_temperature s1 /\
               current_temperature_bed s5 = current_temperature_bed s1).
  { destruct Hw as (_ & T1 & T2). destruct Hw' as (_ & T3 & T4').
    split; congruence. }
  destruct T4 as (T4 & T4b). rewrite <- C1, <- C2, <- T4, <- T4b.
  destruct (drive_hotend_facts s5)
    as (D1 & D2 & D3 & D4 & D5 & D6).
  destruct (drive_bed_facts (drive_hotend s5))
    as (B1 & B2 & B3 & B4 & B5 & B6 & B7 & B8).
  unfold heater_0_output in *.
  rewrite B1, B2, B3, B4, B5, B6, D1, D2, D3, D4 in *.
  split; [exact D5|]. split; [exact D6|]. split; [exact B7|].
  split; [exact B8|]. split; reflexivity.
Qed.

End HeaterManager.

Section Idle.
Context {board : Board}.
Hypothesis H4 : 0 <= DIO4_PIN < 8.
Hypothesis H3 : 0 <= DIO3_PIN < 8.

Ltac split_ifs :=
  repeat match goal with
         | |- context [if ?c then _ else _] => destruct c
         end.

Lemma isr_adc_frame (ADC : Z) (s : state) :
  skip_counter (isr_statics (isr_adc ADC s)) = skip_counter (isr_statics s)
  /\ pwm_counter (isr_statics (isr_adc ADC s)) = pwm_counter (isr_statics s)
  /\ soft_pwm_amount (isr_adc ADC s) = soft_pwm_amount s
  /\ is_bed_heating (isr_adc ADC s) = is_bed_heating s
  /\ soft_pwm_amount_bed (isr_adc ADC s) = soft_pwm_amount_bed s
  /\ DIO4_WPORT (isr_adc ADC s) = DIO4_WPORT s
  /\ DIO3_WPORT (isr_adc ADC s) = DIO3_WPORT s
  /\ target_temperature (isr_adc ADC s) = target_temperature s
  /\ target_temperature_bed (isr_adc ADC s) = target_temperature_bed s
  /\ Running (isr_adc ADC s) = Running s.
Proof.
  unfold isr_adc. destruct (adc_sensor_state (isr_statics s));
    cbn; repeat split; reflexivity.
Qed.

(** The PWM part of the interrupt, on the state the ADC part left. *)
Lemma isr_pwm_facts (x : state) :
  soft_pwm_amount (isr_pwm x) = soft_pwm_amount x /\
  is_bed_heating (isr_pwm x) = is_bed_heating x /\
  target_temperature (isr_pwm x) = target_temperature x /\
  target_temperature_bed (isr_pwm x) = target_temperature_bed x /\
  Running (isr_pwm x) = Running x /\
  heater_0_output (isr_pwm x)
  = (pwm_counter (isr_statics x) <=? soft_pwm_amount x)
    && (0 <? soft_pwm_amount x) /\
  heater_bed_output (isr_pwm x)
  = (pwm_counter (isr_statics x) <=? bed_pwm x) && (0 <? bed_pwm x) /\
  pwm_counter (isr_statics (isr_pwm x))
  = uint8 (pwm_counter (isr_statics x) + 1).
Proof.
  unfold isr_pwm, heater_0_output, heater_bed_output, bed_pwm,
    extruder_pwm, set_pin, HEATER_0_PIN, HEATER_BED_PIN.
  cbn. rewrite !written_bit by assumption.
  repeat split; reflexivity.
Qed.

Lemma isr_cases (ADC : Z) (s : state) :
  (pwm_tick s = true /\
   isr ADC s
   = isr_pwm
       (set_isr_statics
          (IsrStatic (adc_sensor_state (isr_statics (isr_adc ADC s)))
                     (local_raw_adc_hotend (isr_statics (isr_adc ADC s)))
                     (local_raw_adc_bed (isr_statics (isr_adc ADC s)))
                     (uint8 (skip_counter (isr_statics (isr_adc ADC s)) + 1))
                     (pwm_counter (isr_statics (isr_adc ADC s))))
          (isr_adc ADC s)))
  \/
  (pwm_tick s = false /\
   isr ADC s
   = set_isr_statics
       (IsrStatic (adc_sensor_state (isr_statics (isr_adc ADC s)))
                  (local_raw_adc_hotend (isr_statics (isr_adc ADC s)))
                  (local_raw_adc_bed (isr_statics (isr_adc ADC s)))
                  (uint8 (skip_counter (isr_statics (isr_adc ADC s)) + 1))
                  (pwm_counter (isr_statics (isr_adc ADC s))))
       (isr_adc ADC s)).
Proof.
  unfold isr, pwm_tick.
  destruct (isr_adc_frame ADC s) as (Hskip & _).
  cbn [isr_statics set_isr_statics skip_counter]. rewrite Hskip.
  destruct (uint8 (skip_counter (isr_statics s) + 1) mod skip_mask =? 0);
    cbn [negb]; [left|right]; split; reflexivity.
Qed.

Lemma isr_keeps_running (ADC : Z) (s : state) :
  Running (isr ADC s) = Running s.
Proof.
  destruct (isr_adc_frame ADC s) as (_ & _ & _ & _ & _ & _ & _ & _ & _ & F).
  destruct (isr_cases ADC s) as [[_ ->]|[_ ->]].
  - match goal with
    | |- context [isr_pwm ?x] =>
        destruct (isr_pwm_facts x) as (_ & _ & _ & _ & -> & _)
    end.
    exact F.
  - exact F.
Qed.

Lemma isr_keeps_idle (ADC : Z) (s : state) : idle s -> idle (isr ADC s).
Proof.
  unfold idle. intros (T & Tb & P & B & O & Ob).
  destruct (isr_adc_frame ADC s)
    as (_ & _ & F1 & F2 & _ & F4 & F5 & F6 & F7 & _).
  destruct (isr_cases ADC s) as [[_ ->]|[_ ->]].
  - match goal with
    | |- context [isr_pwm ?x] =>
        destruct (isr_pwm_facts x) as (I1 & I2 & I3 & I4 & _ & I5 & I6 & _)
    end.
    rewrite I1, I2, I3, I4, I5, I6. unfold bed_pwm.
    cbn [has_bed_thermal_management soft_pwm_amount is_bed_heating
         target_temperature target_temperature_bed set_isr_statics].
    rewrite F1, F2, F6, F7, P, B, T, Tb.
    rewrite !andb_false_r. repeat split; reflexivity.
  - unfold heater_0_output, heater_bed_output in *.
    cbn [soft_pwm_amount is_bed_heating target_temperature
         target_temperature_bed DIO4_WPORT DIO3_WPORT set_isr_statics].
    rewrite F1, F2, F4, F5, F6, F7. repeat split; assumption.
Qed.

Lemma check_hotend_raw_idle (raw : Z) (s : state) :
  target_temperature s = 0 -> check_hotend_raw raw s = Returns tt s.
Proof.
  intros Ht. unfold check_hotend_raw. rewrite Ht.
  cbn [Z.ltb Z.compare]. rewrite !andb_false_r.
  cbn [when obind]. rewrite Ht. cbn [Z.ltb Z.compare].
  rewrite !andb_false_r. destruct (_ <? _); reflexivity.
Qed.

Lemma check_bed_raw_idle (raw : Z) (s : state) :
  target_temperature_bed s = 0 -> check_bed_raw raw s = Returns tt s.
Proof.
  intros Ht. unfold check_bed_raw. rewrite Ht.
  cbn [Z.ltb Z.compare]. rewrite !andb_false_r.
  cbn [when obind]. rewrite Ht. cbn [Z.ltb Z.compare].
  rewrite !andb_false_r. destruct (_ <? _); reflexivity.
Qed.

Lemma watch_hotend_targets (ms : Z) (s s' : state) :
  watch_hotend ms s = Returns tt s' ->
  target_temperature s' = target_temperature s /\
  target_temperature_bed s' = target_temperature_bed s.
Proof.
  unfold watch_hotend. cbn [ENABLE_ERROR_1A andb].
  destruct (_ && _); intros E; inversion E; subst s'; clear E;
    [unfold start_watching_heater|]; split; split_ifs; reflexivity.
Qed.

Lemma watch_bed_targets (ms : Z) (s s' : state) :
  watch_bed ms s = Returns tt s' ->
  target_temperature s' = target_temperature s /\
  target_temperature_bed s' = target_temperature_bed s.
Proof.
  unfold watch_bed. cbn [ENABLE_ERROR_1B andb].
  destruct (_ && _); intros E; inversion E; subst s'; clear E;
    [unfold start_watching_bed|]; split; split_ifs; reflexivity.
Qed.

Lemma manage_heater_keeps_idle (s : state) :
  0 <= BED_MIN_TEMP ->
  idle s ->
  exists b s',
    manage_heater s = Returns b s' /\ idle s' /\ Running s' = Running s.
Proof.
  intros Hmin (T & Tb & P & B & O & Ob).
  rewrite manage_heater_unfold, update_unfold.
  destruct (ready_ (irq s)).
  2: { cbn [obind negb]. exists false, s. split; [reflexivity|].
       repeat split; assumption. }
  assert (R1 : Running (publish (raw_adc_hotend (irq s))
                          (raw_adc_bed (irq s))
                          (set_irq (Interrupt false (raw_adc_hotend (irq s))
                                      (raw_adc_bed (irq s))) s))
               = Running s).
  { rewrite (proj1 (publish_facts _ _ _)). reflexivity. }
  rewrite check_hotend_raw_idle by exact T. cbn [obind].
  rewrite check_bed_raw_idle by exact Tb. cbn [obind negb].
  set (s1 := publish _ _ _).
  destruct (publish_facts (raw_adc_hotend (irq s)) (raw_adc_bed (irq s))
              (set_irq (Interrupt false (raw_adc_hotend (irq s))
                                  (raw_adc_bed (irq s))) s))
    as (_ & _ & _ & _ & _ & _ & C1 & C2 & C3 & C4).
  fold s1 in C1, C2, C3, C4, R1.
  cbn [target_temperature target_temperature_bed set_irq] in C3, C4.
  destruct (watch_hotend_returns (millis s1) s1)
    as (s4 & E4 & [R4 _] & W1 & W2).
  destruct (watch_hotend_targets _ _ _ E4) as [W3 W4].
  rewrite E4. cbn [obind].
  destruct (watch_bed_returns (millis s1) s4)
    as (s5 & E5 & [R5 _] & V1 & V2).
  destruct (watch_bed_targets _ _ _ E5) as [V3 V4].
  rewrite E5. cbn [obind].
  eexists. eexists. split; [reflexivity|].
  split.
  2: { destruct (undisturbed_setters s5) as (_ & _ & [Rh _] & _).
       destruct (undisturbed_setters (drive_hotend s5))
         as (_ & _ & _ & [Rb _]).
       congruence. }
  destruct (drive_hotend_facts H4 s5) as (D1 & D2 & D3 & D4 & D5 & D6).
  destruct (drive_bed_facts H3 (drive_hotend s5))
    as (B1 & B2 & B3 & B4 & B5 & B6 & B7 & B8).
  assert (T5 : target_temperature s5 = 0) by congruence.
  assert (Tb5 : target_temperature_bed s5 = 0) by congruence.
  unfold idle. rewrite B3, B5, D1, D3, B1.
  split; [exact T5|]. split; [exact Tb5|]. split.
  { destruct (Z.eq_dec (soft_pwm_amount (drive_hotend s5)) 0) as [E|E];
      [exact E|]. destruct (D5 E) as [Hne _]. contradiction. }
  split.
  { destruct (is_bed_heating (drive_bed (drive_hotend s5))) eqn:E;
      [|reflexivity].
    destruct (B7 eq_refl) as [Hin Hlt]. rewrite D3 in Hlt. lia. }
  split.
  { unfold heater_0_output. rewrite B2. apply (D6 T5). }
  apply B8. left. rewrite D3. exact Tb5.
Qed.

Lemma disable_all_heaters_idle (s : state) :
  idle (disable_all_heaters s).
Proof.
  destruct (disable_all_heaters_off s H4 H3) as (A & B & C & D & E & F).
  unfold idle. repeat split; assumption.
Qed.

(** X17.  [disable_all_heaters] leaves the heaters idle: no target, no
    duty, outputs low.  With a bed minimum temperature that is not
    negative, idle heaters stay idle through any sequence of timer
    interrupts (with any conversion results) and calls of
    [manage_heater], and none of these calls locks the machine: the
    run flag is unchanged. *)
Theorem idle_heaters_stay_off (s : state) (es : list event) :
  0 <= BED_MIN_TEMP ->
  idle (disable_all_heaters s) /\
  (idle s ->
   exists s', run es s = Returns tt s' /\ idle s' /\
              Running s' = Running s).
Proof.
  intros Hmin. split; [apply disable_all_heaters_idle|].
  revert s. induction es as [|e es IH]; intros s Hs.
  - exists s. split; [reflexivity|]. split; [exact Hs|reflexivity].
  - destruct e as [ADC|]; cbn [run].
    + destruct (IH (isr ADC s) (isr_keeps_idle ADC s Hs))
        as (s' & Hrun & Hi & Hr).
      exists s'. split; [exact Hrun|]. split; [exact Hi|].
      rewrite Hr. apply isr_keeps_running.
    + destruct (manage_heater_keeps_idle s Hmin Hs)
        as (b & s1 & -> & Hi1 & Hr1).
      cbn [obind].
      destruct (IH s1 Hi1) as (s' & Hrun & Hi & Hr).
      exists s'. split; [exact Hrun|]. split; [exact Hi|]. congruence.
Qed.

End Idle.

Section Sampler.
Context {board : Board}.
Hypothesis H4 : 0 <= DIO4_PIN < 8.
Hypothesis H3 : 0 <= DIO3_PIN < 8.

Ltac split_ifs :=
  repeat match goal with
         | |- context [if ?c then _ else _] => destruct c
         end.

Lemma manage_heater_driven (s s' : state) :
  manage_heater s = Returns true s' ->
  exists s5,
    s' = drive_bed (drive_hotend s5) /\
    current_temperature s5
    = Thermistor_adc_to_temperature
        (Thermistor_clamp_adc (raw_adc_hotend (irq s))) /\
    current_temperature_bed s5
    = Thermistor_adc_to_temperature
        (Thermistor_clamp_adc (raw_adc_bed (irq s))).
Proof.
  rewrite manage_heater_unfold. intros H.
  apply obind_Returns in H. destruct H as (b & s1 & Hu & H).
  pose proof (update_outcome H4 H3 s) as Ho. rewrite Hu in Ho.
  destruct Ho as (Hb & _ & Hpub).
  destruct b; cbn [negb] in H; [|discriminate H].
  destruct (Hpub eq_refl) as (s3 & Hs1 & _).
  destruct (publish_facts (raw_adc_hotend (irq s)) (raw_adc_bed (irq s)) s3)
    as (_ & _ & _ & _ & _ & _ & C1 & C2 & _).
  rewrite <- Hs1 in C1, C2.
  destruct (watch_hotend_returns (millis s1) s1) as (s4 & E4 & Hw).
  rewrite E4 in H. cbn [obind] in H.
  destruct (watch_bed_returns (millis s1) s4) as (s5 & E5 & Hw').
  rewrite E5 in H. cbn [obind] in H.
  injection H as <-. exists s5. split; [reflexivity|].
  destruct Hw as (_ & T1 & T2). destruct Hw' as (_ & T3 & T4').
  split; congruence.
Qed.

(** The ADC part of the interrupt is all that touches the sampler and
    the hand-over to the main loop. *)
Lemma isr_pwm_sampler (x : state) :
  adc_sensor_state (isr_statics (isr_pwm x))
  = adc_sensor_state (isr_statics x) /\
  local_raw_adc_hotend (isr_statics (isr_pwm x))
  = local_raw_adc_hotend (isr_statics x) /\
  local_raw_adc_bed (isr_statics (isr_pwm x))
  = local_raw_adc_bed (isr_statics x) /\
  skip_counter (isr_statics (isr_pwm x)) = skip_counter (isr_statics x) /\
  irq (isr_pwm x) = irq x.
Proof.
  unfold isr_pwm, set_pin, HEATER_0_PIN, HEATER_BED_PIN.
  cbn. repeat split; reflexivity.
Qed.

Lemma isr_sampler (ADC : Z) (s : state) :
  adc_sensor_state (isr_statics (isr ADC s))
  = adc_sensor_state (isr_statics (isr_adc ADC s)) /\
  local_raw_adc_hotend (isr_statics (isr ADC s))
  = local_raw_adc_hotend (isr_statics (isr_adc ADC s)) /\
  local_raw_adc_bed (isr_statics (isr ADC s))
  = local_raw_adc_bed (isr_statics (isr_adc ADC s)) /\
  irq (isr ADC s) = irq (isr_adc ADC s).
Proof.
  destruct (isr_cases ADC s) as [[_ ->]|[_ ->]].
  - match goal with
    | |- context [isr_pwm ?x] =>
        destruct (isr_pwm_sampler x) as (-> & -> & -> & _ & ->)
    end.
    repeat split; reflexivity.
  - repeat split; reflexivity.
Qed.

(** One interrupt, seen from the sampler. *)
Lemma isr_phase (ADC : Z) (s : state) :
  match adc_sensor_state (isr_statics s) with
  | initialize_hotend =>
      adc_sensor_state (isr_statics (isr ADC s)) = read_hotend /\
      local_raw_adc_hotend (isr_statics (isr ADC s))
      = local_raw_adc_hotend (isr_statics s) /\
      local_raw_adc_bed (isr_statics (isr ADC s))
      = local_raw_adc_bed (isr_statics s) /\
      irq (isr ADC s) = irq s
  | read_hotend =>
      adc_sensor_state (isr_statics (isr ADC s)) = initialize_bed /\
      local_raw_adc_hotend (isr_statics (isr ADC s))
      = running_average_add (local_raw_adc_hotend (isr_statics s))
                            (uint16 (uint16 ADC * OVERSAMPLENR)) /\
      local_raw_adc_bed (isr_statics (isr ADC s))
      = local_raw_adc_bed (isr_statics s) /\
      irq (isr ADC s) = irq s
  | initialize_bed =>
      adc_sensor_state (isr_statics (isr ADC s)) = read_bed /\
      local_raw_adc_hotend (isr_statics (isr ADC s))
      = local_raw_adc_hotend (isr_statics s) /\
      local_raw_adc_bed (isr_statics (isr ADC s))
      = local_raw_adc_bed (isr_statics s) /\
      irq (isr ADC s) = irq s
  | read_bed =>
      adc_sensor_state (isr_statics (isr ADC s)) = initialize_hotend /\
      local_raw_adc_hotend (isr_statics (isr ADC s))
      = local_raw_adc_hotend (isr_statics s) /\
      local_raw_adc_bed (isr_statics (isr ADC s))
      = running_average_add (local_raw_adc_bed (isr_statics s))
                            (uint16 (uint16 ADC * OVERSAMPLENR)) /\
      irq (isr ADC s)
      = Interrupt true
          (running_average_value (local_raw_adc_hotend (isr_statics s)))
          (running_average_value
             (running_average_add (local_raw_adc_bed (isr_statics s))
                                  (uint16 (uint16 ADC * OVERSAMPLENR))))
  | ready => True
  end.
Proof.
  destruct (isr_sampler ADC s) as (-> & -> & -> & ->).
  unfold isr_adc.
  destruct (adc_sensor_state (isr_statics s)); cbn;
    repeat split; reflexivity.
Qed.

(** X18.  Starting from the sampler state [initialize_hotend], four
    timer interrupts make one sampling cycle: the first three leave the
    hand-over to the main loop untouched; the second conversion result
    goes into the hotend average and the fourth into the bed average
    (the first and third are not read); after the fourth the sampler is
    back at [initialize_hotend] and the two averages are handed over
    with the ready flag set.  A call of [manage_heater] that then
    returns has returned [true] and has published the thermistor table
    values of these two averages, clamped, as current temperatures. *)
Theorem sampling_cycle (a1 a2 a3 a4 : Z) (s : state) :
  adc_sensor_state (isr_statics s) = initialize_hotend ->
  let hotend :=
    running_average_add (local_raw_adc_hotend (isr_statics s))
                        (uint16 (uint16 a2 * OVERSAMPLENR)) in
  let bed :=
    running_average_add (local_raw_adc_bed (isr_statics s))
                        (uint16 (uint16 a4 * OVERSAMPLENR)) in
  let s' := ticks [a1; a2; a3; a4] s in
  irq (ticks [a1; a2; a3] s) = irq s /\
  adc_sensor_state (isr_statics s') = initialize_hotend /\
  local_raw_adc_hotend (isr_statics s') = hotend /\
  local_raw_adc_bed (isr_statics s') = bed /\
  irq s' = Interrupt true (running_average_value hotend)
                     (running_average_value bed) /\
  (forall b s'', manage_heater s' = Returns b s'' ->
     b = true /\
     current_temperature s''
     = Thermistor_adc_to_temperature
         (Thermistor_clamp_adc (running_average_value hotend)) /\
     current_temperature_bed s''
     = Thermistor_adc_to_temperature
         (Thermistor_clamp_adc (running_average_value bed))).
Proof.
  intros H0 hotend bed. unfold ticks. cbn [fold_left].
  pose proof (isr_phase a1 s) as P1. rewrite H0 in P1.
  destruct P1 as (Q1 & A1 & B1 & I1).
  pose proof (isr_phase a2 (isr a1 s)) as P2. rewrite Q1 in P2.
  destruct P2 as (Q2 & A2 & B2 & I2).
  pose proof (isr_phase a3 (isr a2 (isr a1 s))) as P3. rewrite Q2 in P3.
  destruct P3 as (Q3 & A3 & B3 & I3).
  pose proof (isr_phase a4 (isr a3 (isr a2 (isr a1 s)))) as P4.
  rewrite Q3 in P4. destruct P4 as (Q4 & A4 & B4 & I4).
  assert (Hh : local_raw_adc_hotend
                 (isr_statics (isr a4 (isr a3 (isr a2 (isr a1 s)))))
               = hotend) by (unfold hotend; congruence).
  assert (Hb : local_raw_adc_bed
                 (isr_statics (isr a4 (isr a3 (isr a2 (isr a1 s)))))
               = bed) by (unfold bed; congruence).
  assert (Hi : irq (isr a4 (isr a3 (isr a2 (isr a1 s))))
               = Interrupt true (running_average_value hotend)
                           (running_average_value bed)).
  { rewrite I4, A3, A2, A1, B3, B2, B1. reflexivity. }
  split; [congruence|]. split; [exact Q4|]. split; [exact Hh|].
  split; [exact Hb|]. split; [exact Hi|].
  intros b s'' Hm.
  set (s4 := isr a4 (isr a3 (isr a2 (isr a1 s)))) in *.
  assert (Hbt : b = true).
  { rewrite (manage_heater_flag H4 H3 _ _ _ Hm), Hi. reflexivity. }
  subst b. split; [reflexivity|].
  destruct (manage_heater_driven _ _ Hm) as (s5 & -> & C1 & C2).
  destruct (drive_hotend_facts H4 s5) as (_ & D2 & _ & D4 & _).
  destruct (drive_bed_facts H3 (drive_hotend s5))
    as (_ & _ & _ & E4 & _ & E6 & _).
  rewrite E4, E6, D2, D4, C1, C2, Hi. split; reflexivity.
Qed.

(** X19.  The running average over 32 samples of 16 bits: a sum of at
    most [65535 * 32] stays so when a sample of 16 bits is added, so
    the assumption the code states holds and the averaged value is
    [value_ / 32] without truncation; adding a sample moves the sum
    towards 32 times the sample and never past it; the sum stays as it
    is exactly when the averaged value equals the sample. *)
Theorem running_average_tracks (value_ new_value : Z) :
  0 <= value_ <= 65535 * 32 ->
  0 <= new_value <= 65535 ->
  0 <= running_average_add value_ new_value <= 65535 * 32 /\
  running_average_value value_ = value_ / 32 /\
  (new_value * 32 <= value_ ->
   new_value * 32 <= running_average_add value_ new_value <= value_) /\
  (value_ <= new_value * 32 ->
   value_ <= running_average_add value_ new_value <= new_value * 32) /\
  (running_average_add value_ new_value = value_ <->
   value_ / 32 = new_value).
Proof.
  intros Hv Hn.
  assert (Hval : running_average_value value_ = value_ / 32).
  { unfold running_average_value, uint16, wrap_unsigned.
    apply Z.mod_small. cbn [Z.pow Z.pow_pos Pos.iter Z.mul Pos.mul].
    pose proof (Z.div_le_upper_bound value_ 32 65535). 
    pose proof (Z.div_pos value_ 32). lia. }
  unfold running_average_add. rewrite Hval.
  pose proof (Z.div_mod value_ 32 ltac:(lia)) as Hd.
  pose proof (Z.mod_pos_bound value_ 32 ltac:(lia)) as Hm.
  repeat split; intros; lia.
Qed.

End Sampler.

Section SoftPwm.
Context {board : Board}.
Hypothesis H4 : 0 <= DIO4_PIN < 8.
Hypothesis H3 : 0 <= DIO3_PIN < 8.

(** One interrupt, seen from the soft PWM. *)
Lemma isr_pwm_step (ADC : Z) (s : state) :
  let sk := skip_counter (isr_statics s) in
  let pc := pwm_counter (isr_statics s) in
  let tick := (uint8 (sk + 1) mod 8 =? 0) in
  skip_counter (isr_statics (isr ADC s)) = uint8 (sk + 1) /\
  pwm_counter (isr_statics (isr ADC s))
  = (if tick then uint8 (pc + 1) else pc) /\
  soft_pwm_amount (isr ADC s) = soft_pwm_amount s /\
  bed_pwm (isr ADC s) = bed_pwm s /\
  heater_0_output (isr ADC s)
  = (if tick then (pc <=? soft_pwm_amount s) && (0 <? soft_pwm_amount s)
     else heater_0_output s) /\
  heater_bed_output (isr ADC s)
  = (if tick then (pc <=? bed_pwm s) && (0 <? bed_pwm s)
     else heater_bed_output s).
Proof.
  intros sk pc tick.
  destruct (isr_adc_frame ADC s)
    as (F0 & F0' & F1 & F2 & F3 & F4 & F5 & _).
  destruct (isr_cases ADC s) as [[Ht ->]|[Ht ->]];
    unfold pwm_tick, skip_mask in Ht; fold sk in Ht; fold tick in Ht;
    rewrite Ht.
  - match goal with
    | |- context [isr_pwm ?x] =>
        destruct (isr_pwm_facts H4 H3 x)
          as (I1 & I2 & _ & _ & _ & I5 & I6 & I7);
        destruct (isr_pwm_sampler x) as (_ & _ & _ & I8 & _)
    end.
    rewrite I8, I7, I1, I5, I6. unfold bed_pwm. rewrite I2.
    cbn [has_bed_thermal_management soft_pwm_amount is_bed_heating
         isr_statics skip_counter pwm_counter set_isr_statics].
    rewrite F0, F0', F1, F2. repeat split; reflexivity.
  - unfold heater_0_output, heater_bed_output, bed_pwm.
    cbn [has_bed_thermal_management soft_pwm_amount is_bed_heating
         isr_statics skip_counter pwm_counter set_isr_statics
         DIO4_WPORT DIO3_WPORT].
    rewrite F0, F0', F1, F2, F4, F5. repeat split; reflexivity.
Qed.

Lemma ticks_cons (a : Z) (adcs : list Z) (s : state) :
  ticks (a :: adcs) s = ticks adcs (isr a s).
Proof. reflexivity. Qed.

(** X20.  The soft PWM over any number [n] of timer interrupts, from
    skip counter [sk] and PWM counter [pc]: the skip counter ends at
    [(sk + n) mod 256], the PWM code has run [(sk + n) / 8 - sk / 8]
    times and the PWM counter has advanced by that modulo 256; the
    duties are unchanged; the heater outputs are as they were if the
    PWM code has not run, and otherwise high exactly when the duty is
    above 0 and the PWM counter value of the last run was at most the
    duty. *)
Theorem soft_pwm_schedule (adcs : list Z) (s : state) :
  0 <= skip_counter (isr_statics s) < 256 ->
  0 <= pwm_counter (isr_statics s) < 256 ->
  let sk := skip_counter (isr_statics s) in
  let pc := pwm_counter (isr_statics s) in
  let n := Z.of_nat (length adcs) in
  let pwm_runs := (sk + n) / 8 - sk / 8 in
  let s' := ticks adcs s in
  skip_counter (isr_statics s') = (sk + n) mod 256 /\
  pwm_counter (isr_statics s') = (pc + pwm_runs) mod 256 /\
  soft_pwm_amount s' = soft_pwm_amount s /\
  bed_pwm s' = bed_pwm s /\
  (pwm_runs = 0 ->
   heater_0_output s' = heater_0_output s /\
   heater_bed_output s' = heater_bed_output s) /\
  (0 < pwm_runs ->
   heater_0_output s'
   = ((pc + pwm_runs - 1) mod 256 <=? soft_pwm_amount s)
     && (0 <? soft_pwm_amount s) /\
   heater_bed_output s'
   = ((pc + pwm_runs - 1) mod 256 <=? bed_pwm s) && (0 <? bed_pwm s)).
Proof.
  revert s. induction adcs as [|a adcs IH]; intros s Hsk Hpc.
  - cbn [length Z.of_nat]. unfold ticks. cbn [fold_left].
    rewrite Z.add_0_r, Z.sub_diag, Z.add_0_r.
    rewrite !Z.mod_small by lia.
    repeat split; try reflexivity; intros; lia.
  - cbv zeta. rewrite ticks_cons.
    destruct (isr_pwm_step a s) as (S1 & S2 & S3 & S4 & S5 & S6).
    set (sk := skip_counter (isr_statics s)) in *.
    set (pc := pwm_counter (isr_statics s)) in *.
    assert (Hu : uint8 (sk + 1) = (sk + 1) mod 256) by reflexivity.
    assert (Hp : uint8 (pc + 1) = (pc + 1) mod 256) by reflexivity.
    rewrite Hu in S1, S2, S5, S6. rewrite Hp in S2. clear Hu Hp.
    assert (Hsk' : 0 <= skip_counter (isr_statics (isr a s)) < 256).
    { rewrite S1. apply Z.mod_pos_bound. lia. }
    assert (Hpc' : 0 <= pwm_counter (isr_statics (isr a s)) < 256).
    { rewrite S2. destruct (_ =? 0); [apply Z.mod_pos_bound|]; lia. }
    specialize (IH (isr a s) Hsk' Hpc'). cbv zeta in IH.
    destruct IH as (J1 & J2 & J3 & J4 & J5 & J6).
    rewrite S1, S2, S3, S4, S5, S6 in *.
    clear S1 S2 S3 S4 S5 S6 Hsk' Hpc'.
    replace (Z.of_nat (length (a :: adcs)))
      with (Z.of_nat (length adcs) + 1) by (cbn [length]; lia).
    set (n := Z.of_nat (length adcs)) in *.
    assert (Hn : 0 <= n) by (unfold n; lia).
    set (d := soft_pwm_amount s) in *. set (db := bed_pwm s) in *.
    clearbody n d db sk pc. 
    rewrite J1, J2, J3, J4. clear J1 J2 J3 J4.
    (* the tick count of the remaining interrupts *)
    assert (Hcount :
      ((sk + 1) mod 256 + n) / 8 - (sk + 1) mod 256 / 8
      = (sk + (n + 1)) / 8 - sk / 8
        - (if (sk + 1) mod 256 mod 8 =? 0 then 1 else 0)).
    { destruct (Z.eqb_spec ((sk + 1) mod 256 mod 8) 0) as [E|E];
        destruct (Z.eq_dec sk 255) as [->|Hne].
      - change ((255 + 1) mod 256) with 0.
        change (0 / 8) with 0. change (255 / 8) with 31.
        replace (255 + (n + 1)) with (n + 32 * 8) by lia.
        rewrite Z.div_add by lia. rewrite Z.add_0_l. lia.
      - rewrite (Z.mod_small (sk + 1)) in * by lia.
        replace (sk + 1 + n) with (sk + (n + 1)) by lia.
        Z.div_mod_to_equations. lia.
      - exfalso. apply E. reflexivity.
      - rewrite (Z.mod_small (sk + 1)) in * by lia.
        replace (sk + 1 + n) with (sk + (n + 1)) by lia.
        Z.div_mod_to_equations. lia. }
    assert (Hticks : 0 <= ((sk + 1) mod 256 + n) / 8
                          - (sk + 1) mod 256 / 8).
    { pose proof (Z.mod_pos_bound (sk + 1) 256 ltac:(lia)).
      Z.div_mod_to_equations. lia. }
    set (t' := ((sk + 1) mod 256 + n) / 8 - (sk + 1) mod 256 / 8) in *.
    set (t := (sk + (n + 1)) / 8 - sk / 8) in *.
    replace (sk + (n + 1)) with (sk + n + 1) in * by lia.
    clearbody t t'.
    split.
    { rewrite <- Z.add_assoc, Z.add_mod_idemp_l by lia.
      f_equal. lia. }
    destruct ((sk + 1) mod 256 mod 8 =? 0).
    + assert (Ht : t = t' + 1) by lia. subst t.
      split.
      { rewrite Z.add_mod_idemp_l by lia. f_equal. lia. }
      split; [reflexivity|]. split; [reflexivity|].
      split; [intros; lia|]. intros _.
      destruct (Z.eq_dec t' 0) as [->|Hpos].
      * destruct (J5 eq_refl) as [-> ->].
        replace (pc + (0 + 1) - 1) with pc by lia.
        rewrite Z.mod_small by lia. split; reflexivity.
      * destruct (J6 ltac:(lia)) as [-> ->].
        replace ((pc + 1) mod 256 + t' - 1)
          with ((pc + 1) mod 256 + (t' - 1)) by lia.
        rewrite Z.add_mod_idemp_l by lia.
        replace (pc + 1 + (t' - 1)) with (pc + (t' + 1) - 1) by lia.
        split; reflexivity.
    + assert (Ht : t = t') by lia. subst t.
      split; [reflexivity|]. split; [reflexivity|]. split; [reflexivity|].
      split; assumption.
Qed.

End SoftPwm.

Import ThermalRunExamples.

Lemma manage_heater_outcome_witness :
  Running (final_state (manage_heater (board := example_board)
                                      overheated_state)) = false.
Proof.
  pose proof (manage_heater_outcome (board := example_board)) as Hout.
  specialize (Hout ltac:(cbn; lia) ltac:(cbn; lia) overheated_state).
  destruct (manage_heater (board := example_board) overheated_state)
    as [b s'|s0] eqn:E.
  - vm_compute in E. discriminate E.
  - cbn [final_state]. exact (proj1 (proj2 Hout)).
Defined.

Lemma manage_heater_powers_safely_witness :
  manage_heater (board := example_board) stuck_state
  = Returns true stuck_managed /\
  soft_pwm_amount stuck_managed = 255 /\
  HOTEND_MIN_TEMP (Board := example_board)
  < current_temperature stuck_managed
  < HOTEND_MAX_TEMP (Board := example_board).
Proof.
  assert (Hm : manage_heater (board := example_board) stuck_state
               = Returns true stuck_managed) by (vm_compute; reflexivity).
  pose proof (manage_heater_powers_safely (board := example_board)) as Hp.
  specialize (Hp ltac:(cbn; lia) ltac:(cbn; lia) _ _ Hm).
  destruct Hp as (Hon & _).
  split; [exact Hm|]. split; [reflexivity|].
  apply Hon. vm_compute. discriminate.
Defined.

Lemma idle_heaters_stay_off_witness :
  exists s',
    run (board := example_board) [Tick 500; Manage; Tick 7; Manage]
        (disable_all_heaters (board := example_board) stuck_state)
    = Returns tt s' /\
    idle (board := example_board) s'.
Proof.
  pose proof (idle_heaters_stay_off (board := example_board)) as Hidle.
  specialize (Hidle ltac:(cbn; lia) ltac:(cbn; lia)).
  destruct (Hidle stuck_state []) as [Hoff _]; [cbn; lia|].
  destruct (Hidle (disable_all_heaters (board := example_board) stuck_state)
                  [Tick 500; Manage; Tick 7; Manage])
    as [_ Hrun]; [cbn; lia|].
  destruct (Hrun Hoff) as (s' & Hret & Hi & _).
  exists s'. split; [exact Hret|exact Hi].
Defined.

Lemma sampling_cycle_witness :
  irq (ticks (board := example_board) [0; 500; 0; 600] init)
  = Interrupt true 250 300.
Proof.
  pose proof (sampling_cycle (board := example_board)) as Hcycle.
  specialize (Hcycle ltac:(cbn; lia) ltac:(cbn; lia) 0 500 0 600 init
                     eq_refl).
  destruct Hcycle as (_ & _ & _ & _ & Hirq & _).
  rewrite Hirq. vm_compute. reflexivity.
Defined.

Lemma running_average_tracks_witness :
  640 <= running_average_add 960 20 <= 960.
Proof.
  destruct (running_average_tracks 960 20) as (_ & _ & Hdown & _);
    [lia|lia|].
  apply Hdown. lia.
Defined.

Lemma soft_pwm_schedule_witness :
  pwm_counter (isr_statics (ticks (board := example_board)
                                  sixteen_ticks half_duty_state)) = 2 /\
  heater_0_output (board := example_board)
                  (ticks (board := example_board) sixteen_ticks
                         half_duty_state) = true.
Proof.
  pose proof (soft_pwm_schedule (board := example_board)) as Hpwm.
  specialize (Hpwm ltac:(cbn; lia) ltac:(cbn; lia) sixteen_ticks
                   half_duty_state ltac:(cbn; lia) ltac:(cbn; lia)).
  cbv zeta in Hpwm. destruct Hpwm as (_ & Hpc & _ & _ & _ & Hon).
  split; [rewrite Hpc; reflexivity|].
  destruct Hon as [Hh _]; [vm_compute; reflexivity|].
  rewrite Hh. reflexivity.
Defined.

End ThermalExtras.

(** * Properties of the command queue *)

Module CommandQueueProperties.
Import MachineInt CommandQueue CommandQueueViews.

Section Consistency.
Context {qcfg : QueueConfig}.
Hypothesis Hsize : 0 < BUFSIZE <= 255.

Lemma uint8_small (x : Z) : 0 <= x < 256 -> uint8 x = x.
Proof. intros H. unfold uint8, wrap_unsigned. apply Z.mod_small. lia. Qed.

Lemma ring_step (i : Z) :
  0 <= i < BUFSIZE ->
  (if BUFSIZE <=? uint8 (i + 1) then 0 else uint8 (i + 1))
  = (i + 1) mod BUFSIZE.
Proof.
  intros Hi. rewrite uint8_small by lia.
  destruct (Z.leb_spec BUFSIZE (i + 1)).
  - replace (i + 1) with BUFSIZE by lia. rewrite Z.mod_same by lia.
    reflexivity.
  - rewrite Z.mod_small by lia. reflexivity.
Qed.

Lemma store_slot_Ok {A : Type} (i : Z) (x : A) (l : list A) :
  0 <= i < Z.of_nat (length l) ->
  store_slot i x l = Some (<[Z.to_nat i := x]> l).
Proof.
  intros Hi. unfold store_slot.
  destruct (Z.leb_spec 0 i); [|lia].
  destruct (Z.ltb_spec i (Z.of_nat (length l))); [|lia]. reflexivity.
Qed.

Lemma write_index_range (q : state) :
  consistent q -> 0 <= cmd_queue_index_w q < BUFSIZE.
Proof.
  intros (_ & _ & -> & _). apply Z.mod_pos_bound. lia.
Qed.

(** What a successful [_enqueuecommand] leaves. *)
Lemma _enqueuecommand_accepts (cmd : String.string) (say_ok : bool)
      (q : state) :
  consistent q ->
  is_comment cmd = false ->
  commands_in_queue q < BUFSIZE ->
  Z.of_nat (String.length cmd) < MAX_CMD_SIZE ->
  _enqueuecommand cmd say_ok q
  = Some (true,
          QueueState (commands_in_queue q + 1) (cmd_queue_index_r q)
                   ((cmd_queue_index_w q + 1) mod BUFSIZE)
                   (<[Z.to_nat (cmd_queue_index_w q) := cmd]>
                      (command_queue q))
                   (<[Z.to_nat (cmd_queue_index_w q) := say_ok]>
                      (send_ok q))).
Proof.
  intros Hc Hcm Hfree Hlen.
  pose proof (write_index_range q Hc) as Hw.
  destruct Hc as (Hr & Hn & Hweq & Hl1 & Hl2).
  unfold _enqueuecommand. rewrite Hcm.
  destruct (Z.leb_spec BUFSIZE (commands_in_queue q)); [lia|].
  cbn [orb]. unfold strcpy_slot.
  destruct (Z.ltb_spec (Z.of_nat (String.length cmd)) MAX_CMD_SIZE);
    [|lia].
  rewrite store_slot_Ok by lia. unfold _commit_command.
  cbn [cmd_queue_index_w send_ok commands_in_queue cmd_queue_index_r
       command_queue].
  rewrite store_slot_Ok by lia.
  rewrite ring_step by lia. rewrite uint8_small by lia. reflexivity.
Qed.

Lemma loop_advance_takes (q : state) :
  consistent q ->
  0 < commands_in_queue q ->
  loop_advance q
  = QueueState (commands_in_queue q - 1)
               ((cmd_queue_index_r q + 1) mod BUFSIZE)
               (cmd_queue_index_w q) (command_queue q) (send_ok q).
Proof.
  intros (Hr & Hn & Hweq & Hl1 & Hl2) Hpos. unfold loop_advance.
  destruct (Z.eqb_spec (commands_in_queue q) 0); [lia|].
  rewrite ring_step by lia. rewrite uint8_small by lia. reflexivity.
Qed.

(** X21.  With a queue capacity between 1 and 255, the command queue
    stays consistent (read index in range, count at most the capacity,
    write index = read index + count modulo the capacity) under
    [clear_command_queue], under the removal of the processed command
    at the end of [loop()], which takes exactly one command unless the
    queue is empty, and under [_enqueuecommand] of a command that fits
    a slot.  [_enqueuecommand] returns [false], leaving the queue as it
    was, exactly when the command starts with a semicolon or the queue
    is full; otherwise it returns [true] and the count grows by one. *)
Theorem command_queue_consistent (q : state) :
  consistent q ->
  consistent (clear_command_queue q) /\
  consistent (loop_advance q) /\
  (commands_in_queue q = 0 -> loop_advance q = q) /\
  (0 < commands_in_queue q ->
   commands_in_queue (loop_advance q) = commands_in_queue q - 1) /\
  forall cmd say_ok,
    Z.of_nat (String.length cmd) < MAX_CMD_SIZE ->
    exists b q',
      _enqueuecommand cmd say_ok q = Some (b, q') /\
      consistent q' /\
      (b = false <->
       is_comment cmd = true \/ commands_in_queue q = BUFSIZE) /\
      (b = false -> q' = q) /\
      (b = true -> commands_in_queue q' = commands_in_queue q + 1).
Proof.
  intros Hc. pose proof (write_index_range q Hc) as Hw.
  pose proof Hc as (Hr & Hn & Hweq & Hl1 & Hl2).
  split.
  { unfold consistent, clear_command_queue.
    cbn [cmd_queue_index_r commands_in_queue cmd_queue_index_w
         command_queue send_ok].
    rewrite Z.add_0_r, Z.mod_small by lia. repeat split; lia. }
  assert (Hadv : consistent (loop_advance q)).
  { destruct (Z.eq_dec (commands_in_queue q) 0) as [E|E].
    - unfold loop_advance. rewrite E. exact Hc.
    - rewrite loop_advance_takes by (assumption || lia).
      unfold consistent.
      cbn [cmd_queue_index_r commands_in_queue cmd_queue_index_w
           command_queue send_ok].
      pose proof (Z.mod_pos_bound (cmd_queue_index_r q + 1) BUFSIZE
                    (proj1 Hsize)).
      repeat split; try lia.
      rewrite Z.add_mod_idemp_l by lia. rewrite Hweq. f_equal. lia. }
  split; [exact Hadv|].
  split.
  { intros E. unfold loop_advance. rewrite E. reflexivity. }
  split.
  { intros Hpos. rewrite loop_advance_takes by assumption. reflexivity. }
  intros cmd say_ok Hlen.
  destruct (is_comment cmd) eqn:Hcm.
  { exists false, q. unfold _enqueuecommand. rewrite Hcm. cbn [orb].
    split; [reflexivity|]. split; [exact Hc|].
    split; [split; [intros _; left; reflexivity|reflexivity]|].
    split; [reflexivity|discriminate]. }
  destruct (Z.eq_dec (commands_in_queue q) BUFSIZE) as [Hfull|Hfree].
  { exists false, q. unfold _enqueuecommand. rewrite Hcm. cbn [orb].
    destruct (Z.leb_spec BUFSIZE (commands_in_queue q)); [|lia].
    split; [reflexivity|]. split; [exact Hc|].
    split; [split; [intros _; right; exact Hfull|reflexivity]|].
    split; [reflexivity|discriminate]. }
  eexists. eexists.
  split; [apply _enqueuecommand_accepts; (assumption || lia)|].
  split.
  { unfold consistent.
    cbn [cmd_queue_index_r commands_in_queue cmd_queue_index_w
         command_queue send_ok].
    rewrite !length_insert.
    repeat split; try lia.
    rewrite Hweq, Z.add_mod_idemp_l by lia. f_equal. lia. }
  split.
  { split; [discriminate|]. intros [E|E]; [discriminate E|contradiction]. }
  split; [discriminate|]. intros _. reflexivity.
Qed.

End Consistency.

Section Fifo.
Context {qcfg : QueueConfig}.
Hypothesis Hsize : 0 < BUFSIZE <= 255.

Lemma ring_distinct (r j n : Z) :
  0 <= j < n -> n < BUFSIZE ->
  (r + j) mod BUFSIZE <> (r + n) mod BUFSIZE.
Proof.
  intros Hj Hn E.
  assert (H0 : ((r + n) - (r + j)) mod BUFSIZE = 0).
  { rewrite Zminus_mod, E, Z.sub_diag. apply Z.mod_0_l. lia. }
  replace (r + n - (r + j)) with (n - j) in H0 by lia.
  rewrite Z.mod_small in H0 by lia. lia.
Qed.

Lemma _enqueuecommand_true (cmd : String.string) (say_ok : bool)
      (q q' : state) :
  _enqueuecommand cmd say_ok q = Some (true, q') ->
  is_comment cmd = false /\ commands_in_queue q < BUFSIZE /\
  Z.of_nat (String.length cmd) < MAX_CMD_SIZE.
Proof.
  unfold _enqueuecommand, strcpy_slot.
  destruct (is_comment cmd); cbn [orb]; [discriminate|].
  destruct (Z.leb_spec BUFSIZE (commands_in_queue q)); [discriminate|].
  destruct (Z.ltb_spec (Z.of_nat (String.length cmd)) MAX_CMD_SIZE);
    [|discriminate].
  intros _. repeat split; assumption.
Qed.

Lemma pending_enqueued (cmd : String.string) (say_ok : bool) (q : state) :
  consistent q ->
  commands_in_queue q < BUFSIZE ->
  pending
    (QueueState (commands_in_queue q + 1) (cmd_queue_index_r q)
                ((cmd_queue_index_w q + 1) mod BUFSIZE)
                (<[Z.to_nat (cmd_queue_index_w q) := cmd]>
                   (command_queue q))
                (<[Z.to_nat (cmd_queue_index_w q) := say_ok]>
                   (send_ok q)))
  = pending q ++ [Some (cmd, say_ok)].
Proof.
  intros Hc Hfree. pose proof (write_index_range Hsize q Hc) as Hw.
  destruct Hc as (Hr & Hn & Hweq & Hl1 & Hl2).
  unfold pending. cbn [commands_in_queue].
  replace (Z.to_nat (commands_in_queue q + 1))
    with (S (Z.to_nat (commands_in_queue q))) by lia.
  rewrite seq_S, map_app. cbn [map Nat.add]. f_equal.
  - apply map_ext_in. intros j Hj. apply in_seq in Hj.
    unfold slot_after. cbn [cmd_queue_index_r command_queue send_ok].
    assert (Hne : Z.to_nat (cmd_queue_index_w q)
                  <> Z.to_nat ((cmd_queue_index_r q + Z.of_nat j)
                               mod BUFSIZE)).
    { intros E. apply Z2Nat.inj in E; [|lia|apply Z.mod_pos_bound; lia].
      rewrite Hweq in E. symmetry in E. revert E.
      apply ring_distinct; lia. }
    rewrite !list_lookup_insert_ne by exact Hne. reflexivity.
  - unfold slot_after. cbn [cmd_queue_index_r command_queue send_ok].
    rewrite Z2Nat.id by lia. rewrite <- Hweq.
    rewrite !list_lookup_insert_eq by lia. reflexivity.
Qed.

Lemma pending_advanced (q : state) :
  consistent q ->
  0 < commands_in_queue q ->
  pending
    (QueueState (commands_in_queue q - 1)
                ((cmd_queue_index_r q + 1) mod BUFSIZE)
                (cmd_queue_index_w q) (command_queue q) (send_ok q))
  = tail (pending q).
Proof.
  intros (Hr & Hn & Hweq & Hl1 & Hl2) Hpos.
  unfold pending. cbn [commands_in_queue].
  replace (Z.to_nat (commands_in_queue q))
    with (S (Z.to_nat (commands_in_queue q - 1))) by lia.
  cbn [seq map tail]. rewrite <- seq_shift, map_map.
  apply map_ext. intros j. unfold slot_after.
  cbn [cmd_queue_index_r command_queue send_ok].
  rewrite Z.add_mod_idemp_l by lia.
  replace (cmd_queue_index_r q + 1 + Z.of_nat j)
    with (cmd_queue_index_r q + Z.of_nat (S j)) by lia.
  reflexivity.
Qed.

(** X22.  The command queue is first in, first out.  In a consistent
    queue the pending commands, listed from the read index, are as many
    as [commands_in_queue]; [clear_command_queue] leaves none; a
    successful [_enqueuecommand] appends the command with its [send_ok]
    flag at the end and changes no other pending entry; the command the
    main loop processes, and whose [send_ok] it consults, is the first
    pending one, and removing it leaves the others in order. *)
Theorem command_queue_fifo (q : state) :
  consistent q ->
  Z.of_nat (length (pending q)) = commands_in_queue q /\
  pending (clear_command_queue q) = [] /\
  pending (loop_advance q) = tail (pending q) /\
  (0 < commands_in_queue q ->
   exists c o,
     current_command q = Some c /\ current_send_ok q = Some o /\
     head (pending q) = Some (Some (c, o))) /\
  (forall cmd say_ok q',
     _enqueuecommand cmd say_ok q = Some (true, q') ->
     pending q' = pending q ++ [Some (cmd, say_ok)]).
Proof.
  intros Hc. pose proof Hc as (Hr & Hn & Hweq & Hl1 & Hl2).
  split.
  { unfold pending. rewrite length_map, length_seq. lia. }
  split; [reflexivity|].
  split.
  { destruct (Z.eq_dec (commands_in_queue q) 0) as [E|E].
    - unfold loop_advance. rewrite E. cbn [Z.eqb].
      unfold pending. rewrite E. reflexivity.
    - rewrite (loop_advance_takes Hsize) by (assumption || lia).
      apply pending_advanced; [exact Hc|lia]. }
  split.
  { intros Hpos. unfold current_command, current_send_ok.
    destruct (lookup_lt_is_Some_2 (command_queue q)
                (Z.to_nat (cmd_queue_index_r q)) ltac:(lia)) as [c Ec].
    destruct (lookup_lt_is_Some_2 (send_ok q)
                (Z.to_nat (cmd_queue_index_r q)) ltac:(lia)) as [o Eo].
    exists c, o. split; [exact Ec|]. split; [exact Eo|].
    unfold pending.
    replace (Z.to_nat (commands_in_queue q))
      with (S (Z.to_nat (commands_in_queue q - 1))) by lia.
    cbn [seq map head]. unfold slot_after. cbn [Z.of_nat].
    rewrite Z.add_0_r, Z.mod_small by lia. rewrite Ec, Eo. reflexivity. }
  intros cmd say_ok q' He.
  destruct (_enqueuecommand_true _ _ _ _ He) as (Hcm & Hfree & Hlen).
  rewrite (_enqueuecommand_accepts Hsize) in He by assumption.
  injection He as <-. apply pending_enqueued; assumption.
Qed.

End Fifo.

Import CommandQueueExamples.

Lemma command_queue_consistent_witness :
  consistent (qcfg := example_queue_config)
             (loop_advance (qcfg := example_queue_config) example_queue) /\
  commands_in_queue (loop_advance (qcfg := example_queue_config)
                                  example_queue) = 0.
Proof.
  destruct (command_queue_consistent (qcfg := example_queue_config))
    with (q := example_queue) as (_ & Hadv & _ & Hone & _).
  - cbn. lia.
  - unfold consistent. cbn. repeat split; lia.
  - split; [exact Hadv|]. rewrite Hone; [reflexivity|cbn; lia].
Defined.

Lemma command_queue_fifo_witness :
  pending (qcfg := example_queue_config) example_queue
  = [Some ("G28"%string, true)] /\
  pending (qcfg := example_queue_config)
          (loop_advance (qcfg := example_queue_config) example_queue)
  = [].
Proof.
  destruct (command_queue_fifo (qcfg := example_queue_config))
    with (q := example_queue) as (_ & _ & Hadv & _).
  - cbn. lia.
  - unfold consistent. cbn. repeat split; lia.
  - split; [reflexivity|]. rewrite Hadv. reflexivity.
Defined.

End CommandQueueProperties.

(** * Properties of the software endstops *)

Module MotionProperties.
Import MachineInt Motion.

Lemma SFltb_irrefl (x : spec_float) : SFltb x x = false.
Proof.
  unfold SFltb.
  destruct x as [s| s| |s m e]; cbn [SFcompare]; try reflexivity.
  - destruct s; reflexivity.
  - destruct s; rewrite Z.compare_refl, ?Pos.compare_refl;
      reflexivity.
Qed.

Lemma clamp_axis (v lo hi : F32.float) :
  F32.gtb lo hi = false ->
  let r := NOMORE (NOLESS v lo) hi in
  F32.ltb r lo = false /\ F32.gtb r hi = false /\
  (r = v \/ r = lo \/ r = hi) /\
  (F32.ltb v lo = false -> F32.gtb v hi = false -> r = v).
Proof.
  intros Hlh. unfold NOMORE, NOLESS, F32.gtb, F32.ltb in *.
  destruct (SFltb v lo) eqn:E1.
  - rewrite Hlh. rewrite SFltb_irrefl.
    repeat split; auto; discriminate.
  - destruct (SFltb hi v) eqn:E2.
    + rewrite SFltb_irrefl. repeat split; auto; discriminate.
    + rewrite E1, E2. repeat split; auto.
Qed.

(** X23.  [clamp_to_software_endstops] never touches E, and does
    nothing when the software endstops are disabled.  When they are
    enabled and the minimum of an axis X, Y or Z is not above its
    maximum, the clamped coordinate is neither below the minimum nor
    above the maximum, and a coordinate that was neither already is
    returned unchanged. *)
Theorem clamp_to_software_endstops_bounds (g : soft_endstops)
        (target : xyze F32.float) (axis : AxisEnum) :
  axis <> E_AXIS ->
  F32.gtb (axis_get (soft_endstop_min g) axis)
          (axis_get (soft_endstop_max g) axis) = false ->
  let r := clamp_to_software_endstops g target in
  at_E r = at_E target /\
  (soft_endstops_enabled g = false -> r = target) /\
  (soft_endstops_enabled g = true ->
   F32.ltb (axis_get r axis) (axis_get (soft_endstop_min g) axis) = false
   /\
   F32.gtb (axis_get r axis) (axis_get (soft_endstop_max g) axis) = false
   /\
   (F32.ltb (axis_get target axis) (axis_get (soft_endstop_min g) axis)
    = false ->
    F32.gtb (axis_get target axis) (axis_get (soft_endstop_max g) axis)
    = false ->
    axis_get r axis = axis_get target axis)).
Proof.
  intros Hax Hlh r. subst r. unfold clamp_to_software_endstops.
  destruct (soft_endstops_enabled g); cbn [negb].
  - split; [reflexivity|]. split; [discriminate|]. intros _.
    destruct axis; try contradiction; cbn [axis_get at_X at_Y at_Z] in *.
    all: match goal with
         | |- context [NOMORE (NOLESS ?v ?lo) ?hi] =>
             destruct (clamp_axis v lo hi Hlh) as (A & B & _ & D)
         end; repeat split; assumption.
  - split; [reflexivity|]. split; [reflexivity|discriminate].
Qed.

Import MotionExamples.

Lemma clamp_to_software_endstops_bounds_witness :
  at_X (clamp_to_software_endstops example_endstops example_target)
  = F32.of_Z 200 /\
  F32.gtb (at_X (clamp_to_software_endstops example_endstops
                                            example_target))
          (at_X (soft_endstop_max example_endstops)) = false.
Proof.
  destruct (clamp_to_software_endstops_bounds
              example_endstops example_target X_AXIS)
    as (_ & _ & Hon).
  - discriminate.
  - vm_compute. reflexivity.
  - split; [vm_compute; reflexivity|].
    destruct (Hon eq_refl) as (_ & Hmax & _). exact Hmax.
Defined.

End MotionProperties.
